(** * The per-ship render context of Floating Sandbox

    A shallow embedding of [Render::ShipRenderContext]
    (Game/ShipRenderContext.cpp): the point buffers it uploads, the
    depth-layer ortho matrices it pushes to the shader programs, the
    generic-texture vertex buffer, the vector overlay builder and the
    draw sequence issued by [RenderEnd].

    Conventions.
    - C++ integers are [Z] with the wrap-around of their width written out
      ([size_t] is 64 bits wide, [PlaneId] is a [uint32_t], [int] and
      [GLsizei] are 32-bit signed, [GLintptr] and [GLsizeiptr] are 64-bit
      signed).
    - [float] is idealised as a real number: every statement below that
      involves coordinates or depths is a statement of exact arithmetic,
      and says nothing about rounding or IEEE exceptional values.  The
      shader parameters are the exception: they are binary32 numbers
      ([Float32]), with the rounding of the source's own arithmetic.
    - The OpenGL server is modelled by the contents of the buffers the
      context owns and by the list of calls issued so far ([glCalls]). *)

From Stdlib Require Import ZArith List Bool Lia Reals Lra Sorted.
From Stdlib Require SpecFloat.
Import ListNotations.
Local Open Scope Z_scope.

(** ** Machine integers *)

Module Int.

Definition wrap (bits z : Z) : Z := z mod 2 ^ bits.

Definition signed (bits z : Z) : Z :=
  let u := wrap bits z in
  if u <? 2 ^ (bits - 1) then u else u - 2 ^ bits.

Definition size_t (z : Z) : Z := wrap 64 z.
Definition uint32_t (z : Z) : Z := wrap 32 z.
Definition int (z : Z) : Z := signed 32 z.
Definition GLsizei (z : Z) : Z := signed 32 z.
Definition GLintptr (z : Z) : Z := signed 64 z.
Definition GLsizeiptr (z : Z) : Z := signed 64 z.

(** The largest object the address space can hold, in bytes
    ([PTRDIFF_MAX]); it also bounds what a [GLsizeiptr] can express. *)
Definition PTRDIFF_MAX : Z := 2 ^ 63 - 1.

End Int.

(** [std::vector::size()] as an integer. *)
Definition size {A : Type} (l : list A) : Z := Z.of_nat (length l).

(** ** Vectors (GameCore/Vectors.h) *)

(** Modelled from the spec: [vec2f] and [vec4f] are declared in
    GameCore/Vectors.h, which is not among the sources; the operators used
    by ShipRenderContext.cpp ([+], [* float], [dot], [normalise]) are given
    their usual componentwise meaning, [normalise] being the division by the
    Euclidean length ("arrowhead directions from normalizing" the rotated
    vector).  Over the reals the division by a zero length yields the zero
    vector, so a guarded and an unguarded [normalise] coincide here. *)
Record vec2f : Type := mkvec2f { x : R; y : R }.

Module Vec4.
Record vec4f : Type := mkvec4f { x : R; y : R; z : R; w : R }.
End Vec4.
Definition vec4f : Type := Vec4.vec4f.

Module vec2.
Local Open Scope R_scope.

Definition add (a b : vec2f) : vec2f := mkvec2f (x a + x b) (y a + y b).
Definition sub (a b : vec2f) : vec2f := mkvec2f (x a - x b) (y a - y b).
Definition scale (a : vec2f) (k : R) : vec2f := mkvec2f (x a * k) (y a * k).
Definition div (a : vec2f) (k : R) : vec2f := mkvec2f (x a / k) (y a / k).
Definition dot (a b : vec2f) : R := x a * x b + y a * y b.
Definition squareLength (a : vec2f) : R := x a * x a + y a * y a.
Definition length (a : vec2f) : R := sqrt (squareLength a).
Definition normalise (a : vec2f) : vec2f := div a (length a).
Definition zero : vec2f := mkvec2f 0 0.

(** Length of the segment between two points. *)
Definition distance (a b : vec2f) : R := length (sub b a).

End vec2.

(** ** Render modes (RenderCore.h) *)

(** Modelled from the spec: the three mode enumerations are declared in a
    header that is not among the sources; their members are those the
    spec lists and the code tests.  The vector-field modes other than
    [None] are not named anywhere; only "is it None" is ever tested. *)
Module ShipRenderMode.
Inductive t : Set := Structure | Texture.
Definition eqb (a b : t) : bool :=
  match a, b with
  | Structure, Structure | Texture, Texture => true
  | _, _ => false
  end.
End ShipRenderMode.

Module DebugShipRenderMode.
Inductive t : Set := None | Wireframe | Points | Springs | EdgeSprings.
Definition eqb (a b : t) : bool :=
  match a, b with
  | None, None | Wireframe, Wireframe | Points, Points
  | Springs, Springs | EdgeSprings, EdgeSprings => true
  | _, _ => false
  end.
End DebugShipRenderMode.

Module VectorFieldRenderMode.
Inductive t : Set := None | Field (kind : nat).
Definition eqb (a b : t) : bool :=
  match a, b with
  | None, None => true
  | Field j, Field k => Nat.eqb j k
  | _, _ => false
  end.
End VectorFieldRenderMode.

(** ** Shader programs and OpenGL calls *)

(** The ship programs ShipRenderContext.cpp activates. *)
Module ProgramType.
Inductive t : Set :=
| ShipRopes
| ShipTrianglesColor
| ShipTrianglesTexture
| ShipStressedSprings
| ShipPointsColor
| ShipGenericTextures
| ShipVectors.
Definition eqb (a b : t) : bool :=
  match a, b with
  | ShipRopes, ShipRopes
  | ShipTrianglesColor, ShipTrianglesColor
  | ShipTrianglesTexture, ShipTrianglesTexture
  | ShipStressedSprings, ShipStressedSprings
  | ShipPointsColor, ShipPointsColor
  | ShipGenericTextures, ShipGenericTextures
  | ShipVectors, ShipVectors => true
  | _, _ => false
  end.
End ProgramType.

Inductive GLmode : Set := GL_POINTS | GL_LINES | GL_TRIANGLES.

(** The buffer objects a draw reads its elements or vertices from. *)
Inductive VBO : Set :=
| mPointElementVBO
| mSpringElementVBO
| mRopeElementVBO
| mTriangleElementVBO
| mStressedSpringElementVBO
| mEphemeralPointVBO
| mGenericTextureRenderPolygonVertexVBO
| mVectorArrowPointPositionVBO.

(** The part of an ortho matrix that places geometry along the depth axis:
    a vertex whose world Z is [p] lands at depth
    [zOffset + zPerPlane * p]. *)
Record ProjectionMatrix : Type :=
  mkProjectionMatrix { zOffset : R; zPerPlane : R }.

(** A call that reaches the shader manager or the OpenGL server.  A draw
    records the program that was active and the buffer that was bound when
    it was issued. *)
Inductive GLCall : Type :=
| SetOrthoMatrix (program : ProgramType.t) (matrix : ProjectionMatrix)
| glBufferData (target : VBO) (vertexCount : Z)
| glDrawElements (program : ProgramType.t) (mode : GLmode) (buffer : VBO) (count : Z)
| glDrawArrays (program : ProgramType.t) (mode : GLmode) (buffer : VBO) (count : Z).

(** ** Render statistics *)

(** Modelled from the spec: the "shared statistics sink with named
    accumulator fields" that the context increments and never resets; its
    declaration is not among the sources, so the counters are unbounded. *)
Record RenderStatistics : Type := mkRenderStatistics {
  LastRenderedShipSprings : Z;
  LastRenderedShipRopes : Z;
  LastRenderedShipTriangles : Z;
  LastRenderedShipGenericTextures : Z;
  LastRenderedShipEphemeralPoints : Z;
  LastRenderedShipPlanes : Z
}.

(** ** Element and vertex types *)

Definition PlaneId : Type := Z.
Definition PointElement : Type := Z.
Definition SpringElement : Type := (Z * Z)%type.
Definition RopeElement : Type := (Z * Z)%type.
Definition TriangleElement : Type := (Z * Z * Z)%type.
Definition StressedSpringElement : Type := (Z * Z)%type.

(** Laid out as the constructor describes it to OpenGL: four floats of
    packed data, two texture coordinates, four more floats. *)
Record TextureRenderPolygonVertex : Type := mkTextureRenderPolygonVertex {
  packedData1 : vec4f;
  textureCoordinates : vec2f;
  packedData2 : vec4f
}.

Record GenericTextureConnectedComponentData : Type :=
  mkGenericTextureConnectedComponentData {
    VertexBuffer : list TextureRenderPolygonVertex
  }.

(** ** The context

    The members of [ShipRenderContext] that the operations below read or
    write.  [mPointColorVBO] and [mPointPlaneIdVBO] stand for the contents
    of the buffer objects of those names, one slot per point;
    [mRenderStatistics] stands for the shared accumulator the context holds
    a reference to; [glCalls] is the list of calls issued so far, oldest
    first. *)
Record ShipRenderContext : Type := mkShipRenderContext {
  mShipId : Z;
  mShipCount : Z;
  mMaxMaxPlaneId : PlaneId;
  mRenderStatistics : RenderStatistics;
  mShipRenderMode : ShipRenderMode.t;
  mDebugShipRenderMode : DebugShipRenderMode.t;
  mVectorFieldRenderMode : VectorFieldRenderMode.t;
  mShowStressedSprings : bool;
  mPointCount : Z;
  mPointColorVBO : list vec4f;
  mPointPlaneIdVBO : list PlaneId;
  mGenericTextureConnectedComponents : list GenericTextureConnectedComponentData;
  mGenericTextureMaxVertexBufferSize : Z;
  mGenericTextureAllocatedVertexBufferSize : Z;
  mPointElementBuffer : list PointElement;
  mSpringElementBuffer : list SpringElement;
  mRopeElementBuffer : list RopeElement;
  mTriangleElementBuffer : list TriangleElement;
  mStressedSpringElementBuffer : list StressedSpringElement;
  mEphemeralPoints : list PointElement;
  mVectorArrowPointPositionBuffer : list vec2f;
  mVectorArrowColor : vec4f;
  glCalls : list GLCall
}.

(** Assignments to single members. *)
Definition set_mMaxMaxPlaneId (v : PlaneId) (c : ShipRenderContext) : ShipRenderContext :=
  mkShipRenderContext
    (mShipId c) (mShipCount c) v (mRenderStatistics c) (mShipRenderMode c)
    (mDebugShipRenderMode c) (mVectorFieldRenderMode c)
    (mShowStressedSprings c) (mPointCount c) (mPointColorVBO c)
    (mPointPlaneIdVBO c) (mGenericTextureConnectedComponents c)
    (mGenericTextureMaxVertexBufferSize c)
    (mGenericTextureAllocatedVertexBufferSize c) (mPointElementBuffer c)
    (mSpringElementBuffer c) (mRopeElementBuffer c) (mTriangleElementBuffer c)
    (mStressedSpringElementBuffer c) (mEphemeralPoints c)
    (mVectorArrowPointPositionBuffer c) (mVectorArrowColor c) (glCalls c).

Definition set_mRenderStatistics (v : RenderStatistics) (c : ShipRenderContext) : ShipRenderContext :=
  mkShipRenderContext
    (mShipId c) (mShipCount c) (mMaxMaxPlaneId c) v (mShipRenderMode c)
    (mDebugShipRenderMode c) (mVectorFieldRenderMode c)
    (mShowStressedSprings c) (mPointCount c) (mPointColorVBO c)
    (mPointPlaneIdVBO c) (mGenericTextureConnectedComponents c)
    (mGenericTextureMaxVertexBufferSize c)
    (mGenericTextureAllocatedVertexBufferSize c) (mPointElementBuffer c)
    (mSpringElementBuffer c) (mRopeElementBuffer c) (mTriangleElementBuffer c)
    (mStressedSpringElementBuffer c) (mEphemeralPoints c)
    (mVectorArrowPointPositionBuffer c) (mVectorArrowColor c) (glCalls c).

Definition set_mPointColorVBO (v : list vec4f) (c : ShipRenderContext) : ShipRenderContext :=
  mkShipRenderContext
    (mShipId c) (mShipCount c) (mMaxMaxPlaneId c) (mRenderStatistics c)
    (mShipRenderMode c) (mDebugShipRenderMode c) (mVectorFieldRenderMode c)
    (mShowStressedSprings c) (mPointCount c) v (mPointPlaneIdVBO c)
    (mGenericTextureConnectedComponents c)
    (mGenericTextureMaxVertexBufferSize c)
    (mGenericTextureAllocatedVertexBufferSize c) (mPointElementBuffer c)
    (mSpringElementBuffer c) (mRopeElementBuffer c) (mTriangleElementBuffer c)
    (mStressedSpringElementBuffer c) (mEphemeralPoints c)
    (mVectorArrowPointPositionBuffer c) (mVectorArrowColor c) (glCalls c).

Definition set_mPointPlaneIdVBO (v : list PlaneId) (c : ShipRenderContext) : ShipRenderContext :=
  mkShipRenderContext
    (mShipId c) (mShipCount c) (mMaxMaxPlaneId c) (mRenderStatistics c)
    (mShipRenderMode c) (mDebugShipRenderMode c) (mVectorFieldRenderMode c)
    (mShowStressedSprings c) (mPointCount c) (mPointColorVBO c) v
    (mGenericTextureConnectedComponents c)
    (mGenericTextureMaxVertexBufferSize c)
    (mGenericTextureAllocatedVertexBufferSize c) (mPointElementBuffer c)
    (mSpringElementBuffer c) (mRopeElementBuffer c) (mTriangleElementBuffer c)
    (mStressedSpringElementBuffer c) (mEphemeralPoints c)
    (mVectorArrowPointPositionBuffer c) (mVectorArrowColor c) (glCalls c).

Definition set_mGenericTextureConnectedComponents (v : list GenericTextureConnectedComponentData) (c : ShipRenderContext) : ShipRenderContext :=
  mkShipRenderContext
    (mShipId c) (mShipCount c) (mMaxMaxPlaneId c) (mRenderStatistics c)
    (mShipRenderMode c) (mDebugShipRenderMode c) (mVectorFieldRenderMode c)
    (mShowStressedSprings c) (mPointCount c) (mPointColorVBO c)
    (mPointPlaneIdVBO c) v (mGenericTextureMaxVertexBufferSize c)
    (mGenericTextureAllocatedVertexBufferSize c) (mPointElementBuffer c)
    (mSpringElementBuffer c) (mRopeElementBuffer c) (mTriangleElementBuffer c)
    (mStressedSpringElementBuffer c) (mEphemeralPoints c)
    (mVectorArrowPointPositionBuffer c) (mVectorArrowColor c) (glCalls c).

Definition set_mGenericTextureMaxVertexBufferSize (v : Z) (c : ShipRenderContext) : ShipRenderContext :=
  mkShipRenderContext
    (mShipId c) (mShipCount c) (mMaxMaxPlaneId c) (mRenderStatistics c)
    (mShipRenderMode c) (mDebugShipRenderMode c) (mVectorFieldRenderMode c)
    (mShowStressedSprings c) (mPointCount c) (mPointColorVBO c)
    (mPointPlaneIdVBO c) (mGenericTextureConnectedComponents c) v
    (mGenericTextureAllocatedVertexBufferSize c) (mPointElementBuffer c)
    (mSpringElementBuffer c) (mRopeElementBuffer c) (mTriangleElementBuffer c)
    (mStressedSpringElementBuffer c) (mEphemeralPoints c)
    (mVectorArrowPointPositionBuffer c) (mVectorArrowColor c) (glCalls c).

Definition set_mGenericTextureAllocatedVertexBufferSize (v : Z) (c : ShipRenderContext) : ShipRenderContext :=
  mkShipRenderContext
    (mShipId c) (mShipCount c) (mMaxMaxPlaneId c) (mRenderStatistics c)
    (mShipRenderMode c) (mDebugShipRenderMode c) (mVectorFieldRenderMode c)
    (mShowStressedSprings c) (mPointCount c) (mPointColorVBO c)
    (mPointPlaneIdVBO c) (mGenericTextureConnectedComponents c)
    (mGenericTextureMaxVertexBufferSize c) v (mPointElementBuffer c)
    (mSpringElementBuffer c) (mRopeElementBuffer c) (mTriangleElementBuffer c)
    (mStressedSpringElementBuffer c) (mEphemeralPoints c)
    (mVectorArrowPointPositionBuffer c) (mVectorArrowColor c) (glCalls c).

Definition set_mVectorArrowPointPositionBuffer (v : list vec2f) (c : ShipRenderContext) : ShipRenderContext :=
  mkShipRenderContext
    (mShipId c) (mShipCount c) (mMaxMaxPlaneId c) (mRenderStatistics c)
    (mShipRenderMode c) (mDebugShipRenderMode c) (mVectorFieldRenderMode c)
    (mShowStressedSprings c) (mPointCount c) (mPointColorVBO c)
    (mPointPlaneIdVBO c) (mGenericTextureConnectedComponents c)
    (mGenericTextureMaxVertexBufferSize c)
    (mGenericTextureAllocatedVertexBufferSize c) (mPointElementBuffer c)
    (mSpringElementBuffer c) (mRopeElementBuffer c) (mTriangleElementBuffer c)
    (mStressedSpringElementBuffer c) (mEphemeralPoints c) v
    (mVectorArrowColor c) (glCalls c).

Definition set_mVectorArrowColor (v : vec4f) (c : ShipRenderContext) : ShipRenderContext :=
  mkShipRenderContext
    (mShipId c) (mShipCount c) (mMaxMaxPlaneId c) (mRenderStatistics c)
    (mShipRenderMode c) (mDebugShipRenderMode c) (mVectorFieldRenderMode c)
    (mShowStressedSprings c) (mPointCount c) (mPointColorVBO c)
    (mPointPlaneIdVBO c) (mGenericTextureConnectedComponents c)
    (mGenericTextureMaxVertexBufferSize c)
    (mGenericTextureAllocatedVertexBufferSize c) (mPointElementBuffer c)
    (mSpringElementBuffer c) (mRopeElementBuffer c) (mTriangleElementBuffer c)
    (mStressedSpringElementBuffer c) (mEphemeralPoints c)
    (mVectorArrowPointPositionBuffer c) v (glCalls c).

Definition set_glCalls (v : list GLCall) (c : ShipRenderContext) : ShipRenderContext :=
  mkShipRenderContext
    (mShipId c) (mShipCount c) (mMaxMaxPlaneId c) (mRenderStatistics c)
    (mShipRenderMode c) (mDebugShipRenderMode c) (mVectorFieldRenderMode c)
    (mShowStressedSprings c) (mPointCount c) (mPointColorVBO c)
    (mPointPlaneIdVBO c) (mGenericTextureConnectedComponents c)
    (mGenericTextureMaxVertexBufferSize c)
    (mGenericTextureAllocatedVertexBufferSize c) (mPointElementBuffer c)
    (mSpringElementBuffer c) (mRopeElementBuffer c) (mTriangleElementBuffer c)
    (mStressedSpringElementBuffer c) (mEphemeralPoints c)
    (mVectorArrowPointPositionBuffer c) (mVectorArrowColor c) v.

Definition emit (call : GLCall) (c : ShipRenderContext) : ShipRenderContext :=
  set_glCalls (glCalls c ++ [call]) c.

(** ** Failure *)

(** The two ways an operation of the context stops instead of returning:
    a failed [assert], and the exception [CheckOpenGLError] raises when the
    OpenGL server has flagged an error. *)
Inductive Failure : Set := AssertionFailed | OpenGLError.

Inductive result (A : Type) : Type :=
| Ok (a : A)
| Fail (f : Failure).
Arguments Ok {A} a.
Arguments Fail {A} f.

Definition bind {A B : Type} (r : result A) (k : A -> result B) : result B :=
  match r with
  | Ok a => k a
  | Fail f => Fail f
  end.

Notation "'do' a <- r ; k" := (bind r (fun a => k))
  (at level 10, a name, r at level 100, k at level 200).

(** [assert(cond)] of <cassert>: checked unless the build defines
    [NDEBUG]. *)
Definition assert (NDEBUG cond : bool) : result unit :=
  if NDEBUG || cond then Ok tt else Fail AssertionFailed.

(** ** Buffer objects *)

(** [glBufferSubData(target, offset, size, data)] on a buffer whose store
    is an array of elements of [elemSize] bytes each.  [offset] and [size]
    are byte counts, already converted to [GLintptr] and [GLsizeiptr].
    OpenGL flags [GL_INVALID_VALUE], and leaves the store alone, when
    [offset] or [size] is negative or when [offset + size] exceeds the size
    of the store; the model answers [None] then.  Every call in
    ShipRenderContext.cpp passes multiples of the element size; [data] has
    to hold the elements that are read. *)
Definition glBufferSubData {A : Type} (elemSize : Z) (store : list A)
    (offset bytes : Z) (data : list A) : option (list A) :=
  if (offset <? 0) || (bytes <? 0) || (elemSize * size store <? offset + bytes)
  then None
  else
    let first := Z.to_nat (offset / elemSize) in
    let n := Z.to_nat (bytes / elemSize) in
    Some (firstn first store ++ firstn n data ++ skipn (first + n) store).

(** Modelled from the spec: [CheckOpenGLError] is declared in a header that
    is not among the sources; "GPU-resource-allocation failures (out of
    memory, invalid handle) are treated as fatal", "surface and terminate":
    a flagged error ends the operation. *)
Definition CheckOpenGLError {A : Type} (outcome : option A) : result A :=
  match outcome with
  | Some a => Ok a
  | None => Fail OpenGLError
  end.

Definition sizeof_vec4f : Z := 16.
Definition sizeof_PlaneId : Z := 4.

(** [std::vector::resize(n)] with value-initialised new elements. *)
Definition resize {A : Type} (default : A) (n : Z) (l : list A) : list A :=
  firstn (Z.to_nat n) l ++ repeat default (Z.to_nat n - length l).

Definition push_back {A : Type} (l : list A) (a : A) : list A := l ++ [a].

Definition empty {A : Type} (l : list A) : bool :=
  match l with
  | [] => true
  | _ :: _ => false
  end.

(** ** Depth-Layer Projection Manager *)

(** Modelled from the spec: [ViewModel::CalculateShipOrthoMatrix] belongs to
    the view model, which is not among the sources.  It "partition[s] one
    shared normalized depth range into [shipCount * (maxMaxPlaneId+1) * 6]
    equal depth slots (6 fixed layers per depth-plane ...)": the range
    starts at [shipRegionZStart] and is [shipRegionZWidth] wide, a ship owns
    [maxMaxPlaneId + 1] consecutive plane segments, and "each plane Z
    segment is divided into 6 layers".  The matrix of a layer sends a vertex
    of plane [p] to the start of the slot of (ship, [p], layer). *)
Definition CalculateShipOrthoMatrix (shipRegionZStart shipRegionZWidth : R)
    (iShip nShips maxMaxPlaneId iLayer nLayers : Z) : ProjectionMatrix :=
  let slotWidth :=
    (shipRegionZWidth / IZR (nShips * (maxMaxPlaneId + 1) * nLayers))%R in
  mkProjectionMatrix
    (shipRegionZStart
     + slotWidth * IZR (iShip * (maxMaxPlaneId + 1) * nLayers + iLayer))%R
    (slotWidth * IZR nLayers)%R.

(** Depth at which a matrix puts the vertices of a plane. *)
Definition depthOf (m : ProjectionMatrix) (planeId : Z) : R :=
  (zOffset m + zPerPlane m * IZR planeId)%R.

Definition ShipRegionZStart : R := 1%R.
Definition ShipRegionZWidth : R := (-2)%R.
Definition NLayers : Z := 6.

(** The matrix [UpdateOrthoMatrices] computes for a layer. *)
Definition shipOrthoMatrix (c : ShipRenderContext) (iLayer : Z)
    : ProjectionMatrix :=
  CalculateShipOrthoMatrix ShipRegionZStart ShipRegionZWidth
    (Int.int (mShipId c)) (Int.int (mShipCount c))
    (Int.int (mMaxMaxPlaneId c)) iLayer NLayers.

Definition UpdateOrthoMatrices (c : ShipRenderContext) : ShipRenderContext :=
  (* Layer 0 *)
  let c := emit (SetOrthoMatrix ProgramType.ShipRopes (shipOrthoMatrix c 0)) c in
  (* Layer 1 *)
  let c := emit (SetOrthoMatrix ProgramType.ShipTrianglesColor (shipOrthoMatrix c 1)) c in
  let c := emit (SetOrthoMatrix ProgramType.ShipTrianglesTexture (shipOrthoMatrix c 1)) c in
  (* Layer 2 *)
  let c := emit (SetOrthoMatrix ProgramType.ShipStressedSprings (shipOrthoMatrix c 2)) c in
  (* Layer 3 *)
  let c := emit (SetOrthoMatrix ProgramType.ShipPointsColor (shipOrthoMatrix c 3)) c in
  (* Layer 4 *)
  let c := emit (SetOrthoMatrix ProgramType.ShipGenericTextures (shipOrthoMatrix c 4)) c in
  (* Layer 5 *)
  emit (SetOrthoMatrix ProgramType.ShipVectors (shipOrthoMatrix c 5)) c.

(** Modelled from the spec: [OnViewModelUpdated] is an inline member of
    ShipRenderContext.h, which is not among the sources; it is what
    [UploadPointPlaneIds] calls to "trigger recomputation of the Depth-Layer
    Projection Manager's matrices". *)
Definition OnViewModelUpdated (c : ShipRenderContext) : ShipRenderContext :=
  UpdateOrthoMatrices c.

(** The layer a program draws in: the one whose matrix
    [UpdateOrthoMatrices] gives it. *)
Definition layerOf (p : ProgramType.t) : Z :=
  match p with
  | ProgramType.ShipRopes => 0
  | ProgramType.ShipTrianglesColor => 1
  | ProgramType.ShipTrianglesTexture => 1
  | ProgramType.ShipStressedSprings => 2
  | ProgramType.ShipPointsColor => 3
  | ProgramType.ShipGenericTextures => 4
  | ProgramType.ShipVectors => 5
  end.

(** ** Geometry Buffer Store *)

Definition UploadShipPointColorRange (NDEBUG : bool) (color : list vec4f)
    (startIndex count : Z) (c : ShipRenderContext) : result ShipRenderContext :=
  do _ <- assert NDEBUG (Int.size_t (startIndex + count) <=? mPointCount c);
  do store <- CheckOpenGLError
    (glBufferSubData sizeof_vec4f (mPointColorVBO c)
       (Int.GLintptr (Int.size_t (startIndex * sizeof_vec4f)))
       (Int.GLsizeiptr (Int.size_t (count * sizeof_vec4f)))
       color);
  Ok (set_mPointColorVBO store c).

Definition UploadPointPlaneIds (planeId : list PlaneId) (maxMaxPlaneId : PlaneId)
    (c : ShipRenderContext) : result ShipRenderContext :=
  (* Upload plane IDs *)
  do store <- CheckOpenGLError
    (glBufferSubData sizeof_PlaneId (mPointPlaneIdVBO c)
       0
       (Int.GLsizeiptr (Int.size_t (mPointCount c * sizeof_PlaneId)))
       planeId);
  let c := set_mPointPlaneIdVBO store c in
  (* Check if the max ever plane ID has changed *)
  if negb (maxMaxPlaneId =? mMaxMaxPlaneId c)
  then
    (* Update value *)
    let c := set_mMaxMaxPlaneId maxMaxPlaneId c in
    (* Recalculate view model parameters *)
    Ok (OnViewModelUpdated c)
  else Ok c.

(** ** Generic Texture Batch *)

Definition RenderStart (c : ShipRenderContext) : ShipRenderContext :=
  let c := set_mGenericTextureConnectedComponents [] c in
  let c :=
    set_mGenericTextureConnectedComponents
      (resize (mkGenericTextureConnectedComponentData [])
         (Int.size_t (Int.uint32_t (mMaxMaxPlaneId c + 1000)))
         (mGenericTextureConnectedComponents c)) c in
  set_mGenericTextureMaxVertexBufferSize 0 c.

(** [components[index].VertexBuffer = vertexBuffer]. *)
Fixpoint setVertexBuffer (index : nat)
    (vertexBuffer : list TextureRenderPolygonVertex)
    (components : list GenericTextureConnectedComponentData)
    : list GenericTextureConnectedComponentData :=
  match components, index with
  | [], _ => []
  | _ :: rest, O => mkGenericTextureConnectedComponentData vertexBuffer :: rest
  | first :: rest, S index' => first :: setVertexBuffer index' vertexBuffer rest
  end.

(** Modelled from the spec: the upload of generic-texture vertices is an
    inline member of ShipRenderContext.h, which is not among the sources.
    "The caller appends" to a connected component "an externally-supplied
    vertex sequence", and the "global peak-size tracker" keeps the largest
    vertex buffer seen since [RenderStart] reset it.  A component index
    outside the list is a caller error; the model ignores the call. *)
Definition UploadGenericTextureVertices (connectedComponentIndex : Z)
    (vertices : list TextureRenderPolygonVertex) (c : ShipRenderContext)
    : ShipRenderContext :=
  if (0 <=? connectedComponentIndex)
     && (connectedComponentIndex <? size (mGenericTextureConnectedComponents c))
  then
    let index := Z.to_nat connectedComponentIndex in
    let vertexBuffer :=
      VertexBuffer
        (nth index (mGenericTextureConnectedComponents c)
           (mkGenericTextureConnectedComponentData []))
      ++ vertices in
    let c :=
      set_mGenericTextureConnectedComponents
        (setVertexBuffer index vertexBuffer (mGenericTextureConnectedComponents c))
        c in
    set_mGenericTextureMaxVertexBufferSize
      (Z.max (mGenericTextureMaxVertexBufferSize c) (size vertexBuffer)) c
  else c.

Definition add_LastRenderedShipSprings (n : Z) (s : RenderStatistics) : RenderStatistics :=
  mkRenderStatistics (LastRenderedShipSprings s + n) (LastRenderedShipRopes s)
    (LastRenderedShipTriangles s) (LastRenderedShipGenericTextures s)
    (LastRenderedShipEphemeralPoints s) (LastRenderedShipPlanes s).

Definition add_LastRenderedShipRopes (n : Z) (s : RenderStatistics) : RenderStatistics :=
  mkRenderStatistics (LastRenderedShipSprings s) (LastRenderedShipRopes s + n)
    (LastRenderedShipTriangles s) (LastRenderedShipGenericTextures s)
    (LastRenderedShipEphemeralPoints s) (LastRenderedShipPlanes s).

Definition add_LastRenderedShipTriangles (n : Z) (s : RenderStatistics) : RenderStatistics :=
  mkRenderStatistics (LastRenderedShipSprings s) (LastRenderedShipRopes s)
    (LastRenderedShipTriangles s + n) (LastRenderedShipGenericTextures s)
    (LastRenderedShipEphemeralPoints s) (LastRenderedShipPlanes s).

Definition add_LastRenderedShipGenericTextures (n : Z) (s : RenderStatistics) : RenderStatistics :=
  mkRenderStatistics (LastRenderedShipSprings s) (LastRenderedShipRopes s)
    (LastRenderedShipTriangles s) (LastRenderedShipGenericTextures s + n)
    (LastRenderedShipEphemeralPoints s) (LastRenderedShipPlanes s).

Definition add_LastRenderedShipEphemeralPoints (n : Z) (s : RenderStatistics) : RenderStatistics :=
  mkRenderStatistics (LastRenderedShipSprings s) (LastRenderedShipRopes s)
    (LastRenderedShipTriangles s) (LastRenderedShipGenericTextures s)
    (LastRenderedShipEphemeralPoints s + n) (LastRenderedShipPlanes s).

Definition add_LastRenderedShipPlanes (n : Z) (s : RenderStatistics) : RenderStatistics :=
  mkRenderStatistics (LastRenderedShipSprings s) (LastRenderedShipRopes s)
    (LastRenderedShipTriangles s) (LastRenderedShipGenericTextures s)
    (LastRenderedShipEphemeralPoints s) (LastRenderedShipPlanes s + n).

Definition RenderGenericTextures
    (connectedComponent : GenericTextureConnectedComponentData)
    (c : ShipRenderContext) : ShipRenderContext :=
  if negb (empty (VertexBuffer connectedComponent))
  then
    (* Allocate vertex buffer, if needed *)
    let c :=
      if negb (mGenericTextureAllocatedVertexBufferSize c
               =? mGenericTextureMaxVertexBufferSize c)
      then
        let c :=
          emit (glBufferData mGenericTextureRenderPolygonVertexVBO
                  (mGenericTextureMaxVertexBufferSize c)) c in
        set_mGenericTextureAllocatedVertexBufferSize
          (mGenericTextureMaxVertexBufferSize c) c
      else c in
    (* Draw polygons *)
    let c :=
      emit (glDrawArrays ProgramType.ShipGenericTextures GL_TRIANGLES
              mGenericTextureRenderPolygonVertexVBO
              (Int.GLsizei (size (VertexBuffer connectedComponent)))) c in
    (* Update stats *)
    set_mRenderStatistics
      (add_LastRenderedShipGenericTextures
         (size (VertexBuffer connectedComponent) / 6) (mRenderStatistics c)) c
  else c.

(** ** Vector Field Overlay Builder *)

Definition CosAlphaLeftRight : R := cos (-2 * PI / 8).
Definition SinAlphaLeft : R := sin (-2 * PI / 8).
Definition SinAlphaRight : R := (- SinAlphaLeft)%R.

Definition XMatrixLeft : vec2f := mkvec2f CosAlphaLeftRight SinAlphaLeft.
Definition YMatrixLeft : vec2f := mkvec2f (- SinAlphaLeft) CosAlphaLeftRight.
Definition XMatrixRight : vec2f := mkvec2f CosAlphaLeftRight SinAlphaRight.
Definition YMatrixRight : vec2f := mkvec2f (- SinAlphaRight) CosAlphaLeftRight.

Definition arrowheadLength : R := (2 / 10)%R.

Definition leftDir (vector : vec2f) : vec2f :=
  vec2.normalise
    (mkvec2f (- vec2.dot vector XMatrixLeft) (- vec2.dot vector YMatrixLeft)).

Definition rightDir (vector : vec2f) : vec2f :=
  vec2.normalise
    (mkvec2f (- vec2.dot vector XMatrixRight) (- vec2.dot vector YMatrixRight)).

(** One turn of the loop of [UploadVectors]: the six pushes for sample [i].
    The arrays behind [position] and [vector] hold at least [count] samples;
    an index beyond a list reads the zero vector. *)
Definition pushArrow (position vector : list vec2f) (lengthAdjustment : R)
    (buffer : list vec2f) (i : nat) : list vec2f :=
  let position_i := nth i position vec2.zero in
  let vector_i := nth i vector vec2.zero in
  (* Stem *)
  let stemEndpoint := vec2.add position_i (vec2.scale vector_i lengthAdjustment) in
  let buffer := push_back buffer position_i in
  let buffer := push_back buffer stemEndpoint in
  (* Left *)
  let buffer := push_back buffer stemEndpoint in
  let buffer :=
    push_back buffer
      (vec2.add stemEndpoint (vec2.scale (leftDir vector_i) arrowheadLength)) in
  (* Right *)
  let buffer := push_back buffer stemEndpoint in
  push_back buffer
    (vec2.add stemEndpoint (vec2.scale (rightDir vector_i) arrowheadLength)).

Definition UploadVectors (count : Z) (position vector : list vec2f)
    (lengthAdjustment : R) (color : vec4f) (c : ShipRenderContext)
    : ShipRenderContext :=
  let c := set_mVectorArrowPointPositionBuffer [] c in
  let c :=
    set_mVectorArrowPointPositionBuffer
      (fold_left (pushArrow position vector lengthAdjustment)
         (seq 0 (Z.to_nat count)) (mVectorArrowPointPositionBuffer c)) c in
  (* Upload buffer *)
  let c :=
    emit (glBufferData mVectorArrowPointPositionVBO
            (size (mVectorArrowPointPositionBuffer c))) c in
  (* Store color *)
  set_mVectorArrowColor color c.

(** ** Render Orchestrator *)

Definition RenderPointElements (c : ShipRenderContext) : ShipRenderContext :=
  emit (glDrawElements ProgramType.ShipPointsColor GL_POINTS mPointElementVBO
          (Int.GLsizei (Int.size_t (1 * size (mPointElementBuffer c))))) c.

Definition RenderSpringElements (withTexture : bool) (c : ShipRenderContext)
    : ShipRenderContext :=
  let program :=
    if withTexture then ProgramType.ShipTrianglesTexture
    else ProgramType.ShipTrianglesColor in
  let c :=
    emit (glDrawElements program GL_LINES mSpringElementVBO
            (Int.GLsizei (Int.size_t (2 * size (mSpringElementBuffer c))))) c in
  set_mRenderStatistics
    (add_LastRenderedShipSprings (size (mSpringElementBuffer c))
       (mRenderStatistics c)) c.

Definition RenderRopeElements (c : ShipRenderContext) : ShipRenderContext :=
  let c :=
    emit (glDrawElements ProgramType.ShipRopes GL_LINES mRopeElementVBO
            (Int.GLsizei (Int.size_t (2 * size (mRopeElementBuffer c))))) c in
  set_mRenderStatistics
    (add_LastRenderedShipRopes (size (mRopeElementBuffer c))
       (mRenderStatistics c)) c.

Definition RenderTriangleElements (withTexture : bool) (c : ShipRenderContext)
    : ShipRenderContext :=
  let program :=
    if withTexture then ProgramType.ShipTrianglesTexture
    else ProgramType.ShipTrianglesColor in
  let c :=
    emit (glDrawElements program GL_TRIANGLES mTriangleElementVBO
            (Int.GLsizei (Int.size_t (3 * size (mTriangleElementBuffer c))))) c in
  set_mRenderStatistics
    (add_LastRenderedShipTriangles (size (mTriangleElementBuffer c))
       (mRenderStatistics c)) c.

Definition RenderStressedSpringElements (c : ShipRenderContext)
    : ShipRenderContext :=
  if negb (empty (mStressedSpringElementBuffer c))
  then
    emit (glDrawElements ProgramType.ShipStressedSprings GL_LINES
            mStressedSpringElementVBO
            (Int.GLsizei (Int.size_t (2 * size (mStressedSpringElementBuffer c))))) c
  else c.

Definition RenderEphemeralPoints (c : ShipRenderContext) : ShipRenderContext :=
  if negb (empty (mEphemeralPoints c))
  then
    let c :=
      emit (glDrawElements ProgramType.ShipPointsColor GL_POINTS
              mEphemeralPointVBO
              (Int.GLsizei (size (mEphemeralPoints c)))) c in
    set_mRenderStatistics
      (add_LastRenderedShipEphemeralPoints (size (mEphemeralPoints c))
         (mRenderStatistics c)) c
  else c.

Definition RenderVectors (c : ShipRenderContext) : ShipRenderContext :=
  emit (glDrawArrays ProgramType.ShipVectors GL_LINES
          mVectorArrowPointPositionVBO
          (Int.GLsizei (size (mVectorArrowPointPositionBuffer c)))) c.

Definition isStructure (c : ShipRenderContext) : bool :=
  ShipRenderMode.eqb (mShipRenderMode c) ShipRenderMode.Structure.

Definition isTexture (c : ShipRenderContext) : bool :=
  ShipRenderMode.eqb (mShipRenderMode c) ShipRenderMode.Texture.

Definition debugIs (mode : DebugShipRenderMode.t) (c : ShipRenderContext) : bool :=
  DebugShipRenderMode.eqb (mDebugShipRenderMode c) mode.

Definition RenderEnd (c : ShipRenderContext) : ShipRenderContext :=
  (* Draw points *)
  let c :=
    if debugIs DebugShipRenderMode.Points c
    then RenderPointElements c else c in
  (* Draw triangles *)
  let c :=
    if debugIs DebugShipRenderMode.Wireframe c
       || (debugIs DebugShipRenderMode.None c
           && (isStructure c || isTexture c))
    then RenderTriangleElements (isTexture c) c else c in
  (* Draw ropes now if RenderMode is anything but Structure *)
  let c :=
    if negb (debugIs DebugShipRenderMode.None c) || negb (isStructure c)
    then RenderRopeElements c else c in
  (* Draw springs *)
  let c :=
    if debugIs DebugShipRenderMode.Springs c
       || debugIs DebugShipRenderMode.EdgeSprings c
       || (debugIs DebugShipRenderMode.None c
           && (isStructure c || isTexture c))
    then RenderSpringElements
           (debugIs DebugShipRenderMode.None c && isTexture c) c
    else c in
  (* Draw ropes now if RenderMode is Structure *)
  let c :=
    if debugIs DebugShipRenderMode.None c && isStructure c
    then RenderRopeElements c else c in
  (* Draw stressed springs *)
  let c :=
    if debugIs DebugShipRenderMode.None c && mShowStressedSprings c
    then RenderStressedSpringElements c else c in
  (* Draw ephemeral points *)
  let c := RenderEphemeralPoints c in
  (* Draw Generic textures *)
  let c :=
    fold_left (fun c connectedComponent => RenderGenericTextures connectedComponent c)
      (mGenericTextureConnectedComponents c) c in
  (* Render vectors, if we're asked to *)
  let c :=
    if negb (VectorFieldRenderMode.eqb (mVectorFieldRenderMode c)
               VectorFieldRenderMode.None)
    then RenderVectors c else c in
  (* Update stats *)
  set_mRenderStatistics
    (add_LastRenderedShipPlanes (Int.uint32_t (mMaxMaxPlaneId c + 1))
       (mRenderStatistics c)) c.

(** A frame of the generic-texture batch: [RenderStart], the uploads of the
    frame (component index and vertices of each), [RenderEnd]. *)
Definition GenericTextureUpload : Type :=
  (Z * list TextureRenderPolygonVertex)%type.

Definition uploadGenericTextures (uploads : list GenericTextureUpload)
    (c : ShipRenderContext) : ShipRenderContext :=
  fold_left (fun c upload => UploadGenericTextureVertices (fst upload) (snd upload) c)
    uploads c.

Definition renderFrame (uploads : list GenericTextureUpload)
    (c : ShipRenderContext) : ShipRenderContext :=
  RenderEnd (uploadGenericTextures uploads (RenderStart c)).

(** The peak vertex-buffer size a frame reaches before it is drawn. *)
Definition framePeak (uploads : list GenericTextureUpload)
    (c : ShipRenderContext) : Z :=
  mGenericTextureMaxVertexBufferSize
    (uploadGenericTextures uploads (RenderStart c)).

(** The peaks of the successive frames of a session, and the context the
    session ends in. *)
Fixpoint sessionPeaks (frames : list (list GenericTextureUpload))
    (c : ShipRenderContext) : list Z :=
  match frames with
  | [] => []
  | uploads :: later =>
      framePeak uploads c :: sessionPeaks later (renderFrame uploads c)
  end.

Definition renderSession (frames : list (list GenericTextureUpload))
    (c : ShipRenderContext) : ShipRenderContext :=
  fold_left (fun c uploads => renderFrame uploads c) frames c.

(** ** The constructor *)

(** What the constructor leaves behind: buffers of [pointCount] slots (their
    contents are unspecified until the first upload; the model fills them
    with [color0] and plane 0), empty element streams, no generic-texture
    store, and the ortho matrices computed once. *)
Definition newShipRenderContext (shipId shipCount pointCount : Z)
    (shipRenderMode : ShipRenderMode.t)
    (debugShipRenderMode : DebugShipRenderMode.t)
    (vectorFieldRenderMode : VectorFieldRenderMode.t)
    (showStressedSprings : bool) (color0 : vec4f) : ShipRenderContext :=
  OnViewModelUpdated
    {| mShipId := shipId;
       mShipCount := shipCount;
       mMaxMaxPlaneId := 0;
       mRenderStatistics := mkRenderStatistics 0 0 0 0 0 0;
       mShipRenderMode := shipRenderMode;
       mDebugShipRenderMode := debugShipRenderMode;
       mVectorFieldRenderMode := vectorFieldRenderMode;
       mShowStressedSprings := showStressedSprings;
       mPointCount := pointCount;
       mPointColorVBO := repeat color0 (Z.to_nat pointCount);
       mPointPlaneIdVBO := repeat 0 (Z.to_nat pointCount);
       mGenericTextureConnectedComponents := [];
       mGenericTextureMaxVertexBufferSize := 0;
       mGenericTextureAllocatedVertexBufferSize := 0;
       mPointElementBuffer := [];
       mSpringElementBuffer := [];
       mRopeElementBuffer := [];
       mTriangleElementBuffer := [];
       mStressedSpringElementBuffer := [];
       mEphemeralPoints := [];
       mVectorArrowPointPositionBuffer := [];
       mVectorArrowColor := color0;
       glCalls := [] |}.

(** ** Observing the calls *)

(** The calls issued between two states of a context. *)
Definition issuedBetween (before after : ShipRenderContext) : list GLCall :=
  skipn (length (glCalls before)) (glCalls after).

Definition issued (operation : ShipRenderContext -> ShipRenderContext)
    (c : ShipRenderContext) : list GLCall :=
  issuedBetween c (operation c).

(** The draws of the orchestrator, told apart by the buffer they read;
    [textured] says whether the texture program was active. *)
Inductive Draw : Set :=
| PointsDraw
| TrianglesDraw (textured : bool)
| RopesDraw
| SpringsDraw (textured : bool)
| StressedSpringsDraw
| EphemeralPointsDraw
| GenericTexturesDraw
| VectorsDraw.

Definition isTextureProgram (p : ProgramType.t) : bool :=
  ProgramType.eqb p ProgramType.ShipTrianglesTexture.

Definition drawOf (call : GLCall) : list Draw :=
  match call with
  | glDrawElements program _ buffer _ | glDrawArrays program _ buffer _ =>
      match buffer with
      | mPointElementVBO => [PointsDraw]
      | mTriangleElementVBO => [TrianglesDraw (isTextureProgram program)]
      | mRopeElementVBO => [RopesDraw]
      | mSpringElementVBO => [SpringsDraw (isTextureProgram program)]
      | mStressedSpringElementVBO => [StressedSpringsDraw]
      | mEphemeralPointVBO => [EphemeralPointsDraw]
      | mGenericTextureRenderPolygonVertexVBO => [GenericTexturesDraw]
      | mVectorArrowPointPositionVBO => [VectorsDraw]
      end
  | SetOrthoMatrix _ _ | glBufferData _ _ => []
  end.

Definition draws (calls : list GLCall) : list Draw := flat_map drawOf calls.

Definition isRopesDraw (d : Draw) : bool :=
  match d with RopesDraw => true | _ => false end.

Definition isSpringsDraw (d : Draw) : bool :=
  match d with SpringsDraw _ => true | _ => false end.

Definition isPointsDraw (d : Draw) : bool :=
  match d with PointsDraw => true | _ => false end.

Definition count (p : Draw -> bool) (l : list Draw) : nat :=
  length (filter p l).

(** The rope and spring draws of a sequence, in the order they were
    issued. *)
Definition ropesAndSprings (l : list Draw) : list Draw :=
  filter (fun d => isRopesDraw d || isSpringsDraw d) l.

(** How often a call sequence sets the ortho matrix of a program. *)
Definition setsOrthoMatrixOf (p : ProgramType.t) (call : GLCall) : bool :=
  match call with
  | SetOrthoMatrix q _ => ProgramType.eqb p q
  | _ => false
  end.

Definition orthoMatrixUpdates (p : ProgramType.t) (calls : list GLCall) : nat :=
  length (filter (setsOrthoMatrixOf p) calls).

(** One recomputation of the depth-layer matrices: every program receives
    the matrix of its layer, in the order of [UpdateOrthoMatrices]. *)
Definition allPrograms : list ProgramType.t :=
  [ProgramType.ShipRopes; ProgramType.ShipTrianglesColor;
   ProgramType.ShipTrianglesTexture; ProgramType.ShipStressedSprings;
   ProgramType.ShipPointsColor; ProgramType.ShipGenericTextures;
   ProgramType.ShipVectors].

Definition recomputation (c : ShipRenderContext) : list GLCall :=
  map (fun p => SetOrthoMatrix p (shipOrthoMatrix c (layerOf p))) allPrograms.

(** The layer each kind of draw is painted in. *)
Definition drawLayer (d : Draw) : Z :=
  match d with
  | RopesDraw => 0
  | TrianglesDraw _ | SpringsDraw _ => 1
  | StressedSpringsDraw => 2
  | PointsDraw | EphemeralPointsDraw => 3
  | GenericTexturesDraw => 4
  | VectorsDraw => 5
  end.

Definition programOf (call : GLCall) : list ProgramType.t :=
  match call with
  | glDrawElements program _ _ _ | glDrawArrays program _ _ _ => [program]
  | SetOrthoMatrix _ _ | glBufferData _ _ => []
  end.

(** The draw order of the Structure / debug None / no stressed springs
    scenario as section 8 of the specification words it: triangles
    (untextured), ropes (if any), springs (untextured), ephemeral points (if
    any), generic textures (if any). *)
Definition specStructureScenarioDraws (c : ShipRenderContext) : list Draw :=
  [TrianglesDraw false]
  ++ (if empty (mRopeElementBuffer c) then [] else [RopesDraw])
  ++ [SpringsDraw false]
  ++ (if empty (mEphemeralPoints c) then [] else [EphemeralPointsDraw])
  ++ flat_map
       (fun component =>
          if empty (VertexBuffer component) then [] else [GenericTexturesDraw])
       (mGenericTextureConnectedComponents c).

(** What [RenderEnd] issues in that scenario. *)
Definition structureScenarioDraws (c : ShipRenderContext) : list Draw :=
  [TrianglesDraw false; SpringsDraw false; RopesDraw]
  ++ (if empty (mEphemeralPoints c) then [] else [EphemeralPointsDraw])
  ++ flat_map
       (fun component =>
          if empty (VertexBuffer component) then [] else [GenericTexturesDraw])
       (mGenericTextureConnectedComponents c)
  ++ (if VectorFieldRenderMode.eqb (mVectorFieldRenderMode c)
           VectorFieldRenderMode.None
      then [] else [VectorsDraw]).

(** ** The draw list of [RenderEnd] as a function of the modes *)

(** The blocks of [RenderEnd], one per comment heading of the source. *)
Definition drawPointsBlock (c : ShipRenderContext) : ShipRenderContext :=
  if debugIs DebugShipRenderMode.Points c then RenderPointElements c else c.

Definition drawTrianglesBlock (c : ShipRenderContext) : ShipRenderContext :=
  if debugIs DebugShipRenderMode.Wireframe c
     || (debugIs DebugShipRenderMode.None c && (isStructure c || isTexture c))
  then RenderTriangleElements (isTexture c) c else c.

Definition drawRopesFirstBlock (c : ShipRenderContext) : ShipRenderContext :=
  if negb (debugIs DebugShipRenderMode.None c) || negb (isStructure c)
  then RenderRopeElements c else c.

Definition drawSpringsBlock (c : ShipRenderContext) : ShipRenderContext :=
  if debugIs DebugShipRenderMode.Springs c
     || debugIs DebugShipRenderMode.EdgeSprings c
     || (debugIs DebugShipRenderMode.None c && (isStructure c || isTexture c))
  then RenderSpringElements (debugIs DebugShipRenderMode.None c && isTexture c) c
  else c.

Definition drawRopesSecondBlock (c : ShipRenderContext) : ShipRenderContext :=
  if debugIs DebugShipRenderMode.None c && isStructure c
  then RenderRopeElements c else c.

Definition drawStressedSpringsBlock (c : ShipRenderContext) : ShipRenderContext :=
  if debugIs DebugShipRenderMode.None c && mShowStressedSprings c
  then RenderStressedSpringElements c else c.

Definition drawGenericTexturesBlock (c : ShipRenderContext) : ShipRenderContext :=
  fold_left (fun c connectedComponent => RenderGenericTextures connectedComponent c)
    (mGenericTextureConnectedComponents c) c.

Definition drawVectorsBlock (c : ShipRenderContext) : ShipRenderContext :=
  if negb (VectorFieldRenderMode.eqb (mVectorFieldRenderMode c)
             VectorFieldRenderMode.None)
  then RenderVectors c else c.

Definition updateStatsBlock (c : ShipRenderContext) : ShipRenderContext :=
  set_mRenderStatistics
    (add_LastRenderedShipPlanes (Int.uint32_t (mMaxMaxPlaneId c + 1))
       (mRenderStatistics c)) c.

Definition genericTextureDraws
    (components : list GenericTextureConnectedComponentData) : list Draw :=
  flat_map
    (fun component =>
       if empty (VertexBuffer component) then [] else [GenericTexturesDraw])
    components.

(** The ordered draws [RenderEnd] issues, read off the mode flags and the
    buffers alone. *)
Definition renderEndDraws (c : ShipRenderContext) : list Draw :=
  (if debugIs DebugShipRenderMode.Points c then [PointsDraw] else [])
  ++ (if debugIs DebugShipRenderMode.Wireframe c
         || (debugIs DebugShipRenderMode.None c && (isStructure c || isTexture c))
      then [TrianglesDraw (isTexture c)] else [])
  ++ (if negb (debugIs DebugShipRenderMode.None c) || negb (isStructure c)
      then [RopesDraw] else [])
  ++ (if debugIs DebugShipRenderMode.Springs c
         || debugIs DebugShipRenderMode.EdgeSprings c
         || (debugIs DebugShipRenderMode.None c && (isStructure c || isTexture c))
      then [SpringsDraw (debugIs DebugShipRenderMode.None c && isTexture c)]
      else [])
  ++ (if debugIs DebugShipRenderMode.None c && isStructure c
      then [RopesDraw] else [])
  ++ (if debugIs DebugShipRenderMode.None c && mShowStressedSprings c
         && negb (empty (mStressedSpringElementBuffer c))
      then [StressedSpringsDraw] else [])
  ++ (if empty (mEphemeralPoints c) then [] else [EphemeralPointsDraw])
  ++ genericTextureDraws (mGenericTextureConnectedComponents c)
  ++ (if VectorFieldRenderMode.eqb (mVectorFieldRenderMode c)
           VectorFieldRenderMode.None
      then [] else [VectorsDraw])
  ++ [].

(** A context with its call log and statistics blanked: what is left is
    everything a later step of the frame can read. *)
Definition withoutLog (c : ShipRenderContext) : ShipRenderContext :=
  set_glCalls [] (set_mRenderStatistics (mkRenderStatistics 0 0 0 0 0 0) c).

(** The same with the allocated size of the generic-texture store blanked
    too: what decides which draws are issued. *)
Definition drawInputs (c : ShipRenderContext) : ShipRenderContext :=
  set_mGenericTextureAllocatedVertexBufferSize 0 (withoutLog c).

(** A draw call is issued under a program of the layer its kind of draw is
    painted in. *)
Definition paintsInOwnLayer (call : GLCall) : bool :=
  match drawOf call, programOf call with
  | [d], [p] => layerOf p =? drawLayer d
  | _, _ => true
  end.

(** [issues f d]: the operation [f] changes nothing a draw decision reads,
    and appends to the log calls whose draws are [d], each issued under a
    program of its layer. *)
Definition issues (f : ShipRenderContext -> ShipRenderContext)
    (d : ShipRenderContext -> list Draw) : Prop :=
  forall c,
    drawInputs (f c) = drawInputs c
    /\ exists new,
         glCalls (f c) = glCalls c ++ new
         /\ draws new = d c
         /\ forallb paintsInOwnLayer new = true.

(** [d] reads nothing but the draw inputs. *)
Definition readsDrawInputs (d : ShipRenderContext -> list Draw) : Prop :=
  forall c, d c = d (drawInputs c).

(** ** Example contexts *)

Definition opaqueBlack : vec4f := Vec4.mkvec4f 0 0 0 1.

(** The ship of the end-to-end scenario of the specification (4 points, 3
    springs, 1 triangle; render mode Structure, debug None, stressed
    springs off, no vector field), with one rope added between points 0
    and 3. *)
Definition scenarioShip : ShipRenderContext :=
  {| mShipId := 0;
     mShipCount := 1;
     mMaxMaxPlaneId := 0;
     mRenderStatistics := mkRenderStatistics 0 0 0 0 0 0;
     mShipRenderMode := ShipRenderMode.Structure;
     mDebugShipRenderMode := DebugShipRenderMode.None;
     mVectorFieldRenderMode := VectorFieldRenderMode.None;
     mShowStressedSprings := false;
     mPointCount := 4;
     mPointColorVBO := [opaqueBlack; opaqueBlack; opaqueBlack; opaqueBlack];
     mPointPlaneIdVBO := [0; 0; 0; 0];
     mGenericTextureConnectedComponents := [];
     mGenericTextureMaxVertexBufferSize := 0;
     mGenericTextureAllocatedVertexBufferSize := 0;
     mPointElementBuffer := [0; 1; 2; 3];
     mSpringElementBuffer := [(0, 1); (1, 2); (2, 0)];
     mRopeElementBuffer := [(0, 3)];
     mTriangleElementBuffer := [(0, 1, 2)];
     mStressedSpringElementBuffer := [];
     mEphemeralPoints := [];
     mVectorArrowPointPositionBuffer := [];
     mVectorArrowColor := opaqueBlack;
     glCalls := [] |}.

(** ** Well-formed point buffers *)

(** What the constructor establishes and no operation changes: the colour
    and plane-id buffer objects hold one slot per point, and the byte size
    of the largest of the point buffers is one OpenGL accepted. *)
Definition pointBuffersAllocated (c : ShipRenderContext) : Prop :=
  size (mPointColorVBO c) = mPointCount c
  /\ size (mPointPlaneIdVBO c) = mPointCount c
  /\ mPointCount c * sizeof_vec4f <= Int.PTRDIFF_MAX.

(** The context [UploadPointPlaneIds] returns when OpenGL accepts the
    upload. *)
Definition planeIdsUploaded (planeId : list PlaneId) (maxMaxPlaneId : PlaneId)
    (c : ShipRenderContext) : ShipRenderContext :=
  let c :=
    set_mPointPlaneIdVBO
      (firstn (Z.to_nat (mPointCount c)) planeId
       ++ skipn (Z.to_nat (mPointCount c)) (mPointPlaneIdVBO c)) c in
  if maxMaxPlaneId =? mMaxMaxPlaneId c then c
  else OnViewModelUpdated (set_mMaxMaxPlaneId maxMaxPlaneId c).

(** The colour buffer with the slots [startIndex .. startIndex + count)
    overwritten by the first [count] entries of [color]. *)
Definition colorRangeReplaced (color : list vec4f) (startIndex count : Z)
    (store : list vec4f) : list vec4f :=
  firstn (Z.to_nat startIndex) store
  ++ firstn (Z.to_nat count) color
  ++ skipn (Z.to_nat startIndex + Z.to_nat count) store.

(** ** Generic-texture bookkeeping *)

Definition hasVertices (component : GenericTextureConnectedComponentData) : bool :=
  negb (empty (VertexBuffer component)).

(** The largest vertex buffer among the components. *)
Definition largestVertexBuffer
    (components : list GenericTextureConnectedComponentData) : Z :=
  fold_right Z.max 0 (map (fun component => size (VertexBuffer component)) components).

(** The peak tracker agrees with the components. *)
Definition peakTracked (c : ShipRenderContext) : Prop :=
  mGenericTextureMaxVertexBufferSize c
  = largestVertexBuffer (mGenericTextureConnectedComponents c).

Definition someVertex : TextureRenderPolygonVertex :=
  mkTextureRenderPolygonVertex
    (Vec4.mkvec4f 0 0 1 0) (mkvec2f 0 0) (Vec4.mkvec4f 0 0 0 1).

(** One textured quad: two triangles, six vertices. *)
Definition quad : list TextureRenderPolygonVertex := repeat someVertex 6.

(** ** Depth slots *)

(** The two ends of the depth range shared by all ships. *)
Definition farDepth : R := ShipRegionZStart.
Definition nearDepth : R := (ShipRegionZStart + ShipRegionZWidth)%R.

(** Number of depth slots in the shared range, and the index of the slot of
    a layer and plane of this ship, counted from the far end. *)
Definition slotCount (c : ShipRenderContext) : Z :=
  Int.int (mShipCount c) * (Int.int (mMaxMaxPlaneId c) + 1) * NLayers.

Definition slotIndex (c : ShipRenderContext) (iLayer planeId : Z) : Z :=
  (Int.int (mShipId c) * (Int.int (mMaxMaxPlaneId c) + 1) + planeId) * NLayers
  + iLayer.

(** The context fits the [int] parameters of [CalculateShipOrthoMatrix]. *)
Definition shipInScene (c : ShipRenderContext) : Prop :=
  0 <= mShipId c < mShipCount c
  /\ mShipCount c < 2 ^ 31
  /\ 0 <= mMaxMaxPlaneId c < 2 ^ 31.

(** ** Vector arrows, per sample *)

Definition stemEndpoint (position_i vector_i : vec2f) (lengthAdjustment : R)
    : vec2f :=
  vec2.add position_i (vec2.scale vector_i lengthAdjustment).

(** The six points [UploadVectors] pushes for one sample: the stem, the
    left arrowhead stroke, the right arrowhead stroke. *)
Definition arrowPoints (position_i vector_i : vec2f) (lengthAdjustment : R)
    : list vec2f :=
  let tip := stemEndpoint position_i vector_i lengthAdjustment in
  [position_i; tip;
   tip; vec2.add tip (vec2.scale (leftDir vector_i) arrowheadLength);
   tip; vec2.add tip (vec2.scale (rightDir vector_i) arrowheadLength)].

(** The buffer [UploadVectors] leaves in the context. *)
Definition vectorArrowBuffer (count : Z) (position vector : list vec2f)
    (lengthAdjustment : R) (color : vec4f) (c : ShipRenderContext)
    : list vec2f :=
  mVectorArrowPointPositionBuffer
    (UploadVectors count position vector lengthAdjustment color c).

(** ** Element Stream Builder *)

(** Assignments to the element buffers. *)
Definition set_mPointElementBuffer (v : list PointElement) (c : ShipRenderContext) : ShipRenderContext :=
  mkShipRenderContext
    (mShipId c) (mShipCount c) (mMaxMaxPlaneId c) (mRenderStatistics c)
    (mShipRenderMode c) (mDebugShipRenderMode c) (mVectorFieldRenderMode c)
    (mShowStressedSprings c) (mPointCount c) (mPointColorVBO c)
    (mPointPlaneIdVBO c) (mGenericTextureConnectedComponents c)
    (mGenericTextureMaxVertexBufferSize c)
    (mGenericTextureAllocatedVertexBufferSize c) v (mSpringElementBuffer c)
    (mRopeElementBuffer c) (mTriangleElementBuffer c)
    (mStressedSpringElementBuffer c) (mEphemeralPoints c)
    (mVectorArrowPointPositionBuffer c) (mVectorArrowColor c) (glCalls c).

Definition set_mSpringElementBuffer (v : list SpringElement) (c : ShipRenderContext) : ShipRenderContext :=
  mkShipRenderContext
    (mShipId c) (mShipCount c) (mMaxMaxPlaneId c) (mRenderStatistics c)
    (mShipRenderMode c) (mDebugShipRenderMode c) (mVectorFieldRenderMode c)
    (mShowStressedSprings c) (mPointCount c) (mPointColorVBO c)
    (mPointPlaneIdVBO c) (mGenericTextureConnectedComponents c)
    (mGenericTextureMaxVertexBufferSize c)
    (mGenericTextureAllocatedVertexBufferSize c) (mPointElementBuffer c) v
    (mRopeElementBuffer c) (mTriangleElementBuffer c)
    (mStressedSpringElementBuffer c) (mEphemeralPoints c)
    (mVectorArrowPointPositionBuffer c) (mVectorArrowColor c) (glCalls c).

Definition set_mRopeElementBuffer (v : list RopeElement) (c : ShipRenderContext) : ShipRenderContext :=
  mkShipRenderContext
    (mShipId c) (mShipCount c) (mMaxMaxPlaneId c) (mRenderStatistics c)
    (mShipRenderMode c) (mDebugShipRenderMode c) (mVectorFieldRenderMode c)
    (mShowStressedSprings c) (mPointCount c) (mPointColorVBO c)
    (mPointPlaneIdVBO c) (mGenericTextureConnectedComponents c)
    (mGenericTextureMaxVertexBufferSize c)
    (mGenericTextureAllocatedVertexBufferSize c) (mPointElementBuffer c)
    (mSpringElementBuffer c) v (mTriangleElementBuffer c)
    (mStressedSpringElementBuffer c) (mEphemeralPoints c)
    (mVectorArrowPointPositionBuffer c) (mVectorArrowColor c) (glCalls c).

Definition set_mTriangleElementBuffer (v : list TriangleElement) (c : ShipRenderContext) : ShipRenderContext :=
  mkShipRenderContext
    (mShipId c) (mShipCount c) (mMaxMaxPlaneId c) (mRenderStatistics c)
    (mShipRenderMode c) (mDebugShipRenderMode c) (mVectorFieldRenderMode c)
    (mShowStressedSprings c) (mPointCount c) (mPointColorVBO c)
    (mPointPlaneIdVBO c) (mGenericTextureConnectedComponents c)
    (mGenericTextureMaxVertexBufferSize c)
    (mGenericTextureAllocatedVertexBufferSize c) (mPointElementBuffer c)
    (mSpringElementBuffer c) (mRopeElementBuffer c) v
    (mStressedSpringElementBuffer c) (mEphemeralPoints c)
    (mVectorArrowPointPositionBuffer c) (mVectorArrowColor c) (glCalls c).

Definition set_mStressedSpringElementBuffer (v : list StressedSpringElement) (c : ShipRenderContext) : ShipRenderContext :=
  mkShipRenderContext
    (mShipId c) (mShipCount c) (mMaxMaxPlaneId c) (mRenderStatistics c)
    (mShipRenderMode c) (mDebugShipRenderMode c) (mVectorFieldRenderMode c)
    (mShowStressedSprings c) (mPointCount c) (mPointColorVBO c)
    (mPointPlaneIdVBO c) (mGenericTextureConnectedComponents c)
    (mGenericTextureMaxVertexBufferSize c)
    (mGenericTextureAllocatedVertexBufferSize c) (mPointElementBuffer c)
    (mSpringElementBuffer c) (mRopeElementBuffer c) (mTriangleElementBuffer c)
    v (mEphemeralPoints c) (mVectorArrowPointPositionBuffer c)
    (mVectorArrowColor c) (glCalls c).

Definition set_mEphemeralPoints (v : list PointElement) (c : ShipRenderContext) : ShipRenderContext :=
  mkShipRenderContext
    (mShipId c) (mShipCount c) (mMaxMaxPlaneId c) (mRenderStatistics c)
    (mShipRenderMode c) (mDebugShipRenderMode c) (mVectorFieldRenderMode c)
    (mShowStressedSprings c) (mPointCount c) (mPointColorVBO c)
    (mPointPlaneIdVBO c) (mGenericTextureConnectedComponents c)
    (mGenericTextureMaxVertexBufferSize c)
    (mGenericTextureAllocatedVertexBufferSize c) (mPointElementBuffer c)
    (mSpringElementBuffer c) (mRopeElementBuffer c) (mTriangleElementBuffer c)
    (mStressedSpringElementBuffer c) v (mVectorArrowPointPositionBuffer c)
    (mVectorArrowColor c) (glCalls c).

(** An upload of a whole element buffer, [glBufferData] with the byte size
    [size * sizeof(element)], is logged with the number of elements. *)
Definition UploadElementsStart (c : ShipRenderContext) : ShipRenderContext :=
  (* Empty all buffers, as they will be re-populated soon *)
  let c := set_mPointElementBuffer [] c in
  let c := set_mSpringElementBuffer [] c in
  let c := set_mRopeElementBuffer [] c in
  let c := set_mTriangleElementBuffer [] c in
  set_mStressedSpringElementBuffer [] c.

Definition UploadElementsEnd (c : ShipRenderContext) : ShipRenderContext :=
  (* Points *)
  let c := emit (glBufferData mPointElementVBO (size (mPointElementBuffer c))) c in
  (* Springs *)
  let c := emit (glBufferData mSpringElementVBO (size (mSpringElementBuffer c))) c in
  (* Ropes *)
  let c := emit (glBufferData mRopeElementVBO (size (mRopeElementBuffer c))) c in
  (* Triangles *)
  emit (glBufferData mTriangleElementVBO (size (mTriangleElementBuffer c))) c.

Definition UploadElementStressedSpringsStart (c : ShipRenderContext)
    : ShipRenderContext :=
  set_mStressedSpringElementBuffer [] c.

Definition UploadElementStressedSpringsEnd (c : ShipRenderContext)
    : ShipRenderContext :=
  emit (glBufferData mStressedSpringElementVBO
          (size (mStressedSpringElementBuffer c))) c.

Definition UploadEphemeralPointsStart (c : ShipRenderContext) : ShipRenderContext :=
  set_mEphemeralPoints [] c.

Definition UploadEphemeralPointsEnd (c : ShipRenderContext) : ShipRenderContext :=
  emit (glBufferData mEphemeralPointVBO (size (mEphemeralPoints c))) c.

(** ** The calls of [RenderEnd], one by one *)

Definition trianglesProgram (withTexture : bool) : ProgramType.t :=
  if withTexture then ProgramType.ShipTrianglesTexture
  else ProgramType.ShipTrianglesColor.

Definition drawsTriangles (c : ShipRenderContext) : bool :=
  debugIs DebugShipRenderMode.Wireframe c
  || (debugIs DebugShipRenderMode.None c && (isStructure c || isTexture c)).

Definition drawsSprings (c : ShipRenderContext) : bool :=
  debugIs DebugShipRenderMode.Springs c
  || debugIs DebugShipRenderMode.EdgeSprings c
  || (debugIs DebugShipRenderMode.None c && (isStructure c || isTexture c)).

Definition ropesCall (c : ShipRenderContext) : GLCall :=
  glDrawElements ProgramType.ShipRopes GL_LINES mRopeElementVBO
    (Int.GLsizei (Int.size_t (2 * size (mRopeElementBuffer c)))).

(** The calls of the generic-texture loop, given the allocated size and the
    peak size it starts with: the first component that has vertices
    reallocates the store if the two differ, and every component that has
    vertices is drawn. *)
Fixpoint genericTextureCalls
    (components : list GenericTextureConnectedComponentData)
    (allocated peak : Z) : list GLCall :=
  match components with
  | [] => []
  | component :: rest =>
      if empty (VertexBuffer component)
      then genericTextureCalls rest allocated peak
      else
        (if allocated =? peak then []
         else [glBufferData mGenericTextureRenderPolygonVertexVBO peak])
        ++ glDrawArrays ProgramType.ShipGenericTextures GL_TRIANGLES
             mGenericTextureRenderPolygonVertexVBO
             (Int.GLsizei (size (VertexBuffer component)))
           :: genericTextureCalls rest peak peak
  end.

Definition beforeGenericTexturesCalls (c : ShipRenderContext) : list GLCall :=
  (if debugIs DebugShipRenderMode.Points c
   then [glDrawElements ProgramType.ShipPointsColor GL_POINTS mPointElementVBO
           (Int.GLsizei (Int.size_t (1 * size (mPointElementBuffer c))))]
   else [])
  ++ (if drawsTriangles c
      then [glDrawElements (trianglesProgram (isTexture c)) GL_TRIANGLES
              mTriangleElementVBO
              (Int.GLsizei (Int.size_t (3 * size (mTriangleElementBuffer c))))]
      else [])
  ++ (if negb (debugIs DebugShipRenderMode.None c) || negb (isStructure c)
      then [ropesCall c] else [])
  ++ (if drawsSprings c
      then [glDrawElements
              (trianglesProgram (debugIs DebugShipRenderMode.None c && isTexture c))
              GL_LINES mSpringElementVBO
              (Int.GLsizei (Int.size_t (2 * size (mSpringElementBuffer c))))]
      else [])
  ++ (if debugIs DebugShipRenderMode.None c && isStructure c
      then [ropesCall c] else [])
  ++ (if debugIs DebugShipRenderMode.None c && mShowStressedSprings c
         && negb (empty (mStressedSpringElementBuffer c))
      then [glDrawElements ProgramType.ShipStressedSprings GL_LINES
              mStressedSpringElementVBO
              (Int.GLsizei (Int.size_t (2 * size (mStressedSpringElementBuffer c))))]
      else [])
  ++ (if empty (mEphemeralPoints c) then []
      else [glDrawElements ProgramType.ShipPointsColor GL_POINTS mEphemeralPointVBO
              (Int.GLsizei (size (mEphemeralPoints c)))]).

Definition vectorsCalls (c : ShipRenderContext) : list GLCall :=
  if VectorFieldRenderMode.eqb (mVectorFieldRenderMode c) VectorFieldRenderMode.None
  then []
  else [glDrawArrays ProgramType.ShipVectors GL_LINES mVectorArrowPointPositionVBO
          (Int.GLsizei (size (mVectorArrowPointPositionBuffer c)))].

(** Everything [RenderEnd] sends to OpenGL, in order. *)
Definition renderEndCalls (c : ShipRenderContext) : list GLCall :=
  beforeGenericTexturesCalls c
  ++ genericTextureCalls (mGenericTextureConnectedComponents c)
       (mGenericTextureAllocatedVertexBufferSize c)
       (mGenericTextureMaxVertexBufferSize c)
  ++ vectorsCalls c.

(** ** What [RenderEnd] adds to the statistics *)

Definition plusStatistics (a b : RenderStatistics) : RenderStatistics :=
  mkRenderStatistics
    (LastRenderedShipSprings a + LastRenderedShipSprings b)
    (LastRenderedShipRopes a + LastRenderedShipRopes b)
    (LastRenderedShipTriangles a + LastRenderedShipTriangles b)
    (LastRenderedShipGenericTextures a + LastRenderedShipGenericTextures b)
    (LastRenderedShipEphemeralPoints a + LastRenderedShipEphemeralPoints b)
    (LastRenderedShipPlanes a + LastRenderedShipPlanes b).

Definition noStatistics : RenderStatistics := mkRenderStatistics 0 0 0 0 0 0.

(** Textured quads of the components: six vertices make a quad. *)
Definition genericTextureQuads
    (components : list GenericTextureConnectedComponentData) : Z :=
  fold_right Z.add 0
    (map (fun component => size (VertexBuffer component) / 6) components).

Definition renderEndStatistics (c : ShipRenderContext) : RenderStatistics :=
  mkRenderStatistics
    (if drawsSprings c then size (mSpringElementBuffer c) else 0)
    (size (mRopeElementBuffer c))
    (if drawsTriangles c then size (mTriangleElementBuffer c) else 0)
    (genericTextureQuads (mGenericTextureConnectedComponents c))
    (size (mEphemeralPoints c))
    (Int.uint32_t (mMaxMaxPlaneId c + 1)).

(** ** The paint order *)

(** The phases of a frame, in the order [RenderEnd] goes through them;
    ropes and springs share a phase, their mutual order depends on the
    mode. *)
Definition paintPhase (d : Draw) : Z :=
  match d with
  | PointsDraw => 0
  | TrianglesDraw _ => 1
  | RopesDraw | SpringsDraw _ => 2
  | StressedSpringsDraw => 3
  | EphemeralPointsDraw => 4
  | GenericTexturesDraw => 5
  | VectorsDraw => 6
  end.

(** [renders f calls delta]: the operation [f] changes nothing a draw
    decision reads, appends [calls] to the log and adds [delta] to the
    statistics. *)
Definition renders (f : ShipRenderContext -> ShipRenderContext)
    (calls : ShipRenderContext -> list GLCall)
    (delta : ShipRenderContext -> RenderStatistics) : Prop :=
  forall c,
    drawInputs (f c) = drawInputs c
    /\ glCalls (f c) = glCalls c ++ calls c
    /\ mRenderStatistics (f c) = plusStatistics (mRenderStatistics c) (delta c).

Definition beforeGenericTexturesStatistics (c : ShipRenderContext)
    : RenderStatistics :=
  mkRenderStatistics
    (if drawsSprings c then size (mSpringElementBuffer c) else 0)
    (size (mRopeElementBuffer c))
    (if drawsTriangles c then size (mTriangleElementBuffer c) else 0)
    0
    (size (mEphemeralPoints c))
    0.

(** The blocks of [RenderEnd] up to the ephemeral points. *)
Definition beforeGenericTextures (c : ShipRenderContext) : ShipRenderContext :=
  RenderEphemeralPoints
    (drawStressedSpringsBlock
       (drawRopesSecondBlock
          (drawSpringsBlock
             (drawRopesFirstBlock
                (drawTrianglesBlock (drawPointsBlock c)))))).

(** ** Telling the calls apart *)

Definition isDrawCall (call : GLCall) : bool :=
  match call with
  | glDrawElements _ _ _ _ | glDrawArrays _ _ _ _ => true
  | SetOrthoMatrix _ _ | glBufferData _ _ => false
  end.

Definition isBufferDataCall (call : GLCall) : bool :=
  match call with
  | glBufferData _ _ => true
  | _ => false
  end.


Definition isGenericTexturesDrawCall (call : GLCall) : bool :=
  match call with
  | glDrawArrays _ _ mGenericTextureRenderPolygonVertexVBO _ => true
  | _ => false
  end.

(** Replaying a call sequence against the generic-texture store, which
    holds [capacity] vertices at the start: a [glBufferData] on it sets the
    capacity, and a draw from it must not need more vertices than the
    capacity. *)
Fixpoint storeFits (capacity : Z) (calls : list GLCall) : bool :=
  match calls with
  | [] => true
  | glBufferData mGenericTextureRenderPolygonVertexVBO vertexCount :: rest =>
      storeFits vertexCount rest
  | glDrawArrays _ _ mGenericTextureRenderPolygonVertexVBO vertexCount :: rest =>
      (vertexCount <=? capacity) && storeFits capacity rest
  | _ :: rest => storeFits capacity rest
  end.

(** No component holds more vertices than the peak size says. *)
Definition peakBoundsComponents (c : ShipRenderContext) : Prop :=
  Forall
    (fun component =>
       size (VertexBuffer component) <= mGenericTextureMaxVertexBufferSize c)
    (mGenericTextureConnectedComponents c).

Definition usesGenericTextureStore (call : GLCall) : bool :=
  match call with
  | glBufferData mGenericTextureRenderPolygonVertexVBO _
  | glDrawArrays _ _ mGenericTextureRenderPolygonVertexVBO _ => true
  | _ => false
  end.

(** ** Sequences of operations *)

(** The operations of the context that ShipRenderContext.cpp defines. *)
Inductive Operation : Type :=
| DoUploadShipPointColorRange (NDEBUG : bool) (color : list vec4f)
    (startIndex count : Z)
| DoUploadPointPlaneIds (planeId : list PlaneId) (maxMaxPlaneId : PlaneId)
| DoUploadElementsStart
| DoUploadElementsEnd
| DoUploadElementStressedSpringsStart
| DoUploadElementStressedSpringsEnd
| DoUploadEphemeralPointsStart
| DoUploadEphemeralPointsEnd
| DoUploadVectors (count : Z) (position vector : list vec2f)
    (lengthAdjustment : R) (color : vec4f)
| DoRenderStart
| DoRenderEnd.

Definition perform (operation : Operation) (c : ShipRenderContext)
    : result ShipRenderContext :=
  match operation with
  | DoUploadShipPointColorRange NDEBUG color startIndex count =>
      UploadShipPointColorRange NDEBUG color startIndex count c
  | DoUploadPointPlaneIds planeId maxMaxPlaneId =>
      UploadPointPlaneIds planeId maxMaxPlaneId c
  | DoUploadElementsStart => Ok (UploadElementsStart c)
  | DoUploadElementsEnd => Ok (UploadElementsEnd c)
  | DoUploadElementStressedSpringsStart => Ok (UploadElementStressedSpringsStart c)
  | DoUploadElementStressedSpringsEnd => Ok (UploadElementStressedSpringsEnd c)
  | DoUploadEphemeralPointsStart => Ok (UploadEphemeralPointsStart c)
  | DoUploadEphemeralPointsEnd => Ok (UploadEphemeralPointsEnd c)
  | DoUploadVectors count position vector lengthAdjustment color =>
      Ok (UploadVectors count position vector lengthAdjustment color c)
  | DoRenderStart => Ok (RenderStart c)
  | DoRenderEnd => Ok (RenderEnd c)
  end.

(** Operations one after the other; the first failure ends the run. *)
Fixpoint performAll (operations : list Operation) (c : ShipRenderContext)
    : result ShipRenderContext :=
  match operations with
  | [] => Ok c
  | operation :: later => do c' <- perform operation c; performAll later c'
  end.

(** The caller's arrays hold what the operation reads. *)
Definition arraysSuffice (operation : Operation) (c : ShipRenderContext) : Prop :=
  match operation with
  | DoUploadShipPointColorRange _ color _ count => 0 <= count <= size color
  | DoUploadPointPlaneIds planeId _ => mPointCount c <= size planeId
  | _ => True
  end.

(** ** The ortho matrix a program holds *)



(** ** Draw calls by the buffer they read *)

Definition VBO_eqb (a b : VBO) : bool :=
  match a, b with
  | mPointElementVBO, mPointElementVBO
  | mSpringElementVBO, mSpringElementVBO
  | mRopeElementVBO, mRopeElementVBO
  | mTriangleElementVBO, mTriangleElementVBO
  | mStressedSpringElementVBO, mStressedSpringElementVBO
  | mEphemeralPointVBO, mEphemeralPointVBO
  | mGenericTextureRenderPolygonVertexVBO, mGenericTextureRenderPolygonVertexVBO
  | mVectorArrowPointPositionVBO, mVectorArrowPointPositionVBO => true
  | _, _ => false
  end.

Definition readsFrom (buffer : VBO) (call : GLCall) : bool :=
  match call with
  | glDrawElements _ _ b _ | glDrawArrays _ _ b _ => VBO_eqb b buffer
  | SetOrthoMatrix _ _ | glBufferData _ _ => false
  end.

Definition drawCount (call : GLCall) : Z :=
  match call with
  | glDrawElements _ _ _ n | glDrawArrays _ _ _ n => n
  | SetOrthoMatrix _ _ | glBufferData _ _ => 0
  end.

(** The counts of the draw calls that read [buffer], in order. *)
Definition drawsFrom (buffer : VBO) (calls : list GLCall) : list Z :=
  map drawCount (filter (readsFrom buffer) calls).

(** ** The other point buffers *)

Definition sizeof_vec2f : Z := 8.
Definition sizeof_float : Z := 4.

(** The point buffer objects that no draw decision reads: positions, light,
    water and texture coordinates.  They are kept beside the context. *)
Record PointAttributeBuffers : Type := mkPointAttributeBuffers {
  mPointPositionVBO : list vec2f;
  mPointLightVBO : list R;
  mPointWaterVBO : list R;
  mPointElementTextureCoordinatesVBO : list vec2f
}.

Definition UploadPointImmutableGraphicalAttributes (color : list vec4f)
    (textureCoordinates : list vec2f) (c : ShipRenderContext)
    (b : PointAttributeBuffers)
    : result (ShipRenderContext * PointAttributeBuffers) :=
  (* Upload colors *)
  do colors <- CheckOpenGLError
    (glBufferSubData sizeof_vec4f (mPointColorVBO c)
       0
       (Int.GLsizeiptr (Int.size_t (mPointCount c * sizeof_vec4f)))
       color);
  (* Upload texture coordinates *)
  do coordinates <- CheckOpenGLError
    (glBufferSubData sizeof_vec2f (mPointElementTextureCoordinatesVBO b)
       0
       (Int.GLsizeiptr (Int.size_t (mPointCount c * sizeof_vec2f)))
       textureCoordinates);
  Ok (set_mPointColorVBO colors c,
      mkPointAttributeBuffers (mPointPositionVBO b) (mPointLightVBO b)
        (mPointWaterVBO b) coordinates).

Definition UploadPoints (position : list vec2f) (light water : list R)
    (c : ShipRenderContext) (b : PointAttributeBuffers)
    : result PointAttributeBuffers :=
  (* Upload positions *)
  do positions <- CheckOpenGLError
    (glBufferSubData sizeof_vec2f (mPointPositionVBO b)
       0
       (Int.GLsizeiptr (Int.size_t (mPointCount c * sizeof_vec2f)))
       position);
  (* Upload light *)
  do lights <- CheckOpenGLError
    (glBufferSubData sizeof_float (mPointLightVBO b)
       0
       (Int.GLsizeiptr (Int.size_t (mPointCount c * sizeof_float)))
       light);
  (* Upload water *)
  do waters <- CheckOpenGLError
    (glBufferSubData sizeof_float (mPointWaterVBO b)
       0
       (Int.GLsizeiptr (Int.size_t (mPointCount c * sizeof_float)))
       water);
  Ok (mkPointAttributeBuffers positions lights waters
        (mPointElementTextureCoordinatesVBO b)).

(** The first [n] entries of [data] over the first [n] slots of [store]. *)
Definition wholeUpload {A : Type} (n : Z) (data store : list A) : list A :=
  firstn (Z.to_nat n) data ++ skipn (Z.to_nat n) store.

(** ** Single-precision arithmetic *)

(** The [float] of the source is IEEE 754 binary32: 24 bits of precision,
    exponents below 128, every operation rounded to nearest, ties to even.
    Where the source itself does arithmetic on [float]s, the operations are
    those of the Standard Library's executable specification of IEEE
    arithmetic at this precision. *)
Module Float32.

Definition t : Type := SpecFloat.spec_float.

Definition prec : Z := 24.
Definition emax : Z := 128.

Definition add : t -> t -> t := SpecFloat.SFadd prec emax.
Definition mul : t -> t -> t := SpecFloat.SFmul prec emax.
Definition opp : t -> t := SpecFloat.SFopp.
Definition ltb : t -> t -> bool := SpecFloat.SFltb.

(** [m * 2^e], for the literals. *)
Definition finite (m : positive) (e : Z) : t := SpecFloat.S754_finite false m e.

(** [0.0f], [1.0f], [2.0f], and [0.01f], the binary32 number nearest to
    0.01 (0x3C23D70A). *)
Definition zero : t := SpecFloat.S754_zero false.
Definition one : t := finite 8388608 (-23).
Definition two : t := finite 8388608 (-22).
Definition hundredth : t := finite 10737418 (-30).

End Float32.

(** ** Shader parameters *)

Module ProgramParameterType.
Inductive t : Set := AmbientLightIntensity | WaterContrast | WaterLevelThreshold.
End ProgramParameterType.

(** [mShaderManager.SetProgramParameter<program, parameter>(value)]. *)
Record SetProgramParameter : Type := mkSetProgramParameter {
  parameterProgram : ProgramType.t;
  parameterType : ProgramParameterType.t;
  parameterValue : Float32.t
}.

(** The parameter calls of the three update functions, in order; each
    function reads one member of the context, its argument here. *)
Definition OnAmbientLightIntensityUpdated (mAmbientLightIntensity : Float32.t)
    : list SetProgramParameter :=
  [mkSetProgramParameter ProgramType.ShipRopes
     ProgramParameterType.AmbientLightIntensity mAmbientLightIntensity;
   mkSetProgramParameter ProgramType.ShipTrianglesColor
     ProgramParameterType.AmbientLightIntensity mAmbientLightIntensity;
   mkSetProgramParameter ProgramType.ShipTrianglesTexture
     ProgramParameterType.AmbientLightIntensity mAmbientLightIntensity;
   mkSetProgramParameter ProgramType.ShipPointsColor
     ProgramParameterType.AmbientLightIntensity mAmbientLightIntensity;
   mkSetProgramParameter ProgramType.ShipGenericTextures
     ProgramParameterType.AmbientLightIntensity mAmbientLightIntensity;
   mkSetProgramParameter ProgramType.ShipVectors
     ProgramParameterType.AmbientLightIntensity mAmbientLightIntensity].

Definition OnWaterContrastUpdated (mWaterContrast : Float32.t)
    : list SetProgramParameter :=
  [mkSetProgramParameter ProgramType.ShipRopes
     ProgramParameterType.WaterContrast mWaterContrast;
   mkSetProgramParameter ProgramType.ShipTrianglesColor
     ProgramParameterType.WaterContrast mWaterContrast;
   mkSetProgramParameter ProgramType.ShipTrianglesTexture
     ProgramParameterType.WaterContrast mWaterContrast;
   mkSetProgramParameter ProgramType.ShipPointsColor
     ProgramParameterType.WaterContrast mWaterContrast].

Definition OnWaterLevelOfDetailUpdated (mWaterLevelOfDetail : Float32.t)
    : list SetProgramParameter :=
  (* Transform: 0->1 == 2.0->0.01 *)
  let waterLevelThreshold :=
    Float32.add Float32.two
      (Float32.mul mWaterLevelOfDetail
         (Float32.add (Float32.opp Float32.two) Float32.hundredth)) in
  [mkSetProgramParameter ProgramType.ShipRopes
     ProgramParameterType.WaterLevelThreshold waterLevelThreshold;
   mkSetProgramParameter ProgramType.ShipTrianglesColor
     ProgramParameterType.WaterLevelThreshold waterLevelThreshold;
   mkSetProgramParameter ProgramType.ShipTrianglesTexture
     ProgramParameterType.WaterLevelThreshold waterLevelThreshold;
   mkSetProgramParameter ProgramType.ShipPointsColor
     ProgramParameterType.WaterLevelThreshold waterLevelThreshold].

(** The value the calls set for [parameter] in [program]: that of the last
    such call, if there is one. *)
Fixpoint programParameter (program : ProgramType.t)
    (parameter : ProgramParameterType.t) (calls : list SetProgramParameter)
    : option Float32.t :=
  match calls with
  | [] => None
  | call :: rest =>
      match programParameter program parameter rest with
      | Some value => Some value
      | None =>
          if ProgramType.eqb (parameterProgram call) program
             && match parameterType call, parameter with
                | ProgramParameterType.AmbientLightIntensity,
                  ProgramParameterType.AmbientLightIntensity
                | ProgramParameterType.WaterContrast,
                  ProgramParameterType.WaterContrast
                | ProgramParameterType.WaterLevelThreshold,
                  ProgramParameterType.WaterLevelThreshold => true
                | _, _ => false
                end
          then Some (parameterValue call)
          else None
      end
  end.

(** The four programs the two water updates name. *)
Definition hasWaterParameters (program : ProgramType.t) : bool :=
  match program with
  | ProgramType.ShipRopes | ProgramType.ShipTrianglesColor
  | ProgramType.ShipTrianglesTexture | ProgramType.ShipPointsColor => true
  | _ => false
  end.

(** The index counts of the element draws are representable as [GLsizei]. *)
Definition indexCountsFit (c : ShipRenderContext) : Prop :=
  1 * size (mPointElementBuffer c) < 2 ^ 31
  /\ 2 * size (mSpringElementBuffer c) < 2 ^ 31
  /\ 2 * size (mRopeElementBuffer c) < 2 ^ 31
  /\ 3 * size (mTriangleElementBuffer c) < 2 ^ 31
  /\ 2 * size (mStressedSpringElementBuffer c) < 2 ^ 31
  /\ size (mEphemeralPoints c) < 2 ^ 31.

(** ** Theorems *)

(** *** Lists *)

Lemma skipn_length_app {A : Type} (l new : list A) :
  skipn (length l) (l ++ new) = new.
Proof.
  induction l as [| a l IH]; simpl; auto.
Qed.

Lemma draws_app (a b : list GLCall) : draws (a ++ b) = draws a ++ draws b.
Proof.
  unfold draws. apply flat_map_app.
Qed.

(** *** The orchestrator, block by block *)

Lemma issues_seq f g d1 d2 :
  issues f d1 -> issues g d2 -> readsDrawInputs d2 ->
  issues (fun c => g (f c)) (fun c => d1 c ++ d2 c).
Proof.
  intros Hf Hg Hd c.
  destruct (Hf c) as [Sf [nf [Ef [Df Lf]]]].
  destruct (Hg (f c)) as [Sg [ng [Eg [Dg Lg]]]].
  split.
  - now rewrite Sg.
  - exists (nf ++ ng). split; [| split].
    + now rewrite Eg, Ef, app_assoc.
    + rewrite draws_app, Df, Dg. f_equal.
      now rewrite (Hd (f c)), Sf, <- (Hd c).
    + now rewrite forallb_app, Lf, Lg.
Qed.

Lemma issues_skip : issues (fun c => c) (fun _ => []).
Proof.
  intro c. split; [reflexivity |].
  exists []. split; [now rewrite app_nil_r | split; reflexivity].
Qed.

Lemma issues_ext f d d' :
  issues f d -> (forall c, d c = d' c) -> issues f d'.
Proof.
  intros H E c. destruct (H c) as [S [new [Hc [Hd Hl]]]].
  split; [exact S |]. exists new. now rewrite <- E.
Qed.

Lemma issues_eq f g d :
  (forall c, f c = g c) -> issues g d -> issues f d.
Proof.
  intros E H c. rewrite E. apply H.
Qed.

Ltac block_cases :=
  repeat match goal with
         | |- context [if ?b then _ else _] => destruct b eqn:?
         end.

Ltac block_done :=
  split;
  [ reflexivity
  | first [ exists []; split; [symmetry; apply app_nil_r | split; reflexivity]
          | eexists; split; [reflexivity | split; reflexivity] ] ].

Lemma issues_drawPointsBlock :
  issues drawPointsBlock
    (fun c => if debugIs DebugShipRenderMode.Points c then [PointsDraw] else []).
Proof.
  intro c. unfold drawPointsBlock. block_cases; block_done.
Qed.

Lemma issues_drawTrianglesBlock :
  issues drawTrianglesBlock
    (fun c =>
       if debugIs DebugShipRenderMode.Wireframe c
          || (debugIs DebugShipRenderMode.None c && (isStructure c || isTexture c))
       then [TrianglesDraw (isTexture c)] else []).
Proof.
  intro c. unfold drawTrianglesBlock, RenderTriangleElements.
  block_cases; block_done.
Qed.

Lemma issues_drawRopesFirstBlock :
  issues drawRopesFirstBlock
    (fun c =>
       if negb (debugIs DebugShipRenderMode.None c) || negb (isStructure c)
       then [RopesDraw] else []).
Proof.
  intro c. unfold drawRopesFirstBlock. block_cases; block_done.
Qed.

Lemma issues_drawSpringsBlock :
  issues drawSpringsBlock
    (fun c =>
       if debugIs DebugShipRenderMode.Springs c
          || debugIs DebugShipRenderMode.EdgeSprings c
          || (debugIs DebugShipRenderMode.None c && (isStructure c || isTexture c))
       then [SpringsDraw (debugIs DebugShipRenderMode.None c && isTexture c)]
       else []).
Proof.
  intro c. unfold drawSpringsBlock, RenderSpringElements.
  block_cases; block_done.
Qed.

Lemma issues_drawRopesSecondBlock :
  issues drawRopesSecondBlock
    (fun c =>
       if debugIs DebugShipRenderMode.None c && isStructure c
       then [RopesDraw] else []).
Proof.
  intro c. unfold drawRopesSecondBlock. block_cases; block_done.
Qed.

Lemma issues_drawStressedSpringsBlock :
  issues drawStressedSpringsBlock
    (fun c =>
       if debugIs DebugShipRenderMode.None c && mShowStressedSprings c
          && negb (empty (mStressedSpringElementBuffer c))
       then [StressedSpringsDraw] else []).
Proof.
  intro c. unfold drawStressedSpringsBlock, RenderStressedSpringElements.
  destruct (debugIs DebugShipRenderMode.None c && mShowStressedSprings c);
    destruct (empty (mStressedSpringElementBuffer c)); simpl; block_done.
Qed.

Lemma issues_RenderEphemeralPoints :
  issues RenderEphemeralPoints
    (fun c => if empty (mEphemeralPoints c) then [] else [EphemeralPointsDraw]).
Proof.
  intro c. unfold RenderEphemeralPoints.
  destruct (empty (mEphemeralPoints c)); simpl; block_done.
Qed.

Lemma issues_RenderGenericTextures component :
  issues (RenderGenericTextures component)
    (fun _ => if empty (VertexBuffer component) then [] else [GenericTexturesDraw]).
Proof.
  intro c. unfold RenderGenericTextures.
  destruct (empty (VertexBuffer component)); simpl; [block_done |].
  destruct (mGenericTextureAllocatedVertexBufferSize c
            =? mGenericTextureMaxVertexBufferSize c); simpl.
  - block_done.
  - split; [reflexivity |].
    eexists. split; [| split].
    + simpl. rewrite <- app_assoc. reflexivity.
    + reflexivity.
    + reflexivity.
Qed.

Lemma issues_fold_RenderGenericTextures components :
  issues
    (fun c => fold_left (fun c component => RenderGenericTextures component c)
                components c)
    (fun _ => genericTextureDraws components).
Proof.
  induction components as [| component rest IH].
  - apply issues_skip.
  - simpl.
    apply (issues_seq (RenderGenericTextures component) _ _ _
             (issues_RenderGenericTextures component) IH).
    intro c. reflexivity.
Qed.

Lemma issues_drawGenericTexturesBlock :
  issues drawGenericTexturesBlock
    (fun c => genericTextureDraws (mGenericTextureConnectedComponents c)).
Proof.
  intro c. unfold drawGenericTexturesBlock.
  apply (issues_fold_RenderGenericTextures (mGenericTextureConnectedComponents c) c).
Qed.

Lemma issues_drawVectorsBlock :
  issues drawVectorsBlock
    (fun c =>
       if VectorFieldRenderMode.eqb (mVectorFieldRenderMode c)
            VectorFieldRenderMode.None
       then [] else [VectorsDraw]).
Proof.
  intro c. unfold drawVectorsBlock.
  destruct (VectorFieldRenderMode.eqb (mVectorFieldRenderMode c)
              VectorFieldRenderMode.None); simpl; block_done.
Qed.

Lemma issues_updateStatsBlock : issues updateStatsBlock (fun _ => []).
Proof.
  intro c. block_done.
Qed.

Lemma RenderEnd_blocks c :
  RenderEnd c
  = updateStatsBlock
      (drawVectorsBlock
         (drawGenericTexturesBlock
            (RenderEphemeralPoints
               (drawStressedSpringsBlock
                  (drawRopesSecondBlock
                     (drawSpringsBlock
                        (drawRopesFirstBlock
                           (drawTrianglesBlock (drawPointsBlock c))))))))).
Proof.
  reflexivity.
Qed.

(** [RenderEnd] issues exactly the draws that [renderEndDraws] lists, in
    that order, and leaves every draw input as it found it. *)
Lemma issues_RenderEnd : issues RenderEnd renderEndDraws.
Proof.
  apply (issues_eq _ _ _ RenderEnd_blocks).
  eapply issues_ext.
  - eapply issues_seq; [| apply issues_updateStatsBlock | intro; reflexivity].
    eapply issues_seq; [| apply issues_drawVectorsBlock | intro; reflexivity].
    eapply issues_seq; [| apply issues_drawGenericTexturesBlock | intro; reflexivity].
    eapply issues_seq; [| apply issues_RenderEphemeralPoints | intro; reflexivity].
    eapply issues_seq; [| apply issues_drawStressedSpringsBlock | intro; reflexivity].
    eapply issues_seq; [| apply issues_drawRopesSecondBlock | intro; reflexivity].
    eapply issues_seq; [| apply issues_drawSpringsBlock | intro; reflexivity].
    eapply issues_seq; [| apply issues_drawRopesFirstBlock | intro; reflexivity].
    eapply issues_seq; [| apply issues_drawTrianglesBlock | intro; reflexivity].
    apply issues_drawPointsBlock.
  - intro c. unfold renderEndDraws. cbn beta.
    repeat rewrite <- app_assoc. reflexivity.
Qed.

Lemma draws_issued_RenderEnd c :
  draws (issued RenderEnd c) = renderEndDraws c.
Proof.
  destruct (issues_RenderEnd c) as [_ [new [E [D _]]]].
  unfold issued, issuedBetween. now rewrite E, skipn_length_app.
Qed.

(** Every draw of [RenderEnd] is issued under a program of the layer of
    its kind: ropes in layer 0, triangles and springs together in layer 1,
    stressed springs in 2, points in 3, generic textures in 4, vectors
    in 5. *)
Lemma RenderEnd_paints_in_own_layers c :
  forallb paintsInOwnLayer (issued RenderEnd c) = true.
Proof.
  destruct (issues_RenderEnd c) as [_ [new [E [_ L]]]].
  unfold issued, issuedBetween. now rewrite E, skipn_length_app.
Qed.

(** *** Ropes and springs in the draw order *)

Lemma filter_genericTextureDraws (p : Draw -> bool) components :
  p GenericTexturesDraw = false ->
  filter p (genericTextureDraws components) = [].
Proof.
  intro Hp. induction components as [| component rest IH]; simpl; auto.
  destruct (empty (VertexBuffer component)); simpl; auto.
  now rewrite Hp.
Qed.

Ltac by_modes c :=
  rewrite draws_issued_RenderEnd;
  unfold renderEndDraws, isStructure, isTexture, debugIs;
  destruct (mShipRenderMode c), (mDebugShipRenderMode c),
    (mShowStressedSprings c), (empty (mStressedSpringElementBuffer c)),
    (empty (mEphemeralPoints c)),
    (VectorFieldRenderMode.eqb (mVectorFieldRenderMode c)
       VectorFieldRenderMode.None);
  simpl.

Example scenarioShip_draws :
  draws (issued RenderEnd scenarioShip)
  = [TrianglesDraw false; SpringsDraw false; RopesDraw].
Proof.
  reflexivity.
Qed.

Example scenarioShip_calls :
  issued RenderEnd scenarioShip
  = [glDrawElements ProgramType.ShipTrianglesColor GL_TRIANGLES mTriangleElementVBO 3;
     glDrawElements ProgramType.ShipTrianglesColor GL_LINES mSpringElementVBO 6;
     glDrawElements ProgramType.ShipRopes GL_LINES mRopeElementVBO 2].
Proof.
  reflexivity.
Qed.

(** C10. Whatever the ship render mode and the debug render mode, one
    [RenderEnd] issues the rope-element draw exactly once: the guard of the
    rope draw before the springs and the guard of the rope draw after the
    springs are complementary. *)
Theorem RenderEnd_draws_ropes_exactly_once (c : ShipRenderContext) :
  count isRopesDraw (draws (issued RenderEnd c)) = 1%nat
  /\ (negb (debugIs DebugShipRenderMode.None c) || negb (isStructure c)
      = negb (debugIs DebugShipRenderMode.None c && isStructure c)).
Proof.
  split.
  - unfold count. by_modes c;
      repeat (rewrite filter_app; simpl);
      rewrite filter_genericTextureDraws by reflexivity; reflexivity.
  - apply eq_sym, negb_andb.
Qed.

(** C2, the claim as worded fails: in the branch "ship render mode
    Structure, debug render mode None" the ropes are not drawn twice; the
    scenario ship, which is in that branch, gets one rope draw, after the
    springs. *)
Lemma RenderEnd_structure_branch_draws_ropes_once_not_twice :
  mShipRenderMode scenarioShip = ShipRenderMode.Structure
  /\ mDebugShipRenderMode scenarioShip = DebugShipRenderMode.None
  /\ ropesAndSprings (draws (issued RenderEnd scenarioShip))
     = [SpringsDraw false; RopesDraw]
  /\ count isRopesDraw (draws (issued RenderEnd scenarioShip)) <> 2%nat.
Proof.
  repeat split; try reflexivity. discriminate.
Qed.

(** C2, amended. In [RenderEnd] the ropes are drawn before the springs for
    every combination of the mode flags except ship render mode Structure
    with debug render mode None; in that one branch the ropes are drawn
    once, after the springs. *)
Theorem RenderEnd_ropes_before_springs_unless_structure (c : ShipRenderContext) :
  ropesAndSprings (draws (issued RenderEnd c))
  = if debugIs DebugShipRenderMode.None c && isStructure c
    then [SpringsDraw false; RopesDraw]
    else
      RopesDraw
      :: (if debugIs DebugShipRenderMode.Springs c
             || debugIs DebugShipRenderMode.EdgeSprings c
             || (debugIs DebugShipRenderMode.None c && isTexture c)
          then [SpringsDraw (debugIs DebugShipRenderMode.None c && isTexture c)]
          else []).
Proof.
  unfold ropesAndSprings.
  by_modes c;
    repeat (rewrite filter_app; simpl);
    rewrite filter_genericTextureDraws by reflexivity; reflexivity.
Qed.

(** C3, the claim as worded fails: on the scenario ship (Structure, debug
    None, stressed springs off) the draws do not come in the order
    triangles, ropes, springs; the rope draw follows the spring draw. *)
Lemma RenderEnd_structure_scenario_not_as_specified :
  isStructure scenarioShip = true
  /\ debugIs DebugShipRenderMode.None scenarioShip = true
  /\ mShowStressedSprings scenarioShip = false
  /\ specStructureScenarioDraws scenarioShip
     = [TrianglesDraw false; RopesDraw; SpringsDraw false]
  /\ draws (issued RenderEnd scenarioShip)
     = [TrianglesDraw false; SpringsDraw false; RopesDraw]
  /\ draws (issued RenderEnd scenarioShip)
     <> specStructureScenarioDraws scenarioShip.
Proof.
  repeat split; try reflexivity. discriminate.
Qed.

(** C3, amended. For a ship rendered with ship render mode Structure, debug
    render mode None and the stressed-springs toggle off, [RenderEnd]
    issues its draws in the order: triangles (untextured), springs
    (untextured), ropes (one draw call, issued whether or not the rope
    buffer is empty), ephemeral points (if any), one draw per non-empty
    generic-texture component, and the vector overlay when the vector-field
    mode is not None; it issues no points-debug draw and no second rope
    draw. *)
Theorem RenderEnd_structure_scenario (c : ShipRenderContext) :
  isStructure c = true ->
  debugIs DebugShipRenderMode.None c = true ->
  mShowStressedSprings c = false ->
  draws (issued RenderEnd c) = structureScenarioDraws c
  /\ count isPointsDraw (draws (issued RenderEnd c)) = 0%nat
  /\ count isRopesDraw (draws (issued RenderEnd c)) = 1%nat.
Proof.
  intros HS HD HT.
  assert (E : draws (issued RenderEnd c) = structureScenarioDraws c).
  { rewrite draws_issued_RenderEnd.
    unfold renderEndDraws, structureScenarioDraws, genericTextureDraws.
    unfold debugIs in *. unfold isTexture. unfold isStructure in HS |- *.
    destruct (mShipRenderMode c); [| discriminate].
    destruct (mDebugShipRenderMode c); try discriminate.
    rewrite HT. simpl. now rewrite app_nil_r. }
  split; [exact E |].
  rewrite E. unfold count, structureScenarioDraws. simpl.
  split.
  - destruct (empty (mEphemeralPoints c)); simpl;
      rewrite filter_app, filter_genericTextureDraws by reflexivity;
      destruct (VectorFieldRenderMode.eqb (mVectorFieldRenderMode c)
                  VectorFieldRenderMode.None); reflexivity.
  - destruct (empty (mEphemeralPoints c)); simpl;
      rewrite filter_app, filter_genericTextureDraws by reflexivity;
      destruct (VectorFieldRenderMode.eqb (mVectorFieldRenderMode c)
                  VectorFieldRenderMode.None); reflexivity.
Qed.

Lemma RenderEnd_structure_scenario_witness :
  draws (issued RenderEnd scenarioShip) = structureScenarioDraws scenarioShip
  /\ count isPointsDraw (draws (issued RenderEnd scenarioShip)) = 0%nat
  /\ count isRopesDraw (draws (issued RenderEnd scenarioShip)) = 1%nat.
Proof.
  apply (RenderEnd_structure_scenario scenarioShip); reflexivity.
Defined.

(** *** Machine integers *)

Lemma size_nonneg {A : Type} (l : list A) : 0 <= size l.
Proof.
  unfold size. lia.
Qed.

Lemma size_t_small z : 0 <= z < 2 ^ 64 -> Int.size_t z = z.
Proof.
  intro H. unfold Int.size_t, Int.wrap. now apply Z.mod_small.
Qed.

Lemma signed64_small z : 0 <= z <= Int.PTRDIFF_MAX -> Int.signed 64 z = z.
Proof.
  unfold Int.PTRDIFF_MAX, Int.signed, Int.wrap.
  change (2 ^ (64 - 1)) with 9223372036854775808.
  change (2 ^ 63) with 9223372036854775808.
  change (2 ^ 64) with 18446744073709551616.
  intro H. rewrite Z.mod_small by lia.
  destruct (Z.ltb_spec z 9223372036854775808); lia.
Qed.

Lemma byte_count_small z :
  0 <= z <= Int.PTRDIFF_MAX -> Int.GLsizeiptr (Int.size_t z) = z.
Proof.
  intro H. unfold Int.GLsizeiptr.
  rewrite size_t_small; [now apply signed64_small |].
  unfold Int.PTRDIFF_MAX in H.
  change (2 ^ 63) with 9223372036854775808 in H.
  change (2 ^ 64) with 18446744073709551616. lia.
Qed.

(** *** Plane ids and the recomputation of the ortho matrices *)

Lemma issuedBetween_app c c' new :
  glCalls c' = glCalls c ++ new -> issuedBetween c c' = new.
Proof.
  intro E. unfold issuedBetween. rewrite E. apply skipn_length_app.
Qed.

Lemma glCalls_UpdateOrthoMatrices c :
  glCalls (UpdateOrthoMatrices c) = glCalls c ++ recomputation c.
Proof.
  unfold UpdateOrthoMatrices, recomputation, emit. simpl.
  repeat rewrite <- app_assoc. reflexivity.
Qed.

(** One recomputation sets the matrix of every program exactly once, each
    to the matrix of the program's layer. *)
Lemma recomputation_once_per_program c p :
  orthoMatrixUpdates p (recomputation c) = 1%nat.
Proof.
  destruct p; reflexivity.
Qed.

Lemma UploadPointPlaneIds_ok planeId maxMaxPlaneId c :
  pointBuffersAllocated c ->
  UploadPointPlaneIds planeId maxMaxPlaneId c
  = Ok (planeIdsUploaded planeId maxMaxPlaneId c).
Proof.
  intros (_ & Hplane & Hbytes).
  assert (Hpc : 0 <= mPointCount c) by (rewrite <- Hplane; apply size_nonneg).
  unfold UploadPointPlaneIds, planeIdsUploaded.
  unfold sizeof_vec4f in Hbytes.
  rewrite byte_count_small by (unfold sizeof_PlaneId; lia).
  unfold glBufferSubData.
  replace (0 <? 0) with false by reflexivity.
  destruct (Z.ltb_spec (mPointCount c * sizeof_PlaneId) 0) as [L | _];
    [unfold sizeof_PlaneId in L; lia |].
  rewrite Hplane.
  destruct (Z.ltb_spec (sizeof_PlaneId * mPointCount c)
              (0 + mPointCount c * sizeof_PlaneId)) as [L | _]; [lia |].
  simpl. unfold sizeof_PlaneId.
  rewrite Z.div_mul by lia.
  destruct (maxMaxPlaneId =? mMaxMaxPlaneId c); reflexivity.
Qed.

Lemma planeIdsUploaded_calls planeId maxMaxPlaneId c :
  issuedBetween c (planeIdsUploaded planeId maxMaxPlaneId c)
  = if maxMaxPlaneId =? mMaxMaxPlaneId c then []
    else recomputation (planeIdsUploaded planeId maxMaxPlaneId c).
Proof.
  unfold planeIdsUploaded. simpl.
  destruct (maxMaxPlaneId =? mMaxMaxPlaneId c).
  - apply issuedBetween_app. simpl. now rewrite app_nil_r.
  - apply issuedBetween_app. unfold OnViewModelUpdated.
    now rewrite glCalls_UpdateOrthoMatrices.
Qed.

Lemma planeIdsUploaded_stored planeId maxMaxPlaneId c :
  mMaxMaxPlaneId (planeIdsUploaded planeId maxMaxPlaneId c) = maxMaxPlaneId.
Proof.
  unfold planeIdsUploaded. simpl.
  destruct (Z.eqb_spec maxMaxPlaneId (mMaxMaxPlaneId c)) as [E | _].
  - simpl. now symmetry.
  - reflexivity.
Qed.

Lemma planeIdsUploaded_allocated planeId maxMaxPlaneId c :
  pointBuffersAllocated c ->
  mPointCount c <= size planeId ->
  pointBuffersAllocated (planeIdsUploaded planeId maxMaxPlaneId c).
Proof.
  intros (Hcolor & Hplane & Hbytes) Hlen.
  assert (Hpc : 0 <= mPointCount c) by (rewrite <- Hplane; apply size_nonneg).
  assert (E : size (firstn (Z.to_nat (mPointCount c)) planeId
                    ++ skipn (Z.to_nat (mPointCount c)) (mPointPlaneIdVBO c))
              = mPointCount c).
  { unfold size in *. rewrite length_app, length_firstn, length_skipn. lia. }
  unfold planeIdsUploaded. simpl.
  destruct (maxMaxPlaneId =? mMaxMaxPlaneId c); repeat split; assumption.
Qed.

Lemma scenarioShip_pointBuffersAllocated : pointBuffersAllocated scenarioShip.
Proof.
  repeat split. discriminate.
Qed.

(** The scenario ship after a first upload that stores 5, and after a
    second one that supplies 3. *)
Lemma scenarioShip_two_uploads :
  let c1 := planeIdsUploaded [0; 1; 5; 2] 5 scenarioShip in
  let c2 := planeIdsUploaded [0; 1; 3; 2] 3 c1 in
  UploadPointPlaneIds [0; 1; 5; 2] 5 scenarioShip = Ok c1
  /\ UploadPointPlaneIds [0; 1; 3; 2] 3 c1 = Ok c2
  /\ mMaxMaxPlaneId c1 = 5
  /\ mMaxMaxPlaneId c2 = 3
  /\ issuedBetween c1 c2 = recomputation c2.
Proof.
  intros c1 c2.
  assert (A1 : pointBuffersAllocated c1).
  { apply planeIdsUploaded_allocated;
      [exact scenarioShip_pointBuffersAllocated | discriminate]. }
  assert (S1 : mMaxMaxPlaneId c1 = 5) by apply planeIdsUploaded_stored.
  split; [apply UploadPointPlaneIds_ok, scenarioShip_pointBuffersAllocated |].
  split; [now apply UploadPointPlaneIds_ok |].
  split; [exact S1 |].
  split; [apply planeIdsUploaded_stored |].
  unfold c2. rewrite planeIdsUploaded_calls, S1. reflexivity.
Qed.

(** C1, the claim as worded fails: a call that supplies a smaller value
    than the stored one does trigger a recomputation.  On the scenario ship
    a first call stores 5, and a second call supplying 3 sets the ortho
    matrix of every program once more. *)
Lemma UploadPointPlaneIds_smaller_value_recomputes :
  exists c1 c2,
    UploadPointPlaneIds [0; 1; 5; 2] 5 scenarioShip = Ok c1
    /\ UploadPointPlaneIds [0; 1; 3; 2] 3 c1 = Ok c2
    /\ 3 < mMaxMaxPlaneId c1
    /\ issuedBetween c1 c2 = recomputation c2
    /\ orthoMatrixUpdates ProgramType.ShipRopes (issuedBetween c1 c2) <> 0%nat.
Proof.
  destruct scenarioShip_two_uploads as (U1 & U2 & S1 & S2 & I).
  eexists. eexists.
  split; [exact U1 |].
  split; [exact U2 |].
  split; [rewrite S1; reflexivity |].
  split; [exact I |].
  rewrite I, recomputation_once_per_program. discriminate.
Qed.

(** C1, amended. On a context whose point buffers are allocated, a call of
    [UploadPointPlaneIds] whose [maxMaxPlaneId] differs from the stored
    max-max plane id, be it greater or smaller, triggers exactly one
    recomputation of the six depth-layer matrices (each of the seven ship
    programs has the matrix of its layer set once, computed from the new
    value), and a call supplying the stored value triggers none.  The
    buffers stay allocated, so the same holds of every call of a
    sequence. *)
Theorem UploadPointPlaneIds_recomputes_iff_changed
    (planeId : list PlaneId) (maxMaxPlaneId : PlaneId) (c : ShipRenderContext) :
  pointBuffersAllocated c ->
  exists c',
    UploadPointPlaneIds planeId maxMaxPlaneId c = Ok c'
    /\ (maxMaxPlaneId <> mMaxMaxPlaneId c ->
        issuedBetween c c' = recomputation c'
        /\ mMaxMaxPlaneId c' = maxMaxPlaneId
        /\ forall p, orthoMatrixUpdates p (issuedBetween c c') = 1%nat)
    /\ (maxMaxPlaneId = mMaxMaxPlaneId c ->
        issuedBetween c c' = []
        /\ forall p, orthoMatrixUpdates p (issuedBetween c c') = 0%nat)
    /\ (mPointCount c <= size planeId -> pointBuffersAllocated c').
Proof.
  intro Hwf. exists (planeIdsUploaded planeId maxMaxPlaneId c).
  split; [now apply UploadPointPlaneIds_ok |].
  rewrite planeIdsUploaded_calls.
  destruct (Z.eqb_spec maxMaxPlaneId (mMaxMaxPlaneId c)) as [E | N].
  - split; [intro N; contradiction |].
    split; [| now apply planeIdsUploaded_allocated].
    intros _. split; [reflexivity | intro p; reflexivity].
  - split; [| split; [intro E; contradiction
                     | now apply planeIdsUploaded_allocated]].
    intros _. split; [reflexivity |].
    split; [apply planeIdsUploaded_stored |].
    intro p. apply recomputation_once_per_program.
Qed.

Lemma UploadPointPlaneIds_recomputes_iff_changed_witness :
  exists c',
    UploadPointPlaneIds [0; 1; 5; 2] 5 scenarioShip = Ok c'
    /\ (5 <> mMaxMaxPlaneId scenarioShip ->
        issuedBetween scenarioShip c' = recomputation c'
        /\ mMaxMaxPlaneId c' = 5
        /\ forall p, orthoMatrixUpdates p (issuedBetween scenarioShip c') = 1%nat)
    /\ (5 = mMaxMaxPlaneId scenarioShip ->
        issuedBetween scenarioShip c' = []
        /\ forall p, orthoMatrixUpdates p (issuedBetween scenarioShip c') = 0%nat)
    /\ (mPointCount scenarioShip <= size [0; 1; 5; 2] ->
        pointBuffersAllocated c').
Proof.
  apply (UploadPointPlaneIds_recomputes_iff_changed [0; 1; 5; 2] 5 scenarioShip).
  exact scenarioShip_pointBuffersAllocated.
Defined.

(** C4, the claim as worded fails: the stored max-max plane id can
    decrease.  On the scenario ship a first call stores 5 and a second call,
    supplying 3, leaves 3 stored. *)
Lemma UploadPointPlaneIds_stored_value_decreases :
  exists c1 c2,
    UploadPointPlaneIds [0; 1; 5; 2] 5 scenarioShip = Ok c1
    /\ UploadPointPlaneIds [0; 1; 3; 2] 3 c1 = Ok c2
    /\ mMaxMaxPlaneId c1 = 5
    /\ mMaxMaxPlaneId c2 = 3
    /\ ~ (mMaxMaxPlaneId c1 <= mMaxMaxPlaneId c2).
Proof.
  destruct scenarioShip_two_uploads as (U1 & U2 & S1 & S2 & _).
  eexists. eexists.
  split; [exact U1 |].
  split; [exact U2 |].
  split; [exact S1 |].
  split; [exact S2 |].
  rewrite S1, S2. lia.
Qed.

(** C4, amended. After every call of [UploadPointPlaneIds] on a context
    whose point buffers are allocated, the stored max-max plane id is the
    value the caller supplied; it is therefore greater than or equal to the
    value stored before whenever the caller supplies a value that is not
    smaller than the stored one, as a caller passing the maximum it has
    ever seen does.  The buffers stay allocated, so the same holds of every
    call of a sequence. *)
Theorem UploadPointPlaneIds_stores_supplied_value
    (planeId : list PlaneId) (maxMaxPlaneId : PlaneId) (c : ShipRenderContext) :
  pointBuffersAllocated c ->
  exists c',
    UploadPointPlaneIds planeId maxMaxPlaneId c = Ok c'
    /\ mMaxMaxPlaneId c' = maxMaxPlaneId
    /\ (mMaxMaxPlaneId c <= maxMaxPlaneId ->
        mMaxMaxPlaneId c <= mMaxMaxPlaneId c')
    /\ (mPointCount c <= size planeId -> pointBuffersAllocated c').
Proof.
  intro Hwf. exists (planeIdsUploaded planeId maxMaxPlaneId c).
  split; [now apply UploadPointPlaneIds_ok |].
  rewrite planeIdsUploaded_stored.
  split; [reflexivity |].
  split; [intro H; exact H | now apply planeIdsUploaded_allocated].
Qed.

Lemma UploadPointPlaneIds_stores_supplied_value_witness :
  exists c',
    UploadPointPlaneIds [0; 1; 5; 2] 5 scenarioShip = Ok c'
    /\ mMaxMaxPlaneId c' = 5
    /\ (mMaxMaxPlaneId scenarioShip <= 5 ->
        mMaxMaxPlaneId scenarioShip <= mMaxMaxPlaneId c')
    /\ (mPointCount scenarioShip <= size [0; 1; 5; 2] ->
        pointBuffersAllocated c').
Proof.
  apply (UploadPointPlaneIds_stores_supplied_value [0; 1; 5; 2] 5 scenarioShip).
  exact scenarioShip_pointBuffersAllocated.
Defined.

(** *** Partial upload of point colours *)


(** Reading the replaced buffer back, slot by slot. *)
Lemma colorRangeReplaced_spec color startIndex count store :
  0 <= startIndex -> 0 <= count ->
  startIndex + count <= size store -> count <= size color ->
  size (colorRangeReplaced color startIndex count store) = size store
  /\ (forall (i : nat) d, startIndex <= Z.of_nat i < startIndex + count ->
        nth i (colorRangeReplaced color startIndex count store) d
        = nth (i - Z.to_nat startIndex) color d)
  /\ (forall (i : nat) d,
        Z.of_nat i < startIndex \/ startIndex + count <= Z.of_nat i ->
        nth i (colorRangeReplaced color startIndex count store) d
        = nth i store d).
Proof.
  unfold size, colorRangeReplaced. intros Hs Hc Hfit Hcolor.
  assert (L1 : length (firstn (Z.to_nat startIndex) store) = Z.to_nat startIndex)
    by (rewrite length_firstn; lia).
  assert (L2 : length (firstn (Z.to_nat count) color) = Z.to_nat count)
    by (rewrite length_firstn; lia).
  split; [| split].
  - rewrite !length_app, L1, L2, length_skipn. lia.
  - intros i d Hi.
    rewrite app_nth2 by lia. rewrite L1.
    rewrite app_nth1 by lia.
    rewrite nth_firstn.
    destruct (Nat.ltb_spec (i - Z.to_nat startIndex) (Z.to_nat count)); [reflexivity | lia].
  - intros i d [Hi | Hi].
    + rewrite app_nth1 by lia. rewrite nth_firstn.
      destruct (Nat.ltb_spec i (Z.to_nat startIndex)); [reflexivity | lia].
    + rewrite app_nth2 by lia. rewrite L1.
      rewrite app_nth2 by lia. rewrite L2.
      rewrite nth_skipn. f_equal. lia.
Qed.

Lemma UploadShipPointColorRange_in_range NDEBUG color startIndex count c :
  pointBuffersAllocated c ->
  0 <= startIndex -> 0 <= count ->
  startIndex + count <= mPointCount c ->
  UploadShipPointColorRange NDEBUG color startIndex count c
  = Ok (set_mPointColorVBO
          (colorRangeReplaced color startIndex count (mPointColorVBO c)) c).
Proof.
  intros (Hcolor & _ & Hbytes) Hs Hc Hfit.
  unfold sizeof_vec4f, Int.PTRDIFF_MAX in Hbytes.
  change (2 ^ 63) with 9223372036854775808 in Hbytes.
  unfold UploadShipPointColorRange, assert.
  rewrite size_t_small
    by (change (2 ^ 64) with 18446744073709551616; lia).
  destruct (Z.leb_spec (startIndex + count) (mPointCount c)) as [_ | L]; [| lia].
  rewrite orb_true_r. simpl bind.
  unfold Int.GLintptr. fold (Int.GLsizeiptr (Int.size_t (startIndex * sizeof_vec4f))).
  rewrite !byte_count_small
    by (unfold sizeof_vec4f, Int.PTRDIFF_MAX;
        change (2 ^ 63) with 9223372036854775808; lia).
  unfold glBufferSubData. rewrite Hcolor. unfold sizeof_vec4f.
  destruct (Z.ltb_spec (startIndex * 16) 0) as [L | _]; [lia |].
  destruct (Z.ltb_spec (count * 16) 0) as [L | _]; [lia |].
  destruct (Z.ltb_spec (16 * mPointCount c) (startIndex * 16 + count * 16))
    as [L | _]; [lia |].
  simpl. rewrite !Z.div_mul by lia. reflexivity.
Qed.






(** The two outcomes on the scenario ship (four points). *)
Example UploadShipPointColorRange_scenarioShip_in_range :
  exists c',
    UploadShipPointColorRange false
      [Vec4.mkvec4f 1 0 0 1; Vec4.mkvec4f 0 1 0 1] 1 2 scenarioShip = Ok c'
    /\ mPointColorVBO c'
       = [opaqueBlack; Vec4.mkvec4f 1 0 0 1; Vec4.mkvec4f 0 1 0 1; opaqueBlack].
Proof.
  eexists. split; reflexivity.
Qed.

Example UploadShipPointColorRange_scenarioShip_out_of_range :
  UploadShipPointColorRange false
    [Vec4.mkvec4f 1 0 0 1; Vec4.mkvec4f 0 1 0 1] 3 2 scenarioShip
  = Fail AssertionFailed.
Proof.
  reflexivity.
Qed.

(** A start index so large that [startIndex + count] wraps around to 1:
    the assertion lets the call through and the OpenGL error check stops
    it. *)
Example UploadShipPointColorRange_scenarioShip_wrapped :
  UploadShipPointColorRange false
    [Vec4.mkvec4f 1 0 0 1; Vec4.mkvec4f 0 1 0 1] (2 ^ 64 - 1) 2 scenarioShip
  = Fail OpenGLError.
Proof.
  reflexivity.
Qed.

(** *** The capacity of the generic-texture vertex buffer *)

Ltac keeps_store :=
  intro c;
  repeat match goal with
         | |- context [if ?b then _ else _] => destruct b eqn:?
         end;
  reflexivity.

Lemma withoutLog_drawPointsBlock c :
  withoutLog (drawPointsBlock c) = withoutLog c.
Proof.
  revert c. unfold drawPointsBlock. keeps_store.
Qed.

Lemma withoutLog_drawTrianglesBlock c :
  withoutLog (drawTrianglesBlock c) = withoutLog c.
Proof.
  revert c. unfold drawTrianglesBlock. keeps_store.
Qed.

Lemma withoutLog_drawRopesFirstBlock c :
  withoutLog (drawRopesFirstBlock c) = withoutLog c.
Proof.
  revert c. unfold drawRopesFirstBlock. keeps_store.
Qed.

Lemma withoutLog_drawSpringsBlock c :
  withoutLog (drawSpringsBlock c) = withoutLog c.
Proof.
  revert c. unfold drawSpringsBlock. keeps_store.
Qed.

Lemma withoutLog_drawRopesSecondBlock c :
  withoutLog (drawRopesSecondBlock c) = withoutLog c.
Proof.
  revert c. unfold drawRopesSecondBlock. keeps_store.
Qed.

Lemma withoutLog_drawStressedSpringsBlock c :
  withoutLog (drawStressedSpringsBlock c) = withoutLog c.
Proof.
  revert c. unfold drawStressedSpringsBlock, RenderStressedSpringElements.
  keeps_store.
Qed.

Lemma withoutLog_RenderEphemeralPoints c :
  withoutLog (RenderEphemeralPoints c) = withoutLog c.
Proof.
  revert c. unfold RenderEphemeralPoints. keeps_store.
Qed.

Lemma withoutLog_drawVectorsBlock c :
  withoutLog (drawVectorsBlock c) = withoutLog c.
Proof.
  revert c. unfold drawVectorsBlock. keeps_store.
Qed.

(** The blocks of [RenderEnd] that precede the generic textures leave the
    generic-texture members alone. *)
Lemma withoutLog_before_generic_textures c :
  withoutLog
    (RenderEphemeralPoints
       (drawStressedSpringsBlock
          (drawRopesSecondBlock
             (drawSpringsBlock
                (drawRopesFirstBlock
                   (drawTrianglesBlock (drawPointsBlock c)))))))
  = withoutLog c.
Proof.
  rewrite withoutLog_RenderEphemeralPoints, withoutLog_drawStressedSpringsBlock,
    withoutLog_drawRopesSecondBlock, withoutLog_drawSpringsBlock,
    withoutLog_drawRopesFirstBlock, withoutLog_drawTrianglesBlock.
  apply withoutLog_drawPointsBlock.
Qed.

Lemma RenderGenericTextures_store component c :
  mGenericTextureMaxVertexBufferSize (RenderGenericTextures component c)
  = mGenericTextureMaxVertexBufferSize c
  /\ mGenericTextureAllocatedVertexBufferSize (RenderGenericTextures component c)
     = if hasVertices component then mGenericTextureMaxVertexBufferSize c
       else mGenericTextureAllocatedVertexBufferSize c.
Proof.
  unfold RenderGenericTextures, hasVertices.
  destruct (negb (empty (VertexBuffer component))); [| split; reflexivity].
  destruct (Z.eqb_spec (mGenericTextureAllocatedVertexBufferSize c)
              (mGenericTextureMaxVertexBufferSize c)) as [E | N]; simpl.
  - split; [reflexivity | exact E].
  - split; reflexivity.
Qed.

Lemma fold_RenderGenericTextures_store components : forall c,
  let c' :=
    fold_left (fun c component => RenderGenericTextures component c) components c in
  mGenericTextureMaxVertexBufferSize c' = mGenericTextureMaxVertexBufferSize c
  /\ mGenericTextureAllocatedVertexBufferSize c'
     = if existsb hasVertices components
       then mGenericTextureMaxVertexBufferSize c
       else mGenericTextureAllocatedVertexBufferSize c.
Proof.
  induction components as [| component rest IH]; intro c; simpl.
  - split; reflexivity.
  - destruct (IH (RenderGenericTextures component c)) as [Hmax Halloc].
    destruct (RenderGenericTextures_store component c) as [Hmax1 Halloc1].
    split; [now rewrite Hmax |].
    rewrite Halloc, Hmax1, Halloc1.
    destruct (hasVertices component); simpl.
    + destruct (existsb hasVertices rest); reflexivity.
    + reflexivity.
Qed.

(** What [RenderEnd] does to the allocated size: it becomes the peak size
    as soon as one component has vertices, and is left alone otherwise. *)
Lemma RenderEnd_allocated c :
  mGenericTextureAllocatedVertexBufferSize (RenderEnd c)
  = if existsb hasVertices (mGenericTextureConnectedComponents c)
    then mGenericTextureMaxVertexBufferSize c
    else mGenericTextureAllocatedVertexBufferSize c.
Proof.
  rewrite RenderEnd_blocks.
  set (c1 := RenderEphemeralPoints _).
  assert (E : withoutLog c1 = withoutLog c)
    by apply withoutLog_before_generic_textures.
  change (mGenericTextureAllocatedVertexBufferSize
            (withoutLog (drawVectorsBlock (drawGenericTexturesBlock c1)))
          = if existsb hasVertices
                 (mGenericTextureConnectedComponents (withoutLog c))
            then mGenericTextureMaxVertexBufferSize (withoutLog c)
            else mGenericTextureAllocatedVertexBufferSize (withoutLog c)).
  rewrite withoutLog_drawVectorsBlock, <- E.
  destruct (fold_RenderGenericTextures_store
              (mGenericTextureConnectedComponents c1) c1) as [_ H].
  exact H.
Qed.

Lemma largestVertexBuffer_nonneg components :
  0 <= largestVertexBuffer components.
Proof.
  induction components as [| component rest IH]; simpl; [reflexivity |].
  unfold largestVertexBuffer in *. simpl. lia.
Qed.

Lemma largestVertexBuffer_repeat_empty n :
  largestVertexBuffer (repeat (mkGenericTextureConnectedComponentData []) n) = 0.
Proof.
  induction n as [| n IH]; [reflexivity |].
  unfold largestVertexBuffer in *. simpl. now rewrite IH.
Qed.

Lemma existsb_hasVertices components :
  existsb hasVertices components = (0 <? largestVertexBuffer components).
Proof.
  induction components as [| component rest IH]; [reflexivity |].
  pose proof (largestVertexBuffer_nonneg rest) as Hrest.
  unfold largestVertexBuffer in *. cbn [map fold_right existsb]. rewrite IH.
  unfold hasVertices.
  destruct (VertexBuffer component) as [| v vs]; cbn [empty negb orb].
  - change (size []) with 0. now rewrite Z.max_r by lia.
  - assert (0 < size (v :: vs)) by (unfold size; simpl length; lia).
    symmetry. apply Z.ltb_lt. lia.
Qed.

Lemma largestVertexBuffer_setVertexBuffer vertexBuffer : forall components index,
  (index < length components)%nat ->
  size (VertexBuffer (nth index components
                        (mkGenericTextureConnectedComponentData [])))
  <= size vertexBuffer ->
  largestVertexBuffer (setVertexBuffer index vertexBuffer components)
  = Z.max (largestVertexBuffer components) (size vertexBuffer).
Proof.
  induction components as [| component rest IH]; intros index Hin Hgrow.
  - simpl in Hin. lia.
  - destruct index as [| index].
    + simpl in Hgrow. unfold largestVertexBuffer. simpl. lia.
    + simpl in Hin, Hgrow.
      specialize (IH index ltac:(lia) Hgrow).
      unfold largestVertexBuffer in *. simpl. rewrite IH. lia.
Qed.

Lemma RenderStart_peakTracked c : peakTracked (RenderStart c).
Proof.
  unfold peakTracked, RenderStart, resize. simpl.
  rewrite firstn_nil. simpl.
  now rewrite largestVertexBuffer_repeat_empty.
Qed.

Lemma UploadGenericTextureVertices_peakTracked index vertices c :
  peakTracked c -> peakTracked (UploadGenericTextureVertices index vertices c).
Proof.
  unfold peakTracked, UploadGenericTextureVertices. intro H.
  destruct (Z.leb_spec 0 index) as [H0 | _]; [| exact H].
  destruct (Z.ltb_spec index (size (mGenericTextureConnectedComponents c)))
    as [H1 | _]; [| exact H].
  simpl. rewrite largestVertexBuffer_setVertexBuffer.
  - now rewrite H.
  - unfold size in H1. lia.
  - unfold size. rewrite length_app. lia.
Qed.

Lemma UploadGenericTextureVertices_allocated index vertices c :
  mGenericTextureAllocatedVertexBufferSize
    (UploadGenericTextureVertices index vertices c)
  = mGenericTextureAllocatedVertexBufferSize c.
Proof.
  unfold UploadGenericTextureVertices.
  destruct ((0 <=? index)
            && (index <? size (mGenericTextureConnectedComponents c)));
    reflexivity.
Qed.

Lemma uploadGenericTextures_spec uploads : forall c,
  peakTracked c ->
  peakTracked (uploadGenericTextures uploads c)
  /\ mGenericTextureAllocatedVertexBufferSize (uploadGenericTextures uploads c)
     = mGenericTextureAllocatedVertexBufferSize c.
Proof.
  unfold uploadGenericTextures.
  induction uploads as [| upload rest IH]; intros c H; simpl.
  - split; [exact H | reflexivity].
  - destruct (IH (UploadGenericTextureVertices (fst upload) (snd upload) c))
      as [Hp Ha].
    + now apply UploadGenericTextureVertices_peakTracked.
    + split; [exact Hp |].
      rewrite Ha. apply UploadGenericTextureVertices_allocated.
Qed.

(** After a frame the allocated size is the peak of that frame, unless the
    frame uploaded no vertex at all, in which case it is what it was. *)
Lemma renderFrame_allocated uploads c :
  mGenericTextureAllocatedVertexBufferSize (renderFrame uploads c)
  = if framePeak uploads c =? 0
    then mGenericTextureAllocatedVertexBufferSize c
    else framePeak uploads c.
Proof.
  unfold renderFrame, framePeak.
  destruct (uploadGenericTextures_spec uploads (RenderStart c)
              (RenderStart_peakTracked c)) as [Hp Ha].
  rewrite RenderEnd_allocated, existsb_hasVertices, <- Hp, Ha.
  set (peak := mGenericTextureMaxVertexBufferSize _).
  assert (0 <= peak)
    by (unfold peak; rewrite Hp; apply largestVertexBuffer_nonneg).
  destruct (Z.ltb_spec 0 peak), (Z.eqb_spec peak 0); try lia; reflexivity.
Qed.

(** C5, the claim as worded fails: the capacity shrinks.  On the scenario
    ship a frame that uploads two quads to one component grows the
    allocated size to 12 vertices, and the next frame, which uploads one
    quad, leaves it at 6. *)
Lemma generic_texture_capacity_shrinks :
  let afterPeak := renderFrame [(0, quad ++ quad)] scenarioShip in
  let later := renderFrame [(0, quad)] afterPeak in
  mGenericTextureAllocatedVertexBufferSize afterPeak = 12
  /\ mGenericTextureAllocatedVertexBufferSize later = 6
  /\ mGenericTextureAllocatedVertexBufferSize later
     < mGenericTextureAllocatedVertexBufferSize afterPeak.
Proof.
  intros afterPeak later.
  assert (A : mGenericTextureAllocatedVertexBufferSize afterPeak = 12).
  { unfold afterPeak. rewrite renderFrame_allocated. reflexivity. }
  assert (L : mGenericTextureAllocatedVertexBufferSize later = 6).
  { unfold later. rewrite renderFrame_allocated. reflexivity. }
  rewrite A, L. repeat split.
Qed.

(** C5, amended. After every frame the allocated capacity of the
    generic-texture vertex buffer equals the peak vertex-buffer size of
    that frame, unless the frame uploaded no vertex, in which case the
    capacity is unchanged.  Hence a capacity that has reached S stays at or
    above S through every run of later frames each of whose peaks is 0 or
    at least S; a later frame with a smaller non-zero peak shrinks it. *)
Theorem generic_texture_capacity_follows_frame_peak
    (S : Z) (frames : list (list GenericTextureUpload)) (c : ShipRenderContext) :
  S <= mGenericTextureAllocatedVertexBufferSize c ->
  Forall (fun peak => peak = 0 \/ S <= peak) (sessionPeaks frames c) ->
  S <= mGenericTextureAllocatedVertexBufferSize (renderSession frames c)
  /\ forall uploads,
       mGenericTextureAllocatedVertexBufferSize (renderFrame uploads c)
       = if framePeak uploads c =? 0
         then mGenericTextureAllocatedVertexBufferSize c
         else framePeak uploads c.
Proof.
  intros HS Hpeaks. split; [| intro uploads; apply renderFrame_allocated].
  revert c HS Hpeaks. unfold renderSession.
  induction frames as [| uploads later IH]; intros c HS Hpeaks; simpl.
  - exact HS.
  - simpl in Hpeaks. inversion Hpeaks as [| peak peaks Hpeak Hlater]; subst.
    apply IH; [| exact Hlater].
    rewrite renderFrame_allocated.
    destruct (Z.eqb_spec (framePeak uploads c) 0); lia.
Qed.

Lemma generic_texture_capacity_follows_frame_peak_witness :
  6 <= mGenericTextureAllocatedVertexBufferSize
         (renderSession [[(0, quad ++ quad)]; []]
            (renderFrame [(0, quad)] scenarioShip))
  /\ forall uploads,
       mGenericTextureAllocatedVertexBufferSize
         (renderFrame uploads (renderFrame [(0, quad)] scenarioShip))
       = if framePeak uploads (renderFrame [(0, quad)] scenarioShip) =? 0
         then mGenericTextureAllocatedVertexBufferSize
                (renderFrame [(0, quad)] scenarioShip)
         else framePeak uploads (renderFrame [(0, quad)] scenarioShip).
Proof.
  apply (generic_texture_capacity_follows_frame_peak 6
           [[(0, quad ++ quad)]; []] (renderFrame [(0, quad)] scenarioShip)).
  - replace (mGenericTextureAllocatedVertexBufferSize
               (renderFrame [(0, quad)] scenarioShip)) with 6; [lia |].
    rewrite renderFrame_allocated. reflexivity.
  - apply Forall_cons.
    + right.
      replace (framePeak [(0, quad ++ quad)]
                 (renderFrame [(0, quad)] scenarioShip)) with 12; [lia |].
      reflexivity.
    + apply Forall_cons; [left; reflexivity | apply Forall_nil].
Defined.

(** *** Depth layers *)

Lemma int_small z : 0 <= z < 2 ^ 31 -> Int.int z = z.
Proof.
  unfold Int.int, Int.signed, Int.wrap.
  change (2 ^ (32 - 1)) with 2147483648.
  change (2 ^ 31) with 2147483648.
  change (2 ^ 32) with 4294967296.
  intro H. rewrite Z.mod_small by lia.
  destruct (Z.ltb_spec z 2147483648); lia.
Qed.

Lemma shipInScene_ints c :
  shipInScene c ->
  Int.int (mShipId c) = mShipId c
  /\ Int.int (mShipCount c) = mShipCount c
  /\ Int.int (mMaxMaxPlaneId c) = mMaxMaxPlaneId c.
Proof.
  intros (Hid & Hcount & Hmax).
  repeat split; apply int_small; lia.
Qed.

Lemma slotCount_pos c : shipInScene c -> 0 < slotCount c.
Proof.
  intro H. destruct (shipInScene_ints c H) as (_ & E2 & E3).
  destruct H as (Hid & Hcount & Hmax).
  unfold slotCount, NLayers. rewrite E2, E3. nia.
Qed.

Lemma slotIndex_range c iLayer planeId :
  shipInScene c ->
  0 <= iLayer < NLayers -> 0 <= planeId <= mMaxMaxPlaneId c ->
  0 <= slotIndex c iLayer planeId < slotCount c.
Proof.
  intros H Hl Hp. destruct (shipInScene_ints c H) as (E1 & E2 & E3).
  destruct H as (Hid & Hcount & Hmax).
  unfold slotIndex, slotCount, NLayers in *. rewrite E1, E2, E3. nia.
Qed.

(** The depth of a layer and plane is the start of its slot. *)
Lemma depthOf_shipOrthoMatrix c iLayer planeId :
  depthOf (shipOrthoMatrix c iLayer) planeId
  = (ShipRegionZStart
     + ShipRegionZWidth / IZR (slotCount c) * IZR (slotIndex c iLayer planeId))%R.
Proof.
  unfold depthOf, shipOrthoMatrix, CalculateShipOrthoMatrix, slotCount, slotIndex.
  simpl zOffset. simpl zPerPlane.
  repeat (rewrite plus_IZR || rewrite mult_IZR).
  unfold Rdiv. ring.
Qed.

(** Slots further from the far end lie at strictly smaller depths. *)
Lemma depth_decreases_with_slotIndex c l p l' p' :
  0 < slotCount c ->
  slotIndex c l p < slotIndex c l' p' ->
  (depthOf (shipOrthoMatrix c l') p' < depthOf (shipOrthoMatrix c l) p)%R.
Proof.
  intros HT Hlt. rewrite !depthOf_shipOrthoMatrix.
  apply Rplus_lt_compat_l.
  assert (Hneg : (ShipRegionZWidth / IZR (slotCount c) < 0)%R).
  { unfold ShipRegionZWidth, Rdiv.
    assert (0 < / IZR (slotCount c))%R
      by (apply Rinv_0_lt_compat; now apply (IZR_lt 0)).
    nra. }
  apply Rmult_lt_gt_compat_neg_l; [exact Hneg | now apply IZR_lt].
Qed.

Lemma depth_within_range c l p :
  0 < slotCount c -> 0 <= slotIndex c l p < slotCount c ->
  (nearDepth < depthOf (shipOrthoMatrix c l) p <= farDepth)%R.
Proof.
  intros HT [H0 H1]. rewrite depthOf_shipOrthoMatrix.
  unfold nearDepth, farDepth, ShipRegionZStart, ShipRegionZWidth.
  assert (HTr : (0 < IZR (slotCount c))%R) by now apply (IZR_lt 0).
  assert (H0r : (0 <= IZR (slotIndex c l p))%R) by now apply (IZR_le 0).
  assert (H1r : (IZR (slotIndex c l p) < IZR (slotCount c))%R) by now apply IZR_lt.
  assert (Hq : (0 <= IZR (slotIndex c l p) / IZR (slotCount c) < 1)%R).
  { split.
    - apply Rmult_le_pos; [exact H0r |]. left. now apply Rinv_0_lt_compat.
    - apply (Rmult_lt_reg_r (IZR (slotCount c))); [exact HTr |].
      unfold Rdiv. rewrite Rmult_assoc, Rinv_l by lra. lra. }
  replace (-2 / IZR (slotCount c) * IZR (slotIndex c l p))%R
    with (-2 * (IZR (slotIndex c l p) / IZR (slotCount c)))%R
    by (unfold Rdiv; ring).
  lra.
Qed.

(** The matrix tells the layer and the number of planes it was computed
    for. *)
Lemma CalculateShipOrthoMatrix_injective iShip nShips maxPlane maxPlane' l l' :
  0 < nShips -> 0 <= maxPlane -> 0 <= maxPlane' ->
  CalculateShipOrthoMatrix ShipRegionZStart ShipRegionZWidth iShip nShips
    maxPlane l NLayers
  = CalculateShipOrthoMatrix ShipRegionZStart ShipRegionZWidth iShip nShips
      maxPlane' l' NLayers ->
  maxPlane = maxPlane' /\ l = l'.
Proof.
  intros HN HM HM' E.
  unfold CalculateShipOrthoMatrix, ShipRegionZStart, ShipRegionZWidth, NLayers in E.
  injection E as Eoffset Escale.
  assert (HT : 0 < nShips * (maxPlane + 1) * 6) by nia.
  assert (HT' : 0 < nShips * (maxPlane' + 1) * 6) by nia.
  assert (HTr : (0 < IZR (nShips * (maxPlane + 1) * 6))%R) by now apply (IZR_lt 0).
  assert (HTr' : (0 < IZR (nShips * (maxPlane' + 1) * 6))%R) by now apply (IZR_lt 0).
  assert (Emax : maxPlane = maxPlane').
  { assert (Einv : (/ IZR (nShips * (maxPlane + 1) * 6)
                    = / IZR (nShips * (maxPlane' + 1) * 6))%R)
      by (unfold Rdiv in Escale; lra).
    assert (Ecount : IZR (nShips * (maxPlane + 1) * 6)
                     = IZR (nShips * (maxPlane' + 1) * 6)).
    { rewrite <- (Rinv_inv (IZR (nShips * (maxPlane + 1) * 6))).
      rewrite Einv. apply Rinv_inv. }
    apply eq_IZR in Ecount. nia. }
  split; [exact Emax |]. subst maxPlane'.
  assert (Hinv : (0 < / IZR (nShips * (maxPlane + 1) * 6))%R)
    by now apply Rinv_0_lt_compat.
  assert (Eidx : IZR (iShip * (maxPlane + 1) * 6 + l)
                 = IZR (iShip * (maxPlane + 1) * 6 + l')).
  { unfold Rdiv in Eoffset. nra. }
  apply eq_IZR in Eidx. lia.
Qed.

Lemma slotIndex_lexicographic c l p l' p' :
  0 <= l < NLayers -> 0 <= l' < NLayers ->
  p < p' \/ (p = p' /\ l < l') ->
  slotIndex c l p < slotIndex c l' p'.
Proof.
  unfold slotIndex, NLayers. intros Hl Hl' [Hp | [Hp Hll]]; subst; lia.
Qed.

Lemma issued_UpdateOrthoMatrices c :
  issued UpdateOrthoMatrices c = recomputation c.
Proof.
  unfold issued. apply issuedBetween_app, glCalls_UpdateOrthoMatrices.
Qed.

(** C9. [UpdateOrthoMatrices] gives the programs the matrices of layers 0 to
    5 in the order ropes, triangles (colour and texture, which the springs
    use too), stressed springs, points, generic textures, vectors, and every
    draw of [RenderEnd] runs under a program of its layer.  With the
    ortho-matrix computation of the view model taken from the
    specification (equal depth slots, six per plane), distinct (layer,
    plane) pairs of a ship get distinct depths, distinct layers get
    distinct matrices, and so do distinct numbers of planes; the depth
    strictly decreases from the far end towards
    the near end along the planes and, inside a plane, along the layers, so
    that in every plane the ropes lie nearest to "far" and the vectors
    nearest to "near". *)
Theorem depth_layers_distinct_and_ordered (c : ShipRenderContext) :
  shipInScene c ->
  issued UpdateOrthoMatrices c = recomputation c
  /\ map layerOf allPrograms = [0; 1; 1; 2; 3; 4; 5]
  /\ forallb paintsInOwnLayer (issued RenderEnd c) = true
  /\ (forall l l' p p',
        0 <= l < NLayers -> 0 <= l' < NLayers ->
        0 <= p <= mMaxMaxPlaneId c -> 0 <= p' <= mMaxMaxPlaneId c ->
        ((l, p) <> (l', p') ->
         depthOf (shipOrthoMatrix c l) p <> depthOf (shipOrthoMatrix c l') p')
        /\ (l <> l' -> shipOrthoMatrix c l <> shipOrthoMatrix c l')
        /\ (p < p' \/ (p = p' /\ l < l') ->
            (depthOf (shipOrthoMatrix c l') p' < depthOf (shipOrthoMatrix c l) p)%R))
  /\ (forall l l' maxPlane maxPlane',
        0 <= maxPlane -> 0 <= maxPlane' -> (l, maxPlane) <> (l', maxPlane') ->
        CalculateShipOrthoMatrix ShipRegionZStart ShipRegionZWidth
          (Int.int (mShipId c)) (Int.int (mShipCount c)) maxPlane l NLayers
        <> CalculateShipOrthoMatrix ShipRegionZStart ShipRegionZWidth
             (Int.int (mShipId c)) (Int.int (mShipCount c)) maxPlane' l' NLayers)
  /\ (forall p,
        0 <= p <= mMaxMaxPlaneId c ->
        (nearDepth < depthOf (shipOrthoMatrix c (layerOf ProgramType.ShipVectors)) p
         /\ depthOf (shipOrthoMatrix c (layerOf ProgramType.ShipVectors)) p
            < depthOf (shipOrthoMatrix c (layerOf ProgramType.ShipRopes)) p
         /\ depthOf (shipOrthoMatrix c (layerOf ProgramType.ShipRopes)) p
            <= farDepth)%R).
Proof.
  intro Hscene.
  pose proof (slotCount_pos c Hscene) as HT.
  assert (Hordered : forall l l' p p',
             0 <= l < NLayers -> 0 <= l' < NLayers ->
             p < p' \/ (p = p' /\ l < l') ->
             (depthOf (shipOrthoMatrix c l') p'
              < depthOf (shipOrthoMatrix c l) p)%R).
  { intros l l' p p' Hl Hl' Hlex.
    apply depth_decreases_with_slotIndex; [exact HT |].
    now apply slotIndex_lexicographic. }
  assert (Hdistinct : forall l l' p p',
             0 <= l < NLayers -> 0 <= l' < NLayers ->
             (l, p) <> (l', p') ->
             depthOf (shipOrthoMatrix c l) p <> depthOf (shipOrthoMatrix c l') p').
  { intros l l' p p' Hl Hl' Hne.
    assert (Hlex : (p < p' \/ (p = p' /\ l < l'))
                   \/ (p' < p \/ (p' = p /\ l' < l))).
    { destruct (Z.lt_total p p') as [L | [E | G]]; [lia | | lia].
      destruct (Z.lt_total l l') as [L | [E' | G]]; [lia | | lia].
      subst. now contradiction Hne. }
    destruct Hlex as [Hlex | Hlex].
    - pose proof (Hordered l l' p p' Hl Hl' Hlex). lra.
    - pose proof (Hordered l' l p' p Hl' Hl Hlex). lra. }
  split; [apply issued_UpdateOrthoMatrices |].
  split; [reflexivity |].
  split; [apply RenderEnd_paints_in_own_layers |].
  split.
  - intros l l' p p' Hl Hl' Hp Hp'.
    split; [now apply Hdistinct |].
    split; [| now apply Hordered].
    intros Hne Heq.
    apply (Hdistinct l l' 0 0 Hl Hl').
    + intro E. inversion E. contradiction.
    + now rewrite Heq.
  - split.
    { intros l l' maxPlane maxPlane' HM HM' Hne E.
      destruct (shipInScene_ints c Hscene) as (_ & E2 & _).
      destruct Hscene as (Hid & Hcount & Hmax).
      apply CalculateShipOrthoMatrix_injective in E; try lia.
      destruct E as [-> ->]. now contradiction Hne. }
    intros p Hp. simpl layerOf.
    assert (H5 : 0 <= 5 < NLayers) by (unfold NLayers; lia).
    assert (H0 : 0 <= 0 < NLayers) by (unfold NLayers; lia).
    pose proof (depth_within_range c 5 p HT (slotIndex_range c 5 p Hscene H5 Hp)).
    pose proof (depth_within_range c 0 p HT (slotIndex_range c 0 p Hscene H0 Hp)).
    pose proof (Hordered 0 5 p p H0 H5 ltac:(right; lia)).
    lra.
Qed.

Lemma scenarioShip_inScene : shipInScene scenarioShip.
Proof.
  repeat split; simpl; lia.
Qed.

Lemma depth_layers_distinct_and_ordered_witness :
  issued UpdateOrthoMatrices scenarioShip = recomputation scenarioShip
  /\ map layerOf allPrograms = [0; 1; 1; 2; 3; 4; 5]
  /\ forallb paintsInOwnLayer (issued RenderEnd scenarioShip) = true
  /\ (forall l l' p p',
        0 <= l < NLayers -> 0 <= l' < NLayers ->
        0 <= p <= mMaxMaxPlaneId scenarioShip ->
        0 <= p' <= mMaxMaxPlaneId scenarioShip ->
        ((l, p) <> (l', p') ->
         depthOf (shipOrthoMatrix scenarioShip l) p
         <> depthOf (shipOrthoMatrix scenarioShip l') p')
        /\ (l <> l' ->
            shipOrthoMatrix scenarioShip l <> shipOrthoMatrix scenarioShip l')
        /\ (p < p' \/ (p = p' /\ l < l') ->
            (depthOf (shipOrthoMatrix scenarioShip l') p'
             < depthOf (shipOrthoMatrix scenarioShip l) p)%R))
  /\ (forall l l' maxPlane maxPlane',
        0 <= maxPlane -> 0 <= maxPlane' -> (l, maxPlane) <> (l', maxPlane') ->
        CalculateShipOrthoMatrix ShipRegionZStart ShipRegionZWidth
          (Int.int (mShipId scenarioShip)) (Int.int (mShipCount scenarioShip))
          maxPlane l NLayers
        <> CalculateShipOrthoMatrix ShipRegionZStart ShipRegionZWidth
             (Int.int (mShipId scenarioShip)) (Int.int (mShipCount scenarioShip))
             maxPlane' l' NLayers)
  /\ (forall p,
        0 <= p <= mMaxMaxPlaneId scenarioShip ->
        (nearDepth
         < depthOf (shipOrthoMatrix scenarioShip
                      (layerOf ProgramType.ShipVectors)) p
         /\ depthOf (shipOrthoMatrix scenarioShip
                       (layerOf ProgramType.ShipVectors)) p
            < depthOf (shipOrthoMatrix scenarioShip
                         (layerOf ProgramType.ShipRopes)) p
         /\ depthOf (shipOrthoMatrix scenarioShip
                       (layerOf ProgramType.ShipRopes)) p
            <= farDepth)%R).
Proof.
  apply (depth_layers_distinct_and_ordered scenarioShip).
  exact scenarioShip_inScene.
Defined.

(** The depths of the six layers of the scenario ship (one ship, one
    plane): from 1 (far) down in steps of a third. *)
Example scenarioShip_layer_depths :
  map (fun l => depthOf (shipOrthoMatrix scenarioShip l) 0) [0; 1; 2; 3; 4; 5]
  = [1; 2 / 3; 1 / 3; 0; - (1 / 3); - (2 / 3)]%R.
Proof.
  simpl map. rewrite !depthOf_shipOrthoMatrix.
  unfold slotCount, slotIndex, scenarioShip, NLayers, ShipRegionZStart,
    ShipRegionZWidth. simpl.
  repeat (f_equal; try lra).
Qed.

(** *** The vector overlay *)

Lemma pushArrow_arrowPoints position vector lengthAdjustment buffer i :
  pushArrow position vector lengthAdjustment buffer i
  = buffer
    ++ arrowPoints (nth i position vec2.zero) (nth i vector vec2.zero)
         lengthAdjustment.
Proof.
  unfold pushArrow, push_back, arrowPoints, stemEndpoint.
  repeat rewrite <- app_assoc. reflexivity.
Qed.

Lemma fold_pushArrow position vector lengthAdjustment indices : forall buffer,
  fold_left (pushArrow position vector lengthAdjustment) indices buffer
  = buffer
    ++ flat_map
         (fun i => arrowPoints (nth i position vec2.zero) (nth i vector vec2.zero)
                     lengthAdjustment)
         indices.
Proof.
  induction indices as [| i rest IH]; intro buffer; simpl.
  - now rewrite app_nil_r.
  - rewrite IH, pushArrow_arrowPoints, <- app_assoc. reflexivity.
Qed.

Lemma vectorArrowBuffer_flat_map count position vector lengthAdjustment color c :
  vectorArrowBuffer count position vector lengthAdjustment color c
  = flat_map
      (fun i => arrowPoints (nth i position vec2.zero) (nth i vector vec2.zero)
                  lengthAdjustment)
      (seq 0 (Z.to_nat count)).
Proof.
  unfold vectorArrowBuffer, UploadVectors. simpl.
  now rewrite fold_pushArrow.
Qed.

(** A buffer made of chunks of six points: its length, and where the
    points of chunk [i] are. *)
Lemma length_flat_map_six {A : Type} (f : nat -> list A) :
  (forall i, length (f i) = 6%nat) ->
  forall n a, length (flat_map f (seq a n)) = (6 * n)%nat.
Proof.
  intros Hf n. induction n as [| n IH]; intro a; simpl; [reflexivity |].
  rewrite length_app, Hf, IH. lia.
Qed.

Lemma nth_flat_map_six {A : Type} (f : nat -> list A) (d : A) :
  (forall i, length (f i) = 6%nat) ->
  forall n a i k, (i < n)%nat -> (k < 6)%nat ->
    nth (6 * i + k) (flat_map f (seq a n)) d = nth k (f (a + i)%nat) d.
Proof.
  intros Hf n. induction n as [| n IH]; intros a i k Hi Hk; [lia |].
  simpl flat_map. destruct i as [| i].
  - rewrite app_nth1 by (rewrite Hf; lia).
    now rewrite Nat.add_0_r.
  - rewrite app_nth2 by (rewrite Hf; lia).
    rewrite Hf.
    replace (6 * S i + k - 6)%nat with (6 * i + k)%nat by lia.
    rewrite IH by lia. f_equal. f_equal. lia.
Qed.

Lemma squareLength_pos v : v <> vec2.zero -> (0 < vec2.squareLength v)%R.
Proof.
  destruct v as [vx vy]. unfold vec2.zero, vec2.squareLength. simpl. intro Hne.
  destruct (Req_dec vx 0) as [Hx | Hx].
  - destruct (Req_dec vy 0) as [Hy | Hy].
    + subst. now contradiction Hne.
    + nra.
  - nra.
Qed.

Lemma sin2_cos2_alpha :
  (SinAlphaLeft * SinAlphaLeft + CosAlphaLeftRight * CosAlphaLeftRight = 1)%R.
Proof.
  unfold SinAlphaLeft, CosAlphaLeftRight.
  exact (sin2_cos2 (-2 * PI / 8)).
Qed.

(** The two fixed rotations keep the length of the vector. *)
Lemma squareLength_rotated_left v :
  vec2.squareLength
    (mkvec2f (- vec2.dot v XMatrixLeft) (- vec2.dot v YMatrixLeft))
  = vec2.squareLength v.
Proof.
  unfold vec2.squareLength, vec2.dot, XMatrixLeft, YMatrixLeft. simpl.
  replace (x v * x v + y v * y v)%R
    with ((x v * x v + y v * y v)
          * (SinAlphaLeft * SinAlphaLeft + CosAlphaLeftRight * CosAlphaLeftRight))%R
    by (rewrite sin2_cos2_alpha; ring).
  ring.
Qed.

Lemma squareLength_rotated_right v :
  vec2.squareLength
    (mkvec2f (- vec2.dot v XMatrixRight) (- vec2.dot v YMatrixRight))
  = vec2.squareLength v.
Proof.
  unfold vec2.squareLength, vec2.dot, XMatrixRight, YMatrixRight, SinAlphaRight.
  simpl.
  replace (x v * x v + y v * y v)%R
    with ((x v * x v + y v * y v)
          * (SinAlphaLeft * SinAlphaLeft + CosAlphaLeftRight * CosAlphaLeftRight))%R
    by (rewrite sin2_cos2_alpha; ring).
  ring.
Qed.

Lemma length_normalise d :
  (0 < vec2.squareLength d)%R -> vec2.length (vec2.normalise d) = 1%R.
Proof.
  intro Hpos. unfold vec2.normalise, vec2.length at 1, vec2.div.
  assert (HL : (0 < vec2.length d)%R) by (apply sqrt_lt_R0; exact Hpos).
  assert (HLL : (vec2.length d * vec2.length d = vec2.squareLength d)%R)
    by (apply sqrt_sqrt; lra).
  replace (vec2.squareLength
             (mkvec2f (x d / vec2.length d) (y d / vec2.length d)))
    with 1%R; [apply sqrt_1 |].
  unfold vec2.squareLength at 1. simpl.
  replace (x d / vec2.length d * (x d / vec2.length d)
           + y d / vec2.length d * (y d / vec2.length d))%R
    with ((x d * x d + y d * y d) / (vec2.length d * vec2.length d))%R
    by (field; lra).
  rewrite HLL. unfold vec2.squareLength. field.
  unfold vec2.squareLength in Hpos. lra.
Qed.

Lemma normalise_zero : vec2.normalise vec2.zero = vec2.zero.
Proof.
  unfold vec2.normalise, vec2.div, vec2.zero, Rdiv. simpl.
  now rewrite Rmult_0_l.
Qed.

(** A stroke that leaves a point along [k] times a direction has length [k]
    times the length of the direction. *)
Lemma distance_add_scale s n k :
  (0 <= k)%R ->
  vec2.distance s (vec2.add s (vec2.scale n k)) = (k * vec2.length n)%R.
Proof.
  intro Hk. unfold vec2.distance, vec2.length.
  replace (vec2.squareLength (vec2.sub (vec2.add s (vec2.scale n k)) s))
    with (k * k * vec2.squareLength n)%R.
  - rewrite sqrt_mult.
    + now rewrite sqrt_square.
    + nra.
    + unfold vec2.squareLength. nra.
  - unfold vec2.squareLength, vec2.sub, vec2.add, vec2.scale. simpl. ring.
Qed.

Lemma distance_self s : vec2.distance s s = 0%R.
Proof.
  unfold vec2.distance, vec2.length, vec2.squareLength, vec2.sub. simpl.
  replace ((x s - x s) * (x s - x s) + (y s - y s) * (y s - y s))%R with 0%R
    by ring.
  apply sqrt_0.
Qed.

Lemma add_scale_zero s k : vec2.add s (vec2.scale vec2.zero k) = s.
Proof.
  destruct s as [sx sy]. unfold vec2.add, vec2.scale, vec2.zero. simpl.
  f_equal; ring.
Qed.

Lemma length_leftDir v : v <> vec2.zero -> vec2.length (leftDir v) = 1%R.
Proof.
  intro Hne. unfold leftDir. apply length_normalise.
  rewrite squareLength_rotated_left. now apply squareLength_pos.
Qed.

Lemma length_rightDir v : v <> vec2.zero -> vec2.length (rightDir v) = 1%R.
Proof.
  intro Hne. unfold rightDir. apply length_normalise.
  rewrite squareLength_rotated_right. now apply squareLength_pos.
Qed.

Lemma leftDir_zero : leftDir vec2.zero = vec2.zero.
Proof.
  unfold leftDir.
  replace (mkvec2f (- vec2.dot vec2.zero XMatrixLeft)
             (- vec2.dot vec2.zero YMatrixLeft)) with vec2.zero;
    [apply normalise_zero |].
  unfold vec2.zero, vec2.dot. simpl. f_equal; ring.
Qed.

Lemma rightDir_zero : rightDir vec2.zero = vec2.zero.
Proof.
  unfold rightDir.
  replace (mkvec2f (- vec2.dot vec2.zero XMatrixRight)
             (- vec2.dot vec2.zero YMatrixRight)) with vec2.zero;
    [apply normalise_zero |].
  unfold vec2.zero, vec2.dot. simpl. f_equal; ring.
Qed.

(** The six points of one sample. *)
Lemma arrowPoints_spec p v lengthAdjustment :
  let tip := stemEndpoint p v lengthAdjustment in
  let points := arrowPoints p v lengthAdjustment in
  length points = 6%nat
  /\ nth 0 points vec2.zero = p
  /\ nth 1 points vec2.zero = tip
  /\ nth 2 points vec2.zero = tip
  /\ nth 4 points vec2.zero = tip
  /\ (v <> vec2.zero ->
      vec2.distance (nth 2 points vec2.zero) (nth 3 points vec2.zero)
      = arrowheadLength
      /\ vec2.distance (nth 4 points vec2.zero) (nth 5 points vec2.zero)
         = arrowheadLength)
  /\ (v = vec2.zero ->
      nth 1 points vec2.zero = p
      /\ nth 3 points vec2.zero = p
      /\ nth 5 points vec2.zero = p).
Proof.
  intros tip points. unfold points, arrowPoints. fold tip. simpl.
  repeat split; try reflexivity.
  - rewrite distance_add_scale by (unfold arrowheadLength; lra).
    rewrite length_leftDir by assumption. ring.
  - rewrite distance_add_scale by (unfold arrowheadLength; lra).
    rewrite length_rightDir by assumption. ring.
  - subst v. apply add_scale_zero.
  - subst v. rewrite leftDir_zero, add_scale_zero. apply add_scale_zero.
  - subst v. rewrite rightDir_zero, add_scale_zero. apply add_scale_zero.
Qed.

Lemma nth_vectorArrowBuffer count position vector lengthAdjustment color c i k :
  Z.of_nat i < count -> (k < 6)%nat ->
  nth (6 * i + k)
    (vectorArrowBuffer count position vector lengthAdjustment color c) vec2.zero
  = nth k
      (arrowPoints (nth i position vec2.zero) (nth i vector vec2.zero)
         lengthAdjustment) vec2.zero.
Proof.
  intros Hi Hk. rewrite vectorArrowBuffer_flat_map.
  rewrite (nth_flat_map_six
             (fun i => arrowPoints (nth i position vec2.zero)
                         (nth i vector vec2.zero) lengthAdjustment)
             vec2.zero (fun j => eq_refl) (Z.to_nat count) 0%nat i k)
    by lia.
  reflexivity.
Qed.

(** C6, the claim as worded fails: a sample whose vector is zero gets
    arrowhead strokes of length 0, not 0.2.  With one sample at (0,0) whose
    vector is (0,0), all six points of the buffer are (0,0). *)
Lemma UploadVectors_zero_vector_arrowheads_have_no_length :
  let buffer :=
    vectorArrowBuffer 1 [mkvec2f 0 0] [mkvec2f 0 0] 1 opaqueBlack scenarioShip in
  size buffer = 6
  /\ vec2.distance (nth 2 buffer vec2.zero) (nth 3 buffer vec2.zero) = 0%R
  /\ vec2.distance (nth 4 buffer vec2.zero) (nth 5 buffer vec2.zero) = 0%R
  /\ vec2.distance (nth 2 buffer vec2.zero) (nth 3 buffer vec2.zero)
     <> (2 / 10)%R.
Proof.
  intro buffer.
  destruct (arrowPoints_spec (mkvec2f 0 0) (mkvec2f 0 0) 1)
    as (_ & _ & H1 & H2 & H4 & _ & Hzero).
  destruct (Hzero eq_refl) as (H1' & H3 & H5).
  assert (E : forall k, (k < 6)%nat ->
            nth k buffer vec2.zero
            = nth k (arrowPoints (mkvec2f 0 0) (mkvec2f 0 0) 1) vec2.zero).
  { intros k Hk. unfold buffer.
    change k with (6 * 0 + k)%nat at 1.
    rewrite nth_vectorArrowBuffer by lia.
    reflexivity. }
  assert (D23 : vec2.distance (nth 2 buffer vec2.zero) (nth 3 buffer vec2.zero)
                = 0%R).
  { rewrite (E 2%nat), (E 3%nat) by lia.
    rewrite H2, H3, <- H1, H1'. apply distance_self. }
  assert (D45 : vec2.distance (nth 4 buffer vec2.zero) (nth 5 buffer vec2.zero)
                = 0%R).
  { rewrite (E 4%nat), (E 5%nat) by lia.
    rewrite H4, H5, <- H1, H1'. apply distance_self. }
  split; [reflexivity |].
  split; [exact D23 |].
  split; [exact D45 |].
  rewrite D23. lra.
Qed.

(** C6, amended. In exact arithmetic, for every input of [count]
    position/vector sample pairs [UploadVectors] produces exactly
    [6 * count] points forming, per sample, a stem segment from the
    position to position + vector * lengthAdjustment and two arrowhead
    segments that start at the stem endpoint and, when the sample's vector
    is not the zero vector, have length 0.2; in particular, for count = 1,
    position (0,0), vector (1,0) and lengthAdjustment 1 the stem endpoint is
    (1,0) and both arrowhead segments start at (1,0) and have length
    0.2. *)
Theorem UploadVectors_builds_arrows
    (count : Z) (position vector : list vec2f) (lengthAdjustment : R)
    (color : vec4f) (c : ShipRenderContext) :
  0 <= count ->
  (let buffer :=
     vectorArrowBuffer count position vector lengthAdjustment color c in
   size buffer = 6 * count
   /\ forall i : nat,
        Z.of_nat i < count ->
        let p := nth i position vec2.zero in
        let v := nth i vector vec2.zero in
        let tip := vec2.add p (vec2.scale v lengthAdjustment) in
        nth (6 * i) buffer vec2.zero = p
        /\ nth (6 * i + 1) buffer vec2.zero = tip
        /\ nth (6 * i + 2) buffer vec2.zero = tip
        /\ nth (6 * i + 4) buffer vec2.zero = tip
        /\ (v <> vec2.zero ->
            vec2.distance (nth (6 * i + 2) buffer vec2.zero)
              (nth (6 * i + 3) buffer vec2.zero) = (2 / 10)%R
            /\ vec2.distance (nth (6 * i + 4) buffer vec2.zero)
                 (nth (6 * i + 5) buffer vec2.zero) = (2 / 10)%R))
  /\ (let buffer :=
        vectorArrowBuffer 1 [mkvec2f 0 0] [mkvec2f 1 0] 1 color c in
      nth 1 buffer vec2.zero = mkvec2f 1 0
      /\ nth 2 buffer vec2.zero = mkvec2f 1 0
      /\ nth 4 buffer vec2.zero = mkvec2f 1 0
      /\ vec2.distance (nth 2 buffer vec2.zero) (nth 3 buffer vec2.zero)
         = (2 / 10)%R
      /\ vec2.distance (nth 4 buffer vec2.zero) (nth 5 buffer vec2.zero)
         = (2 / 10)%R).
Proof.
  intro Hcount.
  assert (General : forall count position vector lengthAdjustment,
             0 <= count ->
             forall i : nat,
               Z.of_nat i < count ->
               let buffer :=
                 vectorArrowBuffer count position vector lengthAdjustment color c in
               let p := nth i position vec2.zero in
               let v := nth i vector vec2.zero in
               let tip := vec2.add p (vec2.scale v lengthAdjustment) in
               nth (6 * i) buffer vec2.zero = p
               /\ nth (6 * i + 1) buffer vec2.zero = tip
               /\ nth (6 * i + 2) buffer vec2.zero = tip
               /\ nth (6 * i + 4) buffer vec2.zero = tip
               /\ (v <> vec2.zero ->
                   vec2.distance (nth (6 * i + 2) buffer vec2.zero)
                     (nth (6 * i + 3) buffer vec2.zero) = (2 / 10)%R
                   /\ vec2.distance (nth (6 * i + 4) buffer vec2.zero)
                        (nth (6 * i + 5) buffer vec2.zero) = (2 / 10)%R)).
  { clear. intros count position vector lengthAdjustment Hcount i Hi.
    intros buffer p v tip.
    destruct (arrowPoints_spec p v lengthAdjustment)
      as (_ & H0 & H1 & H2 & H4 & Hheads & _).
    unfold buffer.
    replace (6 * i)%nat with (6 * i + 0)%nat at 1 by lia.
    rewrite !nth_vectorArrowBuffer by lia.
    fold p v. repeat split; try assumption; now apply Hheads. }
  split.
  - intro buffer. split.
    + unfold buffer, size. rewrite vectorArrowBuffer_flat_map.
      rewrite length_flat_map_six by (intro; reflexivity). lia.
    + intros i Hi. now apply General.
  - intro buffer.
    pose proof (General 1 [mkvec2f 0 0] [mkvec2f 1 0] 1%R ltac:(lia)
                  0%nat ltac:(lia)) as G.
    cbv zeta in G. fold buffer in G.
    change (nth 0 [mkvec2f 0 0] vec2.zero) with (mkvec2f 0 0) in G.
    change (nth 0 [mkvec2f 1 0] vec2.zero) with (mkvec2f 1 0) in G.
    change (6 * 0 + 1)%nat with 1%nat in G.
    change (6 * 0 + 2)%nat with 2%nat in G.
    change (6 * 0 + 3)%nat with 3%nat in G.
    change (6 * 0 + 4)%nat with 4%nat in G.
    change (6 * 0 + 5)%nat with 5%nat in G.
    assert (Tip : vec2.add (mkvec2f 0 0) (vec2.scale (mkvec2f 1 0) 1)
                  = mkvec2f 1 0)
      by (unfold vec2.add, vec2.scale; simpl; f_equal; ring).
    rewrite Tip in G.
    destruct G as (_ & H1 & H2 & H4 & Hheads).
    split; [exact H1 |]. split; [exact H2 |]. split; [exact H4 |].
    apply Hheads. unfold vec2.zero. intro E. inversion E. lra.
Qed.

Lemma UploadVectors_builds_arrows_witness :
  (let buffer :=
     vectorArrowBuffer 2 [mkvec2f 0 0; mkvec2f 3 4] [mkvec2f 1 0; mkvec2f 0 2]
       (1 / 2) opaqueBlack scenarioShip in
   size buffer = 6 * 2
   /\ forall i : nat,
        Z.of_nat i < 2 ->
        let p := nth i [mkvec2f 0 0; mkvec2f 3 4] vec2.zero in
        let v := nth i [mkvec2f 1 0; mkvec2f 0 2] vec2.zero in
        let tip := vec2.add p (vec2.scale v (1 / 2)) in
        nth (6 * i) buffer vec2.zero = p
        /\ nth (6 * i + 1) buffer vec2.zero = tip
        /\ nth (6 * i + 2) buffer vec2.zero = tip
        /\ nth (6 * i + 4) buffer vec2.zero = tip
        /\ (v <> vec2.zero ->
            vec2.distance (nth (6 * i + 2) buffer vec2.zero)
              (nth (6 * i + 3) buffer vec2.zero) = (2 / 10)%R
            /\ vec2.distance (nth (6 * i + 4) buffer vec2.zero)
                 (nth (6 * i + 5) buffer vec2.zero) = (2 / 10)%R))
  /\ (let buffer :=
        vectorArrowBuffer 1 [mkvec2f 0 0] [mkvec2f 1 0] 1 opaqueBlack
          scenarioShip in
      nth 1 buffer vec2.zero = mkvec2f 1 0
      /\ nth 2 buffer vec2.zero = mkvec2f 1 0
      /\ nth 4 buffer vec2.zero = mkvec2f 1 0
      /\ vec2.distance (nth 2 buffer vec2.zero) (nth 3 buffer vec2.zero)
         = (2 / 10)%R
      /\ vec2.distance (nth 4 buffer vec2.zero) (nth 5 buffer vec2.zero)
         = (2 / 10)%R).
Proof.
  apply (UploadVectors_builds_arrows 2 [mkvec2f 0 0; mkvec2f 3 4]
           [mkvec2f 1 0; mkvec2f 0 2] (1 / 2) opaqueBlack scenarioShip).
  lia.
Defined.

(** *** The context a ship starts with *)

(** The constructor allocates the point buffers, stores 0 as max-max plane
    id, allocates nothing for generic textures and computes the ortho
    matrices once. *)
Lemma newShipRenderContext_spec shipId shipCount pointCount
    shipRenderMode debugShipRenderMode vectorFieldRenderMode
    showStressedSprings color0 :
  0 <= pointCount ->
  pointCount * sizeof_vec4f <= Int.PTRDIFF_MAX ->
  let c :=
    newShipRenderContext shipId shipCount pointCount shipRenderMode
      debugShipRenderMode vectorFieldRenderMode showStressedSprings color0 in
  pointBuffersAllocated c
  /\ mMaxMaxPlaneId c = 0
  /\ mGenericTextureAllocatedVertexBufferSize c = 0
  /\ glCalls c = recomputation c.
Proof.
  intros Hpc Hbytes c. unfold c, newShipRenderContext, OnViewModelUpdated.
  split.
  - unfold pointBuffersAllocated, size. simpl.
    rewrite !repeat_length. repeat split; try lia.
  - split; [reflexivity |]. split; [reflexivity |].
    rewrite glCalls_UpdateOrthoMatrices. reflexivity.
Qed.

(** *** The calls and the statistics of [RenderEnd] *)

Ltac stats_eq :=
  unfold RenderPointElements, RenderSpringElements, RenderRopeElements,
    RenderTriangleElements, RenderVectors;
  unfold plusStatistics, add_LastRenderedShipSprings, add_LastRenderedShipRopes,
    add_LastRenderedShipTriangles, add_LastRenderedShipGenericTextures,
    add_LastRenderedShipEphemeralPoints, add_LastRenderedShipPlanes;
  cbn [mRenderStatistics set_mRenderStatistics emit set_glCalls
       set_mGenericTextureAllocatedVertexBufferSize
       LastRenderedShipSprings LastRenderedShipRopes LastRenderedShipTriangles
       LastRenderedShipGenericTextures LastRenderedShipEphemeralPoints
       LastRenderedShipPlanes];
  f_equal; lia.

Lemma plusStatistics_noStatistics s : plusStatistics s noStatistics = s.
Proof.
  destruct s. unfold plusStatistics, noStatistics. simpl.
  now rewrite !Z.add_0_r.
Qed.

Lemma plusStatistics_assoc a b c :
  plusStatistics (plusStatistics a b) c = plusStatistics a (plusStatistics b c).
Proof.
  stats_eq.
Qed.

Lemma renders_seq f g k1 k2 d1 d2 :
  renders f k1 d1 -> renders g k2 d2 ->
  (forall c, k2 c = k2 (drawInputs c)) ->
  (forall c, d2 c = d2 (drawInputs c)) ->
  renders (fun c => g (f c)) (fun c => k1 c ++ k2 c)
    (fun c => plusStatistics (d1 c) (d2 c)).
Proof.
  intros Hf Hg Hk Hd c.
  destruct (Hf c) as (Sf & Cf & Af).
  destruct (Hg (f c)) as (Sg & Cg & Ag).
  split; [now rewrite Sg |].
  split.
  - rewrite Cg, Cf, <- app_assoc. f_equal. f_equal.
    now rewrite (Hk (f c)), Sf, <- (Hk c).
  - rewrite Ag, Af, plusStatistics_assoc. f_equal. f_equal.
    now rewrite (Hd (f c)), Sf, <- (Hd c).
Qed.

Lemma renders_ext f k k' d d' :
  renders f k d -> (forall c, k c = k' c) -> (forall c, d c = d' c) ->
  renders f k' d'.
Proof.
  intros H Ek Ed c. destruct (H c) as (S & C & A).
  rewrite <- Ek, <- Ed. repeat split; assumption.
Qed.

Ltac renders_block :=
  intro c;
  repeat match goal with
         | |- context [if ?b then _ else _] => destruct b eqn:?
         end;
  (split; [reflexivity |]);
  (split;
   [ first [reflexivity | symmetry; apply app_nil_r]
   | first [ symmetry; apply plusStatistics_noStatistics
           | stats_eq ] ]).

Lemma renders_drawPointsBlock :
  renders drawPointsBlock
    (fun c =>
       if debugIs DebugShipRenderMode.Points c
       then [glDrawElements ProgramType.ShipPointsColor GL_POINTS mPointElementVBO
               (Int.GLsizei (Int.size_t (1 * size (mPointElementBuffer c))))]
       else [])
    (fun _ => noStatistics).
Proof.
  unfold drawPointsBlock. renders_block.
Qed.

Lemma renders_drawTrianglesBlock :
  renders drawTrianglesBlock
    (fun c =>
       if drawsTriangles c
       then [glDrawElements (trianglesProgram (isTexture c)) GL_TRIANGLES
               mTriangleElementVBO
               (Int.GLsizei (Int.size_t (3 * size (mTriangleElementBuffer c))))]
       else [])
    (fun c =>
       mkRenderStatistics 0 0
         (if drawsTriangles c then size (mTriangleElementBuffer c) else 0)
         0 0 0).
Proof.
  unfold drawTrianglesBlock, drawsTriangles, RenderTriangleElements,
    trianglesProgram.
  intro c.
  destruct (debugIs DebugShipRenderMode.Wireframe c
            || debugIs DebugShipRenderMode.None c && (isStructure c || isTexture c)).
  - split; [reflexivity |]. split; [reflexivity |].
    stats_eq.
  - split; [reflexivity |]. split; [symmetry; apply app_nil_r |].
    symmetry. apply plusStatistics_noStatistics.
Qed.

Lemma renders_drawRopesFirstBlock :
  renders drawRopesFirstBlock
    (fun c =>
       if negb (debugIs DebugShipRenderMode.None c) || negb (isStructure c)
       then [ropesCall c] else [])
    (fun c =>
       mkRenderStatistics 0
         (if negb (debugIs DebugShipRenderMode.None c) || negb (isStructure c)
          then size (mRopeElementBuffer c) else 0)
         0 0 0 0).
Proof.
  unfold drawRopesFirstBlock. intro c.
  destruct (negb (debugIs DebugShipRenderMode.None c) || negb (isStructure c)).
  - split; [reflexivity |]. split; [reflexivity |].
    stats_eq.
  - split; [reflexivity |]. split; [symmetry; apply app_nil_r |].
    symmetry. apply plusStatistics_noStatistics.
Qed.

Lemma renders_drawSpringsBlock :
  renders drawSpringsBlock
    (fun c =>
       if drawsSprings c
       then [glDrawElements
               (trianglesProgram (debugIs DebugShipRenderMode.None c && isTexture c))
               GL_LINES mSpringElementVBO
               (Int.GLsizei (Int.size_t (2 * size (mSpringElementBuffer c))))]
       else [])
    (fun c =>
       mkRenderStatistics
         (if drawsSprings c then size (mSpringElementBuffer c) else 0)
         0 0 0 0 0).
Proof.
  unfold drawSpringsBlock, drawsSprings, RenderSpringElements, trianglesProgram.
  intro c.
  destruct (debugIs DebugShipRenderMode.Springs c
            || debugIs DebugShipRenderMode.EdgeSprings c
            || debugIs DebugShipRenderMode.None c && (isStructure c || isTexture c)).
  - split; [reflexivity |]. split; [reflexivity |].
    stats_eq.
  - split; [reflexivity |]. split; [symmetry; apply app_nil_r |].
    symmetry. apply plusStatistics_noStatistics.
Qed.

Lemma renders_drawRopesSecondBlock :
  renders drawRopesSecondBlock
    (fun c =>
       if debugIs DebugShipRenderMode.None c && isStructure c
       then [ropesCall c] else [])
    (fun c =>
       mkRenderStatistics 0
         (if debugIs DebugShipRenderMode.None c && isStructure c
          then size (mRopeElementBuffer c) else 0)
         0 0 0 0).
Proof.
  unfold drawRopesSecondBlock. intro c.
  destruct (debugIs DebugShipRenderMode.None c && isStructure c).
  - split; [reflexivity |]. split; [reflexivity |].
    stats_eq.
  - split; [reflexivity |]. split; [symmetry; apply app_nil_r |].
    symmetry. apply plusStatistics_noStatistics.
Qed.

Lemma renders_drawStressedSpringsBlock :
  renders drawStressedSpringsBlock
    (fun c =>
       if debugIs DebugShipRenderMode.None c && mShowStressedSprings c
          && negb (empty (mStressedSpringElementBuffer c))
       then [glDrawElements ProgramType.ShipStressedSprings GL_LINES
               mStressedSpringElementVBO
               (Int.GLsizei
                  (Int.size_t (2 * size (mStressedSpringElementBuffer c))))]
       else [])
    (fun _ => noStatistics).
Proof.
  unfold drawStressedSpringsBlock, RenderStressedSpringElements. intro c.
  destruct (debugIs DebugShipRenderMode.None c && mShowStressedSprings c);
    destruct (empty (mStressedSpringElementBuffer c)); simpl;
    (split; [reflexivity |]);
    (split; [first [reflexivity | symmetry; apply app_nil_r] |]);
    symmetry; apply plusStatistics_noStatistics.
Qed.

Lemma renders_RenderEphemeralPoints :
  renders RenderEphemeralPoints
    (fun c =>
       if empty (mEphemeralPoints c) then []
       else [glDrawElements ProgramType.ShipPointsColor GL_POINTS
               mEphemeralPointVBO (Int.GLsizei (size (mEphemeralPoints c)))])
    (fun c => mkRenderStatistics 0 0 0 0 (size (mEphemeralPoints c)) 0).
Proof.
  unfold RenderEphemeralPoints. intro c.
  destruct (mEphemeralPoints c) as [| e es] eqn:E; simpl.
  - split; [reflexivity |]. split; [symmetry; apply app_nil_r |].
    symmetry. apply plusStatistics_noStatistics.
  - rewrite E. split; [reflexivity |]. split; [reflexivity |].
    stats_eq.
Qed.

Lemma renders_beforeGenericTextures :
  renders beforeGenericTextures beforeGenericTexturesCalls
    beforeGenericTexturesStatistics.
Proof.
  unfold beforeGenericTextures.
  eapply renders_ext.
  - eapply renders_seq;
      [| apply renders_RenderEphemeralPoints | intro; reflexivity | intro; reflexivity].
    eapply renders_seq;
      [| apply renders_drawStressedSpringsBlock | intro; reflexivity | intro; reflexivity].
    eapply renders_seq;
      [| apply renders_drawRopesSecondBlock | intro; reflexivity | intro; reflexivity].
    eapply renders_seq;
      [| apply renders_drawSpringsBlock | intro; reflexivity | intro; reflexivity].
    eapply renders_seq;
      [| apply renders_drawRopesFirstBlock | intro; reflexivity | intro; reflexivity].
    eapply renders_seq;
      [| apply renders_drawTrianglesBlock | intro; reflexivity | intro; reflexivity].
    apply renders_drawPointsBlock.
  - intro c. unfold beforeGenericTexturesCalls. cbn beta.
    repeat rewrite <- app_assoc. reflexivity.
  - intro c. unfold beforeGenericTexturesStatistics, plusStatistics, noStatistics.
    cbn beta.
    cbn [LastRenderedShipSprings LastRenderedShipRopes LastRenderedShipTriangles
         LastRenderedShipGenericTextures LastRenderedShipEphemeralPoints
         LastRenderedShipPlanes].
    f_equal; try lia.
    destruct (debugIs DebugShipRenderMode.None c), (isStructure c); simpl; lia.
Qed.

Lemma fold_RenderGenericTextures_renders components : forall c,
  let c' :=
    fold_left (fun c component => RenderGenericTextures component c) components c in
  glCalls c'
  = glCalls c
    ++ genericTextureCalls components
         (mGenericTextureAllocatedVertexBufferSize c)
         (mGenericTextureMaxVertexBufferSize c)
  /\ mRenderStatistics c'
     = plusStatistics (mRenderStatistics c)
         (mkRenderStatistics 0 0 0 (genericTextureQuads components) 0 0).
Proof.
  induction components as [| component rest IH]; intro c.
  - simpl. split; [now rewrite app_nil_r |].
    symmetry. apply plusStatistics_noStatistics.
  - cbn [fold_left genericTextureCalls].
    destruct (IH (RenderGenericTextures component c)) as [Hc Hs].
    cbv zeta in Hc, Hs. cbv zeta. rewrite Hc, Hs. clear Hc Hs IH.
    unfold genericTextureQuads. cbn [map fold_right].
    fold (genericTextureQuads rest).
    unfold RenderGenericTextures.
    destruct (VertexBuffer component) as [| v vs] eqn:E; cbn [empty negb].
    + change (size []) with 0. change (0 / 6) with 0.
      split; [reflexivity | reflexivity].
    + destruct (Z.eqb_spec (mGenericTextureAllocatedVertexBufferSize c)
                  (mGenericTextureMaxVertexBufferSize c)) as [Eq | Ne];
        cbn [negb].
      * split.
        -- cbn. rewrite Eq, <- app_assoc. reflexivity.
        -- stats_eq.
      * split.
        -- cbn. rewrite <- !app_assoc. reflexivity.
        -- stats_eq.
Qed.

Lemma renders_drawGenericTexturesBlock :
  renders drawGenericTexturesBlock
    (fun c =>
       genericTextureCalls (mGenericTextureConnectedComponents c)
         (mGenericTextureAllocatedVertexBufferSize c)
         (mGenericTextureMaxVertexBufferSize c))
    (fun c =>
       mkRenderStatistics 0 0 0
         (genericTextureQuads (mGenericTextureConnectedComponents c)) 0 0).
Proof.
  intro c.
  destruct (issues_drawGenericTexturesBlock c) as (S & _).
  destruct (fold_RenderGenericTextures_renders
              (mGenericTextureConnectedComponents c) c) as (C & A).
  split; [exact S |]. split; [exact C | exact A].
Qed.

Lemma renders_drawVectorsBlock :
  renders drawVectorsBlock vectorsCalls (fun _ => noStatistics).
Proof.
  unfold drawVectorsBlock, vectorsCalls. intro c.
  destruct (VectorFieldRenderMode.eqb (mVectorFieldRenderMode c)
              VectorFieldRenderMode.None); simpl.
  - split; [reflexivity |]. split; [symmetry; apply app_nil_r |].
    symmetry. apply plusStatistics_noStatistics.
  - split; [reflexivity |]. split; [reflexivity |].
    symmetry. apply plusStatistics_noStatistics.
Qed.

Lemma renders_updateStatsBlock :
  renders updateStatsBlock (fun _ => [])
    (fun c => mkRenderStatistics 0 0 0 0 0 (Int.uint32_t (mMaxMaxPlaneId c + 1))).
Proof.
  unfold updateStatsBlock. intro c.
  split; [reflexivity |]. split; [symmetry; apply app_nil_r |].
  stats_eq.
Qed.

(** Sequencing when the second operation also reads the allocated size of
    the generic-texture store, which the first leaves alone. *)
Lemma renders_seq_store f g k1 k2 d1 d2 :
  renders f k1 d1 -> (forall c, withoutLog (f c) = withoutLog c) ->
  renders g k2 d2 ->
  (forall c, k2 c = k2 (withoutLog c)) ->
  (forall c, d2 c = d2 (withoutLog c)) ->
  renders (fun c => g (f c)) (fun c => k1 c ++ k2 c)
    (fun c => plusStatistics (d1 c) (d2 c)).
Proof.
  intros Hf Wf Hg Hk Hd c.
  destruct (Hf c) as (Sf & Cf & Af).
  destruct (Hg (f c)) as (Sg & Cg & Ag).
  split; [now rewrite Sg |].
  split.
  - rewrite Cg, Cf, <- app_assoc. f_equal. f_equal.
    now rewrite (Hk (f c)), Wf, <- (Hk c).
  - rewrite Ag, Af, plusStatistics_assoc. f_equal. f_equal.
    now rewrite (Hd (f c)), Wf, <- (Hd c).
Qed.

(** What one [RenderEnd] does, in full: the calls it sends, what it adds
    to the statistics, and that it changes nothing a draw decision
    reads. *)
Lemma RenderEnd_renders : renders RenderEnd renderEndCalls renderEndStatistics.
Proof.
  assert (H : renders
                (fun c =>
                   updateStatsBlock
                     (drawVectorsBlock
                        (drawGenericTexturesBlock (beforeGenericTextures c))))
                renderEndCalls renderEndStatistics).
  { eapply renders_ext.
    - eapply renders_seq;
        [| apply renders_updateStatsBlock | intro; reflexivity | intro; reflexivity].
      eapply renders_seq;
        [| apply renders_drawVectorsBlock | intro; reflexivity | intro; reflexivity].
      eapply renders_seq_store;
        [ apply renders_beforeGenericTextures
        | apply withoutLog_before_generic_textures
        | apply renders_drawGenericTexturesBlock
        | intro; reflexivity | intro; reflexivity ].
    - intro c. unfold renderEndCalls. cbn beta.
      now rewrite app_nil_r, <- !app_assoc.
    - intro c.
      unfold renderEndStatistics, beforeGenericTexturesStatistics, plusStatistics,
        noStatistics.
      cbn beta.
      cbn [LastRenderedShipSprings LastRenderedShipRopes LastRenderedShipTriangles
           LastRenderedShipGenericTextures LastRenderedShipEphemeralPoints
           LastRenderedShipPlanes].
      f_equal; lia. }
  intro c. rewrite RenderEnd_blocks. apply (H c).
Qed.

Lemma issued_RenderEnd c : issued RenderEnd c = renderEndCalls c.
Proof.
  destruct (RenderEnd_renders c) as (_ & C & _).
  unfold issued. now apply issuedBetween_app.
Qed.

(** X1. One [RenderEnd] adds to the shared statistics: the rope count
    exactly once whatever the modes, the spring and triangle counts when
    those streams are drawn, the ephemeral point count, one quad per six
    vertices of each generic-texture component, and the number of planes
    [mMaxMaxPlaneId + 1] (in [PlaneId] arithmetic). *)
Theorem RenderEnd_statistics (c : ShipRenderContext) :
  let before := mRenderStatistics c in
  let after := mRenderStatistics (RenderEnd c) in
  LastRenderedShipRopes after
  = LastRenderedShipRopes before + size (mRopeElementBuffer c)
  /\ LastRenderedShipSprings after
     = LastRenderedShipSprings before
       + (if drawsSprings c then size (mSpringElementBuffer c) else 0)
  /\ LastRenderedShipTriangles after
     = LastRenderedShipTriangles before
       + (if drawsTriangles c then size (mTriangleElementBuffer c) else 0)
  /\ LastRenderedShipEphemeralPoints after
     = LastRenderedShipEphemeralPoints before + size (mEphemeralPoints c)
  /\ LastRenderedShipGenericTextures after
     = LastRenderedShipGenericTextures before
       + genericTextureQuads (mGenericTextureConnectedComponents c)
  /\ LastRenderedShipPlanes after
     = LastRenderedShipPlanes before + Int.uint32_t (mMaxMaxPlaneId c + 1).
Proof.
  intros before after.
  destruct (RenderEnd_renders c) as (_ & _ & A).
  unfold after, before. rewrite A.
  unfold plusStatistics, renderEndStatistics. simpl.
  repeat split.
Qed.

(** *** Rendering again *)

Lemma genericTextureCalls_no_vertices components allocated peak :
  existsb hasVertices components = false ->
  genericTextureCalls components allocated peak = [].
Proof.
  induction components as [| component rest IH]; [reflexivity |].
  cbn [existsb genericTextureCalls]. unfold hasVertices at 1.
  destruct (empty (VertexBuffer component)); simpl; [exact IH | discriminate].
Qed.

Lemma filter_isDrawCall_genericTextureCalls components : forall allocated peak,
  filter isDrawCall (genericTextureCalls components allocated peak)
  = genericTextureCalls components peak peak.
Proof.
  induction components as [| component rest IH]; intros allocated peak;
    [reflexivity |].
  cbn [genericTextureCalls].
  destruct (empty (VertexBuffer component)); [apply IH |].
  rewrite Z.eqb_refl, filter_app.
  destruct (allocated =? peak); simpl; now rewrite IH.
Qed.

Lemma filter_isDrawCall_beforeGenericTexturesCalls c :
  filter isDrawCall (beforeGenericTexturesCalls c) = beforeGenericTexturesCalls c.
Proof.
  unfold beforeGenericTexturesCalls.
  repeat match goal with
         | |- context [if ?b then _ else _] => destruct b
         end; reflexivity.
Qed.

Lemma filter_isDrawCall_vectorsCalls c :
  filter isDrawCall (vectorsCalls c) = vectorsCalls c.
Proof.
  unfold vectorsCalls.
  destruct (VectorFieldRenderMode.eqb (mVectorFieldRenderMode c)
              VectorFieldRenderMode.None); reflexivity.
Qed.

Lemma renderEndCalls_reads c :
  renderEndCalls c
  = beforeGenericTexturesCalls (drawInputs c)
    ++ genericTextureCalls (mGenericTextureConnectedComponents (drawInputs c))
         (mGenericTextureAllocatedVertexBufferSize c)
         (mGenericTextureMaxVertexBufferSize (drawInputs c))
    ++ vectorsCalls (drawInputs c).
Proof.
  reflexivity.
Qed.

(** X2. [RenderEnd] changes nothing but the call log, the statistics and
    the allocated size of the generic-texture store.  Rendering a second
    time with no upload in between therefore repeats exactly the draw
    calls of the first time, and never reallocates the store. *)
Theorem RenderEnd_twice (c : ShipRenderContext) :
  drawInputs (RenderEnd c) = drawInputs c
  /\ issued RenderEnd (RenderEnd c) = filter isDrawCall (issued RenderEnd c)
  /\ filter isBufferDataCall (issued RenderEnd (RenderEnd c)) = [].
Proof.
  destruct (RenderEnd_renders c) as (S & _ & _).
  assert (E : issued RenderEnd (RenderEnd c)
              = filter isDrawCall (issued RenderEnd c)).
  { rewrite !issued_RenderEnd.
    rewrite (renderEndCalls_reads (RenderEnd c)), S, RenderEnd_allocated.
    rewrite (renderEndCalls_reads c).
    rewrite !filter_app, filter_isDrawCall_beforeGenericTexturesCalls,
      filter_isDrawCall_vectorsCalls, filter_isDrawCall_genericTextureCalls.
    f_equal. f_equal.
    change (mGenericTextureConnectedComponents (drawInputs c))
      with (mGenericTextureConnectedComponents c).
    change (mGenericTextureMaxVertexBufferSize (drawInputs c))
      with (mGenericTextureMaxVertexBufferSize c).
    destruct (existsb hasVertices (mGenericTextureConnectedComponents c)) eqn:V.
    - reflexivity.
    - now rewrite !genericTextureCalls_no_vertices. }
  split; [exact S |]. split; [exact E |].
  rewrite E. generalize (issued RenderEnd c). intro calls.
  induction calls as [| call rest IH]; [reflexivity |].
  destruct call; simpl; auto.
Qed.

(** *** The paint order *)

Lemma paintPhase_genericTextureDraws components suffix x :
  x <= 5 ->
  Sorted Z.le (map paintPhase suffix) ->
  HdRel Z.le 5 (map paintPhase suffix) ->
  Sorted Z.le (map paintPhase (genericTextureDraws components ++ suffix))
  /\ HdRel Z.le x (map paintPhase (genericTextureDraws components ++ suffix)).
Proof.
  intros Hx Hsorted Hhead. revert x Hx.
  induction components as [| component rest IH]; intros x Hx.
  - simpl. split; [exact Hsorted |].
    destruct (map paintPhase suffix) as [| y ys]; constructor.
    inversion Hhead; subst. lia.
  - unfold genericTextureDraws in *. cbn [flat_map].
    destruct (empty (VertexBuffer component)); cbn [app].
    + now apply IH.
    + destruct (IH 5 ltac:(lia)) as [S H].
      cbn [map paintPhase]. split.
      * constructor; assumption.
      * constructor. exact Hx.
Qed.

(** X3. In every combination of the modes [RenderEnd] issues its draws in
    the order of the phases points, triangles, ropes and springs, stressed
    springs, ephemeral points, generic textures, vectors: no draw of a
    later phase ever precedes a draw of an earlier one; in particular the
    triangles are always drawn before the ropes and the springs. *)
Theorem RenderEnd_paint_order (c : ShipRenderContext) :
  Sorted Z.le (map paintPhase (draws (issued RenderEnd c))).
Proof.
  rewrite draws_issued_RenderEnd.
  assert (Tail : forall x, x <= 5 ->
            Sorted Z.le
              (map paintPhase
                 (genericTextureDraws (mGenericTextureConnectedComponents c)
                  ++ (if VectorFieldRenderMode.eqb (mVectorFieldRenderMode c)
                           VectorFieldRenderMode.None
                      then [] else [VectorsDraw]) ++ []))
            /\ HdRel Z.le x
                 (map paintPhase
                    (genericTextureDraws (mGenericTextureConnectedComponents c)
                     ++ (if VectorFieldRenderMode.eqb (mVectorFieldRenderMode c)
                              VectorFieldRenderMode.None
                         then [] else [VectorsDraw]) ++ []))).
  { intros x Hx. apply paintPhase_genericTextureDraws; [exact Hx | |];
      destruct (VectorFieldRenderMode.eqb (mVectorFieldRenderMode c)
                  VectorFieldRenderMode.None); simpl;
      repeat constructor; lia. }
  unfold renderEndDraws, isStructure, isTexture, debugIs.
  destruct (mShipRenderMode c), (mDebugShipRenderMode c),
    (mShowStressedSprings c), (empty (mStressedSpringElementBuffer c)),
    (empty (mEphemeralPoints c));
    cbn [ShipRenderMode.eqb DebugShipRenderMode.eqb orb andb negb app map
         paintPhase];
    repeat (apply Sorted_cons;
            [| first [ apply HdRel_cons; lia
                     | apply (fun H => proj2 (Tail _ H)); lia ] ]);
    apply (proj1 (Tail 5 ltac:(lia))).
Qed.

(** *** The generic-texture store during [RenderEnd] *)

Lemma filter_isBufferDataCall_genericTextureCalls components : forall allocated peak,
  filter isBufferDataCall (genericTextureCalls components allocated peak)
  = if existsb hasVertices components && negb (allocated =? peak)
    then [glBufferData mGenericTextureRenderPolygonVertexVBO peak]
    else [].
Proof.
  induction components as [| component rest IH]; intros allocated peak;
    [reflexivity |].
  cbn [genericTextureCalls existsb]. unfold hasVertices at 1.
  destruct (empty (VertexBuffer component)); cbn [negb orb].
  - apply IH.
  - rewrite filter_app. cbn [filter isBufferDataCall].
    rewrite IH, Z.eqb_refl, andb_false_r.
    destruct (allocated =? peak); reflexivity.
Qed.

Lemma filter_isBufferDataCall_beforeGenericTexturesCalls c :
  filter isBufferDataCall (beforeGenericTexturesCalls c) = [].
Proof.
  unfold beforeGenericTexturesCalls.
  repeat match goal with
         | |- context [if ?b then _ else _] => destruct b
         end; reflexivity.
Qed.

Lemma filter_isBufferDataCall_vectorsCalls c :
  filter isBufferDataCall (vectorsCalls c) = [].
Proof.
  unfold vectorsCalls.
  destruct (VectorFieldRenderMode.eqb (mVectorFieldRenderMode c)
              VectorFieldRenderMode.None); reflexivity.
Qed.

(** X4. One [RenderEnd] reallocates the generic-texture vertex store at
    most once: exactly once, to the peak size, when some component has
    vertices and the allocated size differs from the peak size, and not at
    all otherwise; no other buffer is allocated while rendering. *)
Theorem RenderEnd_reallocates_at_most_once (c : ShipRenderContext) :
  filter isBufferDataCall (issued RenderEnd c)
  = if existsb hasVertices (mGenericTextureConnectedComponents c)
       && negb (mGenericTextureAllocatedVertexBufferSize c
                =? mGenericTextureMaxVertexBufferSize c)
    then [glBufferData mGenericTextureRenderPolygonVertexVBO
            (mGenericTextureMaxVertexBufferSize c)]
    else [].
Proof.
  rewrite issued_RenderEnd. unfold renderEndCalls.
  rewrite !filter_app, filter_isBufferDataCall_beforeGenericTexturesCalls,
    filter_isBufferDataCall_vectorsCalls,
    filter_isBufferDataCall_genericTextureCalls.
  now rewrite app_nil_r.
Qed.

Lemma filter_isGenericTexturesDrawCall_genericTextureCalls components :
  forall allocated peak,
  filter isGenericTexturesDrawCall (genericTextureCalls components allocated peak)
  = map (fun component =>
           glDrawArrays ProgramType.ShipGenericTextures GL_TRIANGLES
             mGenericTextureRenderPolygonVertexVBO
             (Int.GLsizei (size (VertexBuffer component))))
      (filter hasVertices components).
Proof.
  induction components as [| component rest IH]; intros allocated peak;
    [reflexivity |].
  cbn [genericTextureCalls filter]. unfold hasVertices at 1.
  destruct (empty (VertexBuffer component)); cbn [negb].
  - apply IH.
  - rewrite filter_app. cbn [filter isGenericTexturesDrawCall map].
    rewrite IH. destruct (allocated =? peak); reflexivity.
Qed.

Lemma filter_isGenericTexturesDrawCall_beforeGenericTexturesCalls c :
  filter isGenericTexturesDrawCall (beforeGenericTexturesCalls c) = [].
Proof.
  unfold beforeGenericTexturesCalls.
  repeat match goal with
         | |- context [if ?b then _ else _] => destruct b
         end; reflexivity.
Qed.

Lemma filter_isGenericTexturesDrawCall_vectorsCalls c :
  filter isGenericTexturesDrawCall (vectorsCalls c) = [].
Proof.
  unfold vectorsCalls.
  destruct (VectorFieldRenderMode.eqb (mVectorFieldRenderMode c)
              VectorFieldRenderMode.None); reflexivity.
Qed.

(** X5. [RenderEnd] draws the generic textures with one [glDrawArrays] per
    connected component that has vertices, in the order of the component
    list and with the vertex count of the component; a component without
    vertices gets no call. *)
Theorem RenderEnd_one_draw_per_component (c : ShipRenderContext) :
  filter isGenericTexturesDrawCall (issued RenderEnd c)
  = map (fun component =>
           glDrawArrays ProgramType.ShipGenericTextures GL_TRIANGLES
             mGenericTextureRenderPolygonVertexVBO
             (Int.GLsizei (size (VertexBuffer component))))
      (filter hasVertices (mGenericTextureConnectedComponents c)).
Proof.
  rewrite issued_RenderEnd. unfold renderEndCalls.
  rewrite !filter_app, filter_isGenericTexturesDrawCall_beforeGenericTexturesCalls,
    filter_isGenericTexturesDrawCall_vectorsCalls,
    filter_isGenericTexturesDrawCall_genericTextureCalls.
  now rewrite app_nil_r.
Qed.

Lemma GLsizei_small z : 0 <= z < 2 ^ 31 -> Int.GLsizei z = z.
Proof.
  exact (int_small z).
Qed.

Lemma storeFits_app_unrelated calls rest : forall capacity,
  forallb (fun call => negb (usesGenericTextureStore call)) calls = true ->
  storeFits capacity (calls ++ rest) = storeFits capacity rest.
Proof.
  induction calls as [| call calls IH]; intros capacity H; [reflexivity |].
  cbn [forallb] in H. apply andb_true_iff in H. destruct H as [Hcall Hcalls].
  cbn [app storeFits].
  destruct call as [p m | target n | p mode buffer n | p mode buffer n];
    try (now apply IH);
    destruct target || destruct buffer; try discriminate; now apply IH.
Qed.

Lemma beforeGenericTexturesCalls_unrelated c :
  forallb (fun call => negb (usesGenericTextureStore call))
    (beforeGenericTexturesCalls c) = true.
Proof.
  unfold beforeGenericTexturesCalls, ropesCall.
  repeat match goal with
         | |- context [if ?b then _ else _] => destruct b
         end; reflexivity.
Qed.

Lemma vectorsCalls_unrelated c :
  forallb (fun call => negb (usesGenericTextureStore call)) (vectorsCalls c)
  = true.
Proof.
  unfold vectorsCalls.
  destruct (VectorFieldRenderMode.eqb (mVectorFieldRenderMode c)
              VectorFieldRenderMode.None); reflexivity.
Qed.

Lemma storeFits_genericTextureCalls peak rest components : forall allocated,
  Forall (fun component => size (VertexBuffer component) <= peak) components ->
  peak < 2 ^ 31 ->
  forallb (fun call => negb (usesGenericTextureStore call)) rest = true ->
  storeFits allocated (genericTextureCalls components allocated peak ++ rest)
  = true.
Proof.
  intros allocated Hbound Hpeak Hrest. revert allocated.
  induction Hbound as [| component components Hsize Hbound IH]; intro allocated.
  - cbn [genericTextureCalls app].
    rewrite <- (app_nil_r rest). now rewrite storeFits_app_unrelated.
  - cbn [genericTextureCalls].
    destruct (empty (VertexBuffer component)); [apply IH |].
    assert (Hcount : Int.GLsizei (size (VertexBuffer component))
                     = size (VertexBuffer component)).
    { apply GLsizei_small. pose proof (size_nonneg (VertexBuffer component)). lia. }
    rewrite Hcount.
    destruct (Z.eqb_spec allocated peak) as [-> | Hne]; cbn [app storeFits].
    + rewrite IH, andb_true_r. now apply Z.leb_le.
    + rewrite IH, andb_true_r. now apply Z.leb_le.
Qed.

(** X6. If the peak size bounds the vertex count of every component (and
    fits a [GLsizei]), then during [RenderEnd] every generic-texture draw
    reads from a store that holds at least as many vertices as the
    component drawn: the store is brought to the peak size before the first
    draw that needs it. *)
Theorem RenderEnd_draws_fit_the_store (c : ShipRenderContext) :
  peakBoundsComponents c ->
  mGenericTextureMaxVertexBufferSize c < 2 ^ 31 ->
  storeFits (mGenericTextureAllocatedVertexBufferSize c) (issued RenderEnd c)
  = true.
Proof.
  intros Hbound Hpeak. rewrite issued_RenderEnd. unfold renderEndCalls.
  rewrite storeFits_app_unrelated by apply beforeGenericTexturesCalls_unrelated.
  apply storeFits_genericTextureCalls;
    [exact Hbound | exact Hpeak | apply vectorsCalls_unrelated].
Qed.

Lemma largestVertexBuffer_bounds components :
  Forall
    (fun component =>
       size (VertexBuffer component) <= largestVertexBuffer components)
    components.
Proof.
  induction components as [| component rest IH]; [constructor |].
  unfold largestVertexBuffer in *. cbn [map fold_right].
  constructor; [lia |].
  eapply Forall_impl; [| exact IH]. cbv beta. intros other H. lia.
Qed.

Lemma peakTracked_peakBoundsComponents c :
  peakTracked c -> peakBoundsComponents c.
Proof.
  unfold peakTracked, peakBoundsComponents. intros ->.
  apply largestVertexBuffer_bounds.
Qed.

Lemma RenderEnd_draws_fit_the_store_witness :
  storeFits
    (mGenericTextureAllocatedVertexBufferSize
       (uploadGenericTextures [(0, quad)] (RenderStart scenarioShip)))
    (issued RenderEnd
       (uploadGenericTextures [(0, quad)] (RenderStart scenarioShip)))
  = true.
Proof.
  apply (RenderEnd_draws_fit_the_store
           (uploadGenericTextures [(0, quad)] (RenderStart scenarioShip))).
  - apply peakTracked_peakBoundsComponents.
    apply uploadGenericTextures_spec, RenderStart_peakTracked.
  - replace (mGenericTextureMaxVertexBufferSize
               (uploadGenericTextures [(0, quad)] (RenderStart scenarioShip)))
      with 6 by reflexivity.
    reflexivity.
Defined.

(** *** What a successful upload has done *)



(** *** The programs always hold the current ortho matrices *)











(** *** The point buffers are never resized *)

Lemma glBufferSubData_size {A : Type} elemSize (store : list A) offset bytes
    data store' :
  0 < elemSize ->
  glBufferSubData elemSize store offset bytes data = Some store' ->
  bytes / elemSize <= size data ->
  size store' = size store.
Proof.
  unfold glBufferSubData, size. intros He E Hdata.
  destruct (Z.ltb_spec offset 0) as [| Ho]; [discriminate |].
  destruct (Z.ltb_spec bytes 0) as [| Hb]; [discriminate |].
  destruct (Z.ltb_spec (elemSize * Z.of_nat (length store)) (offset + bytes))
    as [| Hfit]; [discriminate |].
  cbn [orb] in E. injection E as <-.
  assert (Hsum : offset / elemSize + bytes / elemSize
                 <= Z.of_nat (length store)).
  { assert (elemSize * (offset / elemSize + bytes / elemSize) <= offset + bytes).
    { pose proof (Z.mul_div_le offset elemSize He).
      pose proof (Z.mul_div_le bytes elemSize He). lia. }
    nia. }
  assert (0 <= offset / elemSize) by (apply Z.div_pos; lia).
  assert (0 <= bytes / elemSize) by (apply Z.div_pos; lia).
  rewrite !length_app, !length_firstn, length_skipn. lia.
Qed.

Lemma byte_count_div z elemSize :
  0 <= z -> 0 < elemSize ->
  0 <= Int.GLsizeiptr (Int.size_t (z * elemSize)) ->
  Int.GLsizeiptr (Int.size_t (z * elemSize)) / elemSize <= z.
Proof.
  intros Hz He Hb.
  assert (Hle : Int.GLsizeiptr (Int.size_t (z * elemSize)) <= z * elemSize).
  { unfold Int.GLsizeiptr, Int.signed, Int.size_t, Int.wrap in *.
    change (2 ^ (64 - 1)) with 9223372036854775808 in *.
    change (2 ^ 64) with 18446744073709551616 in *.
    rewrite Z.mod_mod in * by lia.
    assert (0 <= z * elemSize) by nia.
    pose proof (Z.mod_le (z * elemSize) 18446744073709551616 ltac:(lia) ltac:(lia)).
    destruct (Z.ltb_spec ((z * elemSize) mod 18446744073709551616)
                9223372036854775808); lia. }
  apply Z.div_le_upper_bound; [exact He |]. lia.
Qed.

Lemma pointBuffersAllocated_perform operation c c' :
  pointBuffersAllocated c -> arraysSuffice operation c ->
  perform operation c = Ok c' ->
  pointBuffersAllocated c' /\ mPointCount c' = mPointCount c.
Proof.
  intros (Hcolor & Hplane & Hbytes) Harrays E.
  destruct operation
    as [NDEBUG color startIndex n | planeId maxMaxPlaneId | | | | | |
       | n position vector lengthAdjustment color | | ];
    cbn [perform] in E;
    try (injection E as <-; split;
         [repeat split; (exact Hcolor || exact Hplane || exact Hbytes)
         | reflexivity]).
  - (* UploadShipPointColorRange *)
    cbn [arraysSuffice] in Harrays.
    unfold UploadShipPointColorRange, assert, CheckOpenGLError in E.
    destruct (NDEBUG || (Int.size_t (startIndex + n) <=? mPointCount c));
      [| discriminate].
    cbn [bind] in E.
    destruct (glBufferSubData _ _ _ _ _) as [store |] eqn:G; [| discriminate].
    cbn [bind] in E. injection E as <-.
    assert (Hb : 0 <= Int.GLsizeiptr (Int.size_t (n * sizeof_vec4f))).
    { unfold glBufferSubData in G.
      destruct (Z.ltb_spec (Int.GLsizeiptr (Int.size_t (n * sizeof_vec4f))) 0);
        [| lia].
      rewrite orb_true_r in G. discriminate. }
    apply glBufferSubData_size in G; [| reflexivity |].
    + split; [| reflexivity].
      repeat split; cbn; [now rewrite G | assumption | assumption].
    + pose proof (byte_count_div n sizeof_vec4f ltac:(lia) ltac:(reflexivity) Hb).
      lia.
  - (* UploadPointPlaneIds *)
    cbn [arraysSuffice] in Harrays.
    assert (Hpc : 0 <= mPointCount c) by (rewrite <- Hplane; apply size_nonneg).
    unfold UploadPointPlaneIds, CheckOpenGLError in E.
    destruct (glBufferSubData _ _ _ _ _) as [store |] eqn:G; [| discriminate].
    cbn [bind] in E.
    assert (Hb : 0 <= Int.GLsizeiptr (Int.size_t (mPointCount c * sizeof_PlaneId))).
    { unfold glBufferSubData in G.
      destruct (Z.ltb_spec
                  (Int.GLsizeiptr (Int.size_t (mPointCount c * sizeof_PlaneId))) 0);
        [| lia].
      rewrite orb_true_r in G. discriminate. }
    apply glBufferSubData_size in G; [| reflexivity |].
    + cbn [mMaxMaxPlaneId set_mPointPlaneIdVBO] in E.
      destruct (maxMaxPlaneId =? mMaxMaxPlaneId c); cbn [negb] in E;
        injection E as <-; (split; [| reflexivity]);
        repeat split; cbn; try assumption; now rewrite G.
    + pose proof (byte_count_div (mPointCount c) sizeof_PlaneId Hpc
                    ltac:(reflexivity) Hb).
      lia.
  - (* RenderEnd *)
    injection E as <-.
    destruct (RenderEnd_renders c) as (S & _ & _).
    assert (Ecount : mPointCount (RenderEnd c) = mPointCount c)
      by (change (mPointCount (drawInputs (RenderEnd c))
                  = mPointCount (drawInputs c)); now rewrite S).
    assert (Ecolor : mPointColorVBO (RenderEnd c) = mPointColorVBO c)
      by (change (mPointColorVBO (drawInputs (RenderEnd c))
                  = mPointColorVBO (drawInputs c)); now rewrite S).
    assert (Eplane : mPointPlaneIdVBO (RenderEnd c) = mPointPlaneIdVBO c)
      by (change (mPointPlaneIdVBO (drawInputs (RenderEnd c))
                  = mPointPlaneIdVBO (drawInputs c)); now rewrite S).
    split; [| exact Ecount].
    unfold pointBuffersAllocated. rewrite Ecount, Ecolor, Eplane.
    repeat split; assumption.
Qed.

Lemma arraysSuffice_pointCount operation c c' :
  mPointCount c' = mPointCount c ->
  arraysSuffice operation c -> arraysSuffice operation c'.
Proof.
  intros E H. destruct operation; cbn [arraysSuffice] in *; auto.
  now rewrite E.
Qed.

(** X8. The point buffers are never resized: through every sequence of
    operations that return, given caller arrays as long as the operations
    read, the colour and plane-id buffer objects keep one slot per point and
    the point count stays what it was. *)
Theorem point_buffers_never_resized
    (operations : list Operation) (c c' : ShipRenderContext) :
  pointBuffersAllocated c ->
  Forall (fun operation => arraysSuffice operation c) operations ->
  performAll operations c = Ok c' ->
  mPointCount c' = mPointCount c
  /\ size (mPointColorVBO c') = mPointCount c
  /\ size (mPointPlaneIdVBO c') = mPointCount c.
Proof.
  intros Hwf Harrays E.
  assert (H : pointBuffersAllocated c' /\ mPointCount c' = mPointCount c).
  { revert c Hwf Harrays E.
    induction operations as [| operation later IH]; intros c Hwf Harrays E.
    - cbn [performAll] in E. injection E as <-. split; [exact Hwf | reflexivity].
    - cbn [performAll] in E.
      destruct (perform operation c) as [c1 | f] eqn:E1; [| discriminate].
      cbn [bind] in E.
      inversion Harrays as [| op ops Hop Hlater]; subst.
      destruct (pointBuffersAllocated_perform operation c c1 Hwf Hop E1)
        as [Hwf1 Hcount1].
      destruct (IH c1 Hwf1) as [Hwf' Hcount']; [| exact E |].
      + eapply Forall_impl; [| exact Hlater].
        intros op. apply arraysSuffice_pointCount. exact Hcount1.
      + split; [exact Hwf' | now rewrite Hcount']. }
  destruct H as [(Hcolor & Hplane & _) Hcount].
  rewrite <- Hcount. repeat split; assumption.
Qed.

Lemma point_buffers_never_resized_witness :
  mPointCount
    (RenderEnd
       (set_mPointColorVBO
          (colorRangeReplaced [Vec4.mkvec4f 1 0 0 1; Vec4.mkvec4f 0 1 0 1] 1 2
             (mPointColorVBO scenarioShip))
          scenarioShip))
  = mPointCount scenarioShip
  /\ size
       (mPointColorVBO
          (RenderEnd
             (set_mPointColorVBO
                (colorRangeReplaced [Vec4.mkvec4f 1 0 0 1; Vec4.mkvec4f 0 1 0 1]
                   1 2 (mPointColorVBO scenarioShip))
                scenarioShip)))
     = mPointCount scenarioShip
  /\ size
       (mPointPlaneIdVBO
          (RenderEnd
             (set_mPointColorVBO
                (colorRangeReplaced [Vec4.mkvec4f 1 0 0 1; Vec4.mkvec4f 0 1 0 1]
                   1 2 (mPointColorVBO scenarioShip))
                scenarioShip)))
     = mPointCount scenarioShip.
Proof.
  apply (point_buffers_never_resized
           [DoUploadShipPointColorRange false
              [Vec4.mkvec4f 1 0 0 1; Vec4.mkvec4f 0 1 0 1] 1 2;
            DoRenderEnd]
           scenarioShip).
  - exact scenarioShip_pointBuffersAllocated.
  - repeat constructor; discriminate.
  - cbn [performAll perform].
    rewrite UploadShipPointColorRange_in_range.
    + reflexivity.
    + exact scenarioShip_pointBuffersAllocated.
    + discriminate.
    + discriminate.
    + discriminate.
Defined.

(** *** Laws of the partial colour upload *)

Lemma set_mPointColorVBO_same c : set_mPointColorVBO (mPointColorVBO c) c = c.
Proof.
  destruct c. reflexivity.
Qed.

Lemma colorRangeReplaced_nothing color startIndex store :
  colorRangeReplaced color startIndex 0 store = store.
Proof.
  unfold colorRangeReplaced. cbn [Z.to_nat firstn app].
  rewrite Nat.add_0_r. apply firstn_skipn.
Qed.

(** X9. Uploading an empty colour range is a successful no-op: for every
    [startIndex] up to the point count, [UploadShipPointColorRange] with
    [count = 0] returns the context unchanged, in a debug and in a release
    build. *)
Theorem UploadShipPointColorRange_empty_range
    (NDEBUG : bool) (color : list vec4f) (startIndex : Z)
    (c : ShipRenderContext) :
  pointBuffersAllocated c ->
  0 <= startIndex <= mPointCount c ->
  UploadShipPointColorRange NDEBUG color startIndex 0 c = Ok c.
Proof.
  intros Hwf Hs.
  rewrite UploadShipPointColorRange_in_range by (try assumption; lia).
  now rewrite colorRangeReplaced_nothing, set_mPointColorVBO_same.
Qed.

Lemma UploadShipPointColorRange_empty_range_witness :
  UploadShipPointColorRange false [] 4 0 scenarioShip = Ok scenarioShip.
Proof.
  apply (UploadShipPointColorRange_empty_range false [] 4 scenarioShip).
  - exact scenarioShip_pointBuffersAllocated.
  - split; discriminate.
Defined.

Lemma set_mPointColorVBO_twice a b c :
  set_mPointColorVBO a (set_mPointColorVBO b c) = set_mPointColorVBO a c.
Proof.
  reflexivity.
Qed.

Lemma pointBuffersAllocated_colorRangeReplaced color startIndex count c :
  pointBuffersAllocated c ->
  0 <= startIndex -> 0 <= count <= size color ->
  startIndex + count <= mPointCount c ->
  pointBuffersAllocated
    (set_mPointColorVBO
       (colorRangeReplaced color startIndex count (mPointColorVBO c)) c).
Proof.
  intros (Hcolor & Hplane & Hbytes) Hs Hc Hfit.
  repeat split; try assumption.
  cbn [mPointColorVBO set_mPointColorVBO mPointCount].
  rewrite <- Hcolor.
  apply colorRangeReplaced_spec; rewrite ?Hcolor; lia.
Qed.

(** Two uploads one after the other, read back slot by slot: the later
    range wins where it reaches, the earlier one where only it reaches. *)
Lemma colorRangeReplaced_twice color1 s1 n1 color2 s2 n2 store (i : nat) d :
  0 <= s1 -> 0 <= n1 <= size color1 -> s1 + n1 <= size store ->
  0 <= s2 -> 0 <= n2 <= size color2 -> s2 + n2 <= size store ->
  nth i (colorRangeReplaced color2 s2 n2 (colorRangeReplaced color1 s1 n1 store)) d
  = if (s2 <=? Z.of_nat i) && (Z.of_nat i <? s2 + n2)
    then nth (i - Z.to_nat s2) color2 d
    else if (s1 <=? Z.of_nat i) && (Z.of_nat i <? s1 + n1)
    then nth (i - Z.to_nat s1) color1 d
    else nth i store d.
Proof.
  intros Hs1 Hn1 Hfit1 Hs2 Hn2 Hfit2.
  destruct (colorRangeReplaced_spec color1 s1 n1 store) as (L1 & In1 & Out1);
    try lia.
  destruct (colorRangeReplaced_spec color2 s2 n2
              (colorRangeReplaced color1 s1 n1 store)) as (L2 & In2 & Out2);
    try lia.
  destruct (Z.leb_spec s2 (Z.of_nat i)) as [A | A];
    destruct (Z.ltb_spec (Z.of_nat i) (s2 + n2)) as [B | B]; cbn [andb].
  1: now apply In2.
  all: rewrite Out2 by lia.
  all: destruct (Z.leb_spec s1 (Z.of_nat i)) as [A1 | A1];
    destruct (Z.ltb_spec (Z.of_nat i) (s1 + n1)) as [B1 | B1]; cbn [andb].
  all: try (apply In1; lia).
  all: apply Out1; lia.
Qed.

Lemma size_colorRangeReplaced color startIndex count store :
  0 <= startIndex -> 0 <= count <= size color ->
  startIndex + count <= size store ->
  size (colorRangeReplaced color startIndex count store) = size store.
Proof.
  intros. apply colorRangeReplaced_spec; lia.
Qed.

Lemma size_eq_length {A B : Type} (l : list A) (l' : list B) :
  size l = size l' -> length l = length l'.
Proof.
  unfold size. lia.
Qed.

(** X10. Colour uploads to disjoint ranges commute: when both ranges lie
    within the point count and do not overlap, uploading them in either
    order returns the same context. *)
Theorem UploadShipPointColorRange_disjoint_ranges_commute
    (NDEBUG : bool) (color1 color2 : list vec4f) (start1 count1 start2 count2 : Z)
    (c : ShipRenderContext) :
  pointBuffersAllocated c ->
  0 <= start1 -> 0 <= count1 <= size color1 ->
  start1 + count1 <= start2 -> 0 <= count2 <= size color2 ->
  start2 + count2 <= mPointCount c ->
  (do c1 <- UploadShipPointColorRange NDEBUG color1 start1 count1 c;
   UploadShipPointColorRange NDEBUG color2 start2 count2 c1)
  = (do c2 <- UploadShipPointColorRange NDEBUG color2 start2 count2 c;
     UploadShipPointColorRange NDEBUG color1 start1 count1 c2).
Proof.
  intros Hwf Hs1 Hn1 Hdisjoint Hn2 Hfit.
  pose proof Hwf as (Hcolor & _).
  rewrite (UploadShipPointColorRange_in_range NDEBUG color1 start1 count1 c)
    by (try assumption; lia).
  rewrite (UploadShipPointColorRange_in_range NDEBUG color2 start2 count2 c)
    by (try assumption; lia).
  cbn [bind].
  rewrite !UploadShipPointColorRange_in_range
    by (try apply pointBuffersAllocated_colorRangeReplaced;
        try assumption; cbn [mPointCount set_mPointColorVBO]; lia).
  cbn [mPointColorVBO set_mPointColorVBO].
  rewrite !set_mPointColorVBO_twice. do 2 f_equal.
  apply (nth_ext _ _ (Vec4.mkvec4f 0 0 0 0) (Vec4.mkvec4f 0 0 0 0)).
  - apply size_eq_length.
    rewrite !size_colorRangeReplaced;
      rewrite ?size_colorRangeReplaced; try reflexivity; lia.
  - intros i _.
    rewrite !colorRangeReplaced_twice by lia.
    destruct (Z.leb_spec start2 (Z.of_nat i));
      destruct (Z.ltb_spec (Z.of_nat i) (start2 + count2));
      destruct (Z.leb_spec start1 (Z.of_nat i));
      destruct (Z.ltb_spec (Z.of_nat i) (start1 + count1));
      cbn [andb]; try reflexivity; lia.
Qed.

Lemma UploadShipPointColorRange_disjoint_ranges_commute_witness :
  (do c1 <- UploadShipPointColorRange false [Vec4.mkvec4f 1 0 0 1] 0 1 scenarioShip;
   UploadShipPointColorRange false
     [Vec4.mkvec4f 0 1 0 1; Vec4.mkvec4f 0 0 1 1] 2 2 c1)
  = (do c2 <- UploadShipPointColorRange false
                [Vec4.mkvec4f 0 1 0 1; Vec4.mkvec4f 0 0 1 1] 2 2 scenarioShip;
     UploadShipPointColorRange false [Vec4.mkvec4f 1 0 0 1] 0 1 c2).
Proof.
  apply (UploadShipPointColorRange_disjoint_ranges_commute false
           [Vec4.mkvec4f 1 0 0 1] [Vec4.mkvec4f 0 1 0 1; Vec4.mkvec4f 0 0 1 1]
           0 1 2 2 scenarioShip).
  - exact scenarioShip_pointBuffersAllocated.
  - discriminate.
  - split; discriminate.
  - discriminate.
  - split; discriminate.
  - discriminate.
Defined.

(** X11. The last colour upload wins: an upload whose range covers the
    range of an earlier upload leaves the context as if the earlier upload
    had never happened. *)
Theorem UploadShipPointColorRange_covering_upload_wins
    (NDEBUG : bool) (color1 color2 : list vec4f) (start1 count1 start2 count2 : Z)
    (c : ShipRenderContext) :
  pointBuffersAllocated c ->
  0 <= start2 -> start2 <= start1 -> 0 <= count1 <= size color1 ->
  start1 + count1 <= start2 + count2 -> count2 <= size color2 ->
  start2 + count2 <= mPointCount c ->
  (do c1 <- UploadShipPointColorRange NDEBUG color1 start1 count1 c;
   UploadShipPointColorRange NDEBUG color2 start2 count2 c1)
  = UploadShipPointColorRange NDEBUG color2 start2 count2 c.
Proof.
  intros Hwf Hs2 Hs1 Hn1 Hcover Hn2 Hfit.
  pose proof Hwf as (Hcolor & _).
  rewrite (UploadShipPointColorRange_in_range NDEBUG color1 start1 count1 c)
    by (try assumption; lia).
  rewrite (UploadShipPointColorRange_in_range NDEBUG color2 start2 count2 c)
    by (try assumption; lia).
  cbn [bind].
  rewrite !UploadShipPointColorRange_in_range
    by (try apply pointBuffersAllocated_colorRangeReplaced;
        try assumption; cbn [mPointCount set_mPointColorVBO]; lia).
  cbn [mPointColorVBO set_mPointColorVBO].
  rewrite !set_mPointColorVBO_twice. do 2 f_equal.
  apply (nth_ext _ _ (Vec4.mkvec4f 0 0 0 0) (Vec4.mkvec4f 0 0 0 0)).
  - apply size_eq_length.
    rewrite !size_colorRangeReplaced;
      rewrite ?size_colorRangeReplaced; try reflexivity; lia.
  - intros i _.
    rewrite colorRangeReplaced_twice by lia.
    destruct (colorRangeReplaced_spec color2 start2 count2 (mPointColorVBO c))
      as (_ & In2 & Out2); try lia.
    destruct (Z.leb_spec start2 (Z.of_nat i));
      destruct (Z.ltb_spec (Z.of_nat i) (start2 + count2));
      destruct (Z.leb_spec start1 (Z.of_nat i));
      destruct (Z.ltb_spec (Z.of_nat i) (start1 + count1));
      cbn [andb]; try lia;
      solve [ symmetry; apply In2; lia | symmetry; apply Out2; lia ].
Qed.

Lemma UploadShipPointColorRange_covering_upload_wins_witness :
  (do c1 <- UploadShipPointColorRange false [Vec4.mkvec4f 1 0 0 1] 2 1 scenarioShip;
   UploadShipPointColorRange false
     [Vec4.mkvec4f 0 1 0 1; Vec4.mkvec4f 0 0 1 1; Vec4.mkvec4f 1 1 1 1] 1 3 c1)
  = UploadShipPointColorRange false
      [Vec4.mkvec4f 0 1 0 1; Vec4.mkvec4f 0 0 1 1; Vec4.mkvec4f 1 1 1 1] 1 3
      scenarioShip.
Proof.
  apply (UploadShipPointColorRange_covering_upload_wins false
           [Vec4.mkvec4f 1 0 0 1]
           [Vec4.mkvec4f 0 1 0 1; Vec4.mkvec4f 0 0 1 1; Vec4.mkvec4f 1 1 1 1]
           2 1 1 3 scenarioShip).
  - exact scenarioShip_pointBuffersAllocated.
  - discriminate.
  - discriminate.
  - split; discriminate.
  - discriminate.
  - discriminate.
  - discriminate.
Defined.

(** X12. How an out-of-range colour upload fails: when the range ends
    beyond the point count (offset and size being representable byte
    counts), a debug build stops at the assertion, before OpenGL is called,
    and a release build fails on the error OpenGL flags. *)
Theorem UploadShipPointColorRange_failure_kinds
    (color : list vec4f) (startIndex count : Z) (c : ShipRenderContext) :
  pointBuffersAllocated c ->
  0 <= startIndex -> 0 <= count ->
  startIndex * sizeof_vec4f <= Int.PTRDIFF_MAX ->
  count * sizeof_vec4f <= Int.PTRDIFF_MAX ->
  mPointCount c < startIndex + count ->
  UploadShipPointColorRange false color startIndex count c = Fail AssertionFailed
  /\ UploadShipPointColorRange true color startIndex count c = Fail OpenGLError.
Proof.
  intros (Hcolor & _ & Hbytes) Hs Hc Hstart Hobj Hout.
  unfold sizeof_vec4f, Int.PTRDIFF_MAX in *.
  change (2 ^ 63) with 9223372036854775808 in *.
  unfold UploadShipPointColorRange, assert, sizeof_vec4f.
  rewrite size_t_small
    by (change (2 ^ 64) with 18446744073709551616; lia).
  destruct (Z.leb_spec (startIndex + count) (mPointCount c)) as [L | _]; [lia |].
  split; [reflexivity |].
  cbn [orb bind]. unfold Int.GLintptr.
  fold (Int.GLsizeiptr (Int.size_t (startIndex * 16))).
  rewrite !byte_count_small
    by (unfold Int.PTRDIFF_MAX; change (2 ^ 63) with 9223372036854775808; lia).
  unfold glBufferSubData. rewrite Hcolor.
  destruct (Z.ltb_spec (startIndex * 16) 0) as [L | _]; [lia |].
  destruct (Z.ltb_spec (count * 16) 0) as [L | _]; [lia |].
  destruct (Z.ltb_spec (16 * mPointCount c) (startIndex * 16 + count * 16))
    as [_ | L]; [| lia].
  reflexivity.
Qed.

Lemma UploadShipPointColorRange_failure_kinds_witness :
  UploadShipPointColorRange false [opaqueBlack; opaqueBlack] 3 2 scenarioShip
  = Fail AssertionFailed
  /\ UploadShipPointColorRange true [opaqueBlack; opaqueBlack] 3 2 scenarioShip
     = Fail OpenGLError.
Proof.
  apply (UploadShipPointColorRange_failure_kinds [opaqueBlack; opaqueBlack] 3 2
           scenarioShip).
  - exact scenarioShip_pointBuffersAllocated.
  - discriminate.
  - discriminate.
  - discriminate.
  - discriminate.
  - reflexivity.
Defined.

(** *** Laws of the plane-id upload *)

Lemma planeIdsUploaded_fields planeId maxMaxPlaneId c :
  mPointCount (planeIdsUploaded planeId maxMaxPlaneId c) = mPointCount c
  /\ mPointPlaneIdVBO (planeIdsUploaded planeId maxMaxPlaneId c)
     = firstn (Z.to_nat (mPointCount c)) planeId
       ++ skipn (Z.to_nat (mPointCount c)) (mPointPlaneIdVBO c)
  /\ mPointColorVBO (planeIdsUploaded planeId maxMaxPlaneId c)
     = mPointColorVBO c.
Proof.
  unfold planeIdsUploaded. simpl.
  destruct (maxMaxPlaneId =? mMaxMaxPlaneId c); repeat split; reflexivity.
Qed.

Lemma set_mPointPlaneIdVBO_same c :
  set_mPointPlaneIdVBO (mPointPlaneIdVBO c) c = c.
Proof.
  destruct c. reflexivity.
Qed.

Lemma skipn_size_nil {A : Type} (l : list A) n :
  size l = n -> skipn (Z.to_nat n) l = [].
Proof.
  unfold size. intros <-. rewrite Nat2Z.id. apply skipn_all.
Qed.

(** X13. A plane-id upload replaces every plane id and nothing else in the
    point buffers: afterwards the plane-id buffer holds exactly the first
    [mPointCount] entries of the supplied array, and the colour buffer is
    what it was. *)
Theorem UploadPointPlaneIds_replaces_every_plane_id
    (planeId : list PlaneId) (maxMaxPlaneId : PlaneId)
    (c : ShipRenderContext) :
  pointBuffersAllocated c ->
  exists c',
    UploadPointPlaneIds planeId maxMaxPlaneId c = Ok c'
    /\ mPointPlaneIdVBO c' = firstn (Z.to_nat (mPointCount c)) planeId
    /\ mPointColorVBO c' = mPointColorVBO c.
Proof.
  intros Hwf. exists (planeIdsUploaded planeId maxMaxPlaneId c).
  split; [now apply UploadPointPlaneIds_ok |].
  destruct (planeIdsUploaded_fields planeId maxMaxPlaneId c) as (_ & -> & ->).
  destruct Hwf as (_ & Hplane & _).
  rewrite (skipn_size_nil _ _ Hplane), app_nil_r. split; reflexivity.
Qed.

Lemma UploadPointPlaneIds_replaces_every_plane_id_witness :
  exists c',
    UploadPointPlaneIds [0; 1; 5; 2; 7] 5 scenarioShip = Ok c'
    /\ mPointPlaneIdVBO c'
       = firstn (Z.to_nat (mPointCount scenarioShip)) [0; 1; 5; 2; 7]
    /\ mPointColorVBO c' = mPointColorVBO scenarioShip.
Proof.
  apply (UploadPointPlaneIds_replaces_every_plane_id [0; 1; 5; 2; 7] 5
           scenarioShip).
  exact scenarioShip_pointBuffersAllocated.
Defined.

Lemma planeIdsUploaded_again planeId maxMaxPlaneId c :
  size (mPointPlaneIdVBO c) = mPointCount c ->
  mPointCount c <= size planeId ->
  planeIdsUploaded planeId maxMaxPlaneId
    (planeIdsUploaded planeId maxMaxPlaneId c)
  = planeIdsUploaded planeId maxMaxPlaneId c.
Proof.
  intros Hplane Hlen.
  destruct (planeIdsUploaded_fields planeId maxMaxPlaneId c) as (Hcount & Hstore & _).
  pose proof (planeIdsUploaded_stored planeId maxMaxPlaneId c) as Hmax.
  remember (planeIdsUploaded planeId maxMaxPlaneId c) as c' eqn:Ec'.
  unfold planeIdsUploaded.
  cbn [mMaxMaxPlaneId set_mPointPlaneIdVBO].
  rewrite Hmax, Z.eqb_refl, Hcount.
  replace (firstn (Z.to_nat (mPointCount c)) planeId
           ++ skipn (Z.to_nat (mPointCount c)) (mPointPlaneIdVBO c'))
    with (mPointPlaneIdVBO c').
  - apply set_mPointPlaneIdVBO_same.
  - rewrite Hstore at 1. f_equal.
    rewrite Hstore, (skipn_size_nil _ _ Hplane), app_nil_r.
    symmetry. apply skipn_size_nil.
    unfold size in *. rewrite length_firstn. lia.
Qed.

(** X14. Repeating a plane-id upload changes nothing: after an upload that
    returned, the same upload again returns the very same context, so it
    sets no ortho matrix and issues no other OpenGL call. *)
Theorem UploadPointPlaneIds_repeated_upload_is_no_op
    (planeId : list PlaneId) (maxMaxPlaneId : PlaneId)
    (c c' : ShipRenderContext) :
  pointBuffersAllocated c ->
  mPointCount c <= size planeId ->
  UploadPointPlaneIds planeId maxMaxPlaneId c = Ok c' ->
  UploadPointPlaneIds planeId maxMaxPlaneId c' = Ok c'.
Proof.
  intros Hwf Hlen E.
  rewrite UploadPointPlaneIds_ok in E by assumption. injection E as <-.
  rewrite UploadPointPlaneIds_ok
    by now apply planeIdsUploaded_allocated.
  f_equal. apply planeIdsUploaded_again; [apply Hwf | exact Hlen].
Qed.

Lemma UploadPointPlaneIds_repeated_upload_is_no_op_witness :
  UploadPointPlaneIds [0; 1; 5; 2] 5
    (planeIdsUploaded [0; 1; 5; 2] 5 scenarioShip)
  = Ok (planeIdsUploaded [0; 1; 5; 2] 5 scenarioShip).
Proof.
  apply (UploadPointPlaneIds_repeated_upload_is_no_op [0; 1; 5; 2] 5
           scenarioShip).
  - exact scenarioShip_pointBuffersAllocated.
  - discriminate.
  - apply UploadPointPlaneIds_ok. exact scenarioShip_pointBuffersAllocated.
Defined.

(** *** Vectors: from the upload to the draw *)

Lemma size_vectorArrowBuffer count position vector lengthAdjustment color c :
  0 <= count ->
  size (mVectorArrowPointPositionBuffer
          (UploadVectors count position vector lengthAdjustment color c))
  = 6 * count.
Proof.
  intro Hcount.
  change (mVectorArrowPointPositionBuffer
            (UploadVectors count position vector lengthAdjustment color c))
    with (vectorArrowBuffer count position vector lengthAdjustment color c).
  rewrite vectorArrowBuffer_flat_map. unfold size.
  rewrite length_flat_map_six by (intro; reflexivity). lia.
Qed.

Lemma renderEndCalls_UploadVectors count position vector lengthAdjustment color c :
  renderEndCalls (UploadVectors count position vector lengthAdjustment color c)
  = beforeGenericTexturesCalls c
    ++ genericTextureCalls (mGenericTextureConnectedComponents c)
         (mGenericTextureAllocatedVertexBufferSize c)
         (mGenericTextureMaxVertexBufferSize c)
    ++ (if VectorFieldRenderMode.eqb (mVectorFieldRenderMode c)
             VectorFieldRenderMode.None
        then []
        else [glDrawArrays ProgramType.ShipVectors GL_LINES
                mVectorArrowPointPositionVBO
                (Int.GLsizei
                   (size (mVectorArrowPointPositionBuffer
                            (UploadVectors count position vector
                               lengthAdjustment color c))))]).
Proof.
  reflexivity.
Qed.

(** X15. An upload of vectors changes only the last call of the frame: with
    the vector field off, [RenderEnd] after [UploadVectors] issues the calls
    it would have issued without the upload; with it on, the calls are the
    same but for the final one, which draws six vertices per uploaded
    vector. *)
Theorem RenderEnd_after_UploadVectors
    (count : Z) (position vector : list vec2f) (lengthAdjustment : R)
    (color : vec4f) (c : ShipRenderContext) :
  0 <= count -> 6 * count < 2 ^ 31 ->
  issued RenderEnd (UploadVectors count position vector lengthAdjustment color c)
  = if VectorFieldRenderMode.eqb (mVectorFieldRenderMode c)
         VectorFieldRenderMode.None
    then issued RenderEnd c
    else removelast (issued RenderEnd c)
         ++ [glDrawArrays ProgramType.ShipVectors GL_LINES
               mVectorArrowPointPositionVBO (6 * count)].
Proof.
  intros Hcount Hsmall.
  rewrite !issued_RenderEnd, renderEndCalls_UploadVectors.
  rewrite size_vectorArrowBuffer by assumption.
  rewrite GLsizei_small by lia.
  unfold renderEndCalls, vectorsCalls.
  destruct (VectorFieldRenderMode.eqb (mVectorFieldRenderMode c)
              VectorFieldRenderMode.None); [reflexivity |].
  rewrite !app_assoc, removelast_last. reflexivity.
Qed.

Lemma RenderEnd_after_UploadVectors_witness :
  issued RenderEnd
    (UploadVectors 2 [mkvec2f 0 0; mkvec2f 1 1] [mkvec2f 1 0; mkvec2f 0 2] 1
       opaqueBlack scenarioShip)
  = if VectorFieldRenderMode.eqb (mVectorFieldRenderMode scenarioShip)
         VectorFieldRenderMode.None
    then issued RenderEnd scenarioShip
    else removelast (issued RenderEnd scenarioShip)
         ++ [glDrawArrays ProgramType.ShipVectors GL_LINES
               mVectorArrowPointPositionVBO (6 * 2)].
Proof.
  apply (RenderEnd_after_UploadVectors 2 [mkvec2f 0 0; mkvec2f 1 1]
           [mkvec2f 1 0; mkvec2f 0 2] 1 opaqueBlack scenarioShip).
  - discriminate.
  - reflexivity.
Defined.

(** *** The shape of an arrowhead *)

Lemma CosAlphaLeftRight_PI4 : CosAlphaLeftRight = cos (PI / 4).
Proof.
  unfold CosAlphaLeftRight.
  replace (-2 * PI / 8)%R with (- (PI / 4))%R by lra.
  apply cos_neg.
Qed.

Lemma SinAlphaLeft_PI4 : SinAlphaLeft = (- cos (PI / 4))%R.
Proof.
  unfold SinAlphaLeft.
  replace (-2 * PI / 8)%R with (- (PI / 4))%R by lra.
  rewrite sin_neg, sin_PI4, cos_PI4. reflexivity.
Qed.

Lemma length_rotated_left v :
  vec2.length (mkvec2f (- vec2.dot v XMatrixLeft) (- vec2.dot v YMatrixLeft))
  = vec2.length v.
Proof.
  unfold vec2.length. now rewrite squareLength_rotated_left.
Qed.

Lemma length_rotated_right v :
  vec2.length (mkvec2f (- vec2.dot v XMatrixRight) (- vec2.dot v YMatrixRight))
  = vec2.length v.
Proof.
  unfold vec2.length. now rewrite squareLength_rotated_right.
Qed.

Lemma length_squared v :
  (vec2.length v * vec2.length v = x v * x v + y v * y v)%R.
Proof.
  unfold vec2.length. apply sqrt_sqrt.
  unfold vec2.squareLength. nra.
Qed.

Lemma length_pos v : v <> vec2.zero -> (0 < vec2.length v)%R.
Proof.
  intro Hne. unfold vec2.length. apply sqrt_lt_R0. now apply squareLength_pos.
Qed.

(** X16. The shape of an arrowhead, in exact arithmetic: for a vector that
    is not zero, the two strokes [UploadVectors] adds at the tip have unit
    directions that each make an angle of 45 degrees with the reversed stem
    (their dot product with the vector is [- cos (PI / 4)] times its length)
    and that are perpendicular to each other, so that they lie on opposite
    sides of the stem. *)
Theorem arrowhead_strokes_at_45_degrees (v : vec2f) :
  v <> vec2.zero ->
  vec2.length (leftDir v) = 1%R
  /\ vec2.length (rightDir v) = 1%R
  /\ vec2.dot (leftDir v) v = (- cos (PI / 4) * vec2.length v)%R
  /\ vec2.dot (rightDir v) v = (- cos (PI / 4) * vec2.length v)%R
  /\ vec2.dot (leftDir v) (rightDir v) = 0%R.
Proof.
  intro Hne.
  pose proof (length_pos v Hne) as HL.
  pose proof (length_squared v) as HLL.
  split; [now apply length_leftDir |].
  split; [now apply length_rightDir |].
  unfold leftDir, rightDir, vec2.normalise.
  rewrite length_rotated_left, length_rotated_right.
  unfold vec2.div, vec2.dot, XMatrixLeft, YMatrixLeft, XMatrixRight,
    YMatrixRight, SinAlphaRight.
  cbn [x y].
  rewrite CosAlphaLeftRight_PI4, SinAlphaLeft_PI4.
  set (k := cos (PI / 4)) in *. set (L := vec2.length v) in *.
  repeat split.
  - replace (- (x v * k + y v * - k) / L * x v
             + - (x v * - - k + y v * k) / L * y v)%R
      with (- k * (x v * x v + y v * y v) / L)%R by (field; lra).
    rewrite <- HLL. field. lra.
  - replace (- (x v * k + y v * - - k) / L * x v
             + - (x v * - - - k + y v * k) / L * y v)%R
      with (- k * (x v * x v + y v * y v) / L)%R by (field; lra).
    rewrite <- HLL. field. lra.
  - field. lra.
Qed.

Lemma arrowhead_strokes_at_45_degrees_witness :
  vec2.length (leftDir (mkvec2f 1 0)) = 1%R
  /\ vec2.length (rightDir (mkvec2f 1 0)) = 1%R
  /\ vec2.dot (leftDir (mkvec2f 1 0)) (mkvec2f 1 0)
     = (- cos (PI / 4) * vec2.length (mkvec2f 1 0))%R
  /\ vec2.dot (rightDir (mkvec2f 1 0)) (mkvec2f 1 0)
     = (- cos (PI / 4) * vec2.length (mkvec2f 1 0))%R
  /\ vec2.dot (leftDir (mkvec2f 1 0)) (rightDir (mkvec2f 1 0)) = 0%R.
Proof.
  apply (arrowhead_strokes_at_45_degrees (mkvec2f 1 0)).
  unfold vec2.zero. intro E. injection E as E. lra.
Defined.

(** *** Element streams and the frame *)

Lemma drawsFrom_app buffer calls calls' :
  drawsFrom buffer (calls ++ calls')
  = drawsFrom buffer calls ++ drawsFrom buffer calls'.
Proof.
  unfold drawsFrom. now rewrite filter_app, map_app.
Qed.

Lemma drawsFrom_genericTextureCalls buffer components : forall allocated peak,
  VBO_eqb mGenericTextureRenderPolygonVertexVBO buffer = false ->
  drawsFrom buffer (genericTextureCalls components allocated peak) = [].
Proof.
  induction components as [| component rest IH]; intros allocated peak Hother;
    [reflexivity |].
  cbn [genericTextureCalls].
  destruct (empty (VertexBuffer component)); [now apply IH |].
  rewrite drawsFrom_app. unfold drawsFrom at 2.
  cbn [filter readsFrom]. rewrite Hother.
  fold (drawsFrom buffer (genericTextureCalls rest peak peak)).
  rewrite IH by assumption.
  destruct (allocated =? peak); reflexivity.
Qed.

Lemma drawsFrom_vectorsCalls buffer c :
  VBO_eqb mVectorArrowPointPositionVBO buffer = false ->
  drawsFrom buffer (vectorsCalls c) = [].
Proof.
  intro Hother. unfold vectorsCalls, drawsFrom.
  destruct (VectorFieldRenderMode.eqb (mVectorFieldRenderMode c)
              VectorFieldRenderMode.None); [reflexivity |].
  cbn [filter readsFrom]. now rewrite Hother.
Qed.

Lemma drawsFrom_renderEndCalls buffer c :
  VBO_eqb mGenericTextureRenderPolygonVertexVBO buffer = false ->
  VBO_eqb mVectorArrowPointPositionVBO buffer = false ->
  drawsFrom buffer (renderEndCalls c)
  = drawsFrom buffer (beforeGenericTexturesCalls c).
Proof.
  intros Hgeneric Hvectors. unfold renderEndCalls.
  rewrite !drawsFrom_app, drawsFrom_genericTextureCalls, drawsFrom_vectorsCalls
    by assumption.
  now rewrite app_nil_r.
Qed.

Lemma beforeGenericTexturesCalls_after_element_upload c :
  beforeGenericTexturesCalls (UploadElementsEnd (UploadElementsStart c))
  = (if debugIs DebugShipRenderMode.Points c
     then [glDrawElements ProgramType.ShipPointsColor GL_POINTS mPointElementVBO 0]
     else [])
    ++ (if drawsTriangles c
        then [glDrawElements (trianglesProgram (isTexture c)) GL_TRIANGLES
                mTriangleElementVBO 0]
        else [])
    ++ (if negb (debugIs DebugShipRenderMode.None c) || negb (isStructure c)
        then [glDrawElements ProgramType.ShipRopes GL_LINES mRopeElementVBO 0]
        else [])
    ++ (if drawsSprings c
        then [glDrawElements
                (trianglesProgram (debugIs DebugShipRenderMode.None c && isTexture c))
                GL_LINES mSpringElementVBO 0]
        else [])
    ++ (if debugIs DebugShipRenderMode.None c && isStructure c
        then [glDrawElements ProgramType.ShipRopes GL_LINES mRopeElementVBO 0]
        else [])
    ++ []
    ++ (if empty (mEphemeralPoints c) then []
        else [glDrawElements ProgramType.ShipPointsColor GL_POINTS
                mEphemeralPointVBO (Int.GLsizei (size (mEphemeralPoints c)))]).
Proof.
  unfold beforeGenericTexturesCalls.
  replace (debugIs DebugShipRenderMode.None (UploadElementsEnd (UploadElementsStart c))
           && mShowStressedSprings (UploadElementsEnd (UploadElementsStart c))
           && negb (empty (mStressedSpringElementBuffer
                             (UploadElementsEnd (UploadElementsStart c)))))
    with false
    by (cbn [UploadElementsEnd UploadElementsStart mStressedSpringElementBuffer
             emit set_glCalls set_mStressedSpringElementBuffer empty negb];
        now rewrite andb_false_r).
  reflexivity.
Qed.

(** X17. [UploadElementsStart] empties all five element streams, the
    stressed springs among them, and [UploadElementsEnd] uploads four, not
    the stressed springs.  So after the pair with nothing added in between,
    the four uploads are empty, and the next [RenderEnd] draws no stressed
    spring whatever the toggle, draws ropes exactly once with count zero,
    and draws points, springs and triangles with count zero if at all. *)
Theorem RenderEnd_after_empty_element_upload (c : ShipRenderContext) :
  let c' := UploadElementsEnd (UploadElementsStart c) in
  issued UploadElementsEnd (UploadElementsStart c)
  = [glBufferData mPointElementVBO 0; glBufferData mSpringElementVBO 0;
     glBufferData mRopeElementVBO 0; glBufferData mTriangleElementVBO 0]
  /\ drawsFrom mStressedSpringElementVBO (issued RenderEnd c') = []
  /\ drawsFrom mRopeElementVBO (issued RenderEnd c') = [0]
  /\ Forall (eq 0) (drawsFrom mPointElementVBO (issued RenderEnd c'))
  /\ Forall (eq 0) (drawsFrom mSpringElementVBO (issued RenderEnd c'))
  /\ Forall (eq 0) (drawsFrom mTriangleElementVBO (issued RenderEnd c')).
Proof.
  cbv zeta. split.
  { unfold issued. apply issuedBetween_app.
    unfold UploadElementsEnd, UploadElementsStart, emit. cbn.
    now rewrite <- !app_assoc. }
  rewrite !issued_RenderEnd.
  rewrite !drawsFrom_renderEndCalls by reflexivity.
  rewrite beforeGenericTexturesCalls_after_element_upload.
  unfold drawsTriangles, drawsSprings.
  destruct (debugIs DebugShipRenderMode.Points c),
    (debugIs DebugShipRenderMode.Wireframe c),
    (debugIs DebugShipRenderMode.Springs c),
    (debugIs DebugShipRenderMode.EdgeSprings c),
    (debugIs DebugShipRenderMode.None c), (isStructure c), (isTexture c),
    (empty (mEphemeralPoints c));
    cbn; repeat split; repeat constructor.
Qed.

(** *** A frame without generic textures *)

Lemma components_RenderStart c :
  mGenericTextureConnectedComponents (RenderStart c)
  = repeat (mkGenericTextureConnectedComponentData [])
      (Z.to_nat (Int.uint32_t (mMaxMaxPlaneId c + 1000))).
Proof.
  unfold RenderStart, resize.
  cbn [mGenericTextureConnectedComponents set_mGenericTextureConnectedComponents
       set_mGenericTextureMaxVertexBufferSize mMaxMaxPlaneId length].
  rewrite firstn_nil, Nat.sub_0_r. cbn [app].
  rewrite size_t_small; [reflexivity |].
  unfold Int.uint32_t, Int.wrap.
  pose proof (Z.mod_pos_bound (mMaxMaxPlaneId c + 1000) (2 ^ 32) ltac:(lia)).
  change (2 ^ 32) with 4294967296 in *.
  change (2 ^ 64) with 18446744073709551616. lia.
Qed.

Lemma existsb_hasVertices_repeat_empty n :
  existsb hasVertices (repeat (mkGenericTextureConnectedComponentData []) n)
  = false.
Proof.
  induction n as [| n IH]; [reflexivity | exact IH].
Qed.

(** X18. A frame without generic textures: [RenderStart] leaves
    [(mMaxMaxPlaneId + 1000) mod 2^32] components, all without vertices,
    and a peak size of zero, whatever the previous frame left; if
    [RenderEnd] follows with no upload in between, it draws no generic
    texture, allocates no buffer, and keeps the allocated size of the
    generic-texture store. *)
Theorem RenderEnd_after_RenderStart (c : ShipRenderContext) :
  let c' := RenderStart c in
  size (mGenericTextureConnectedComponents c')
  = (mMaxMaxPlaneId c + 1000) mod 2 ^ 32
  /\ Forall (fun component => VertexBuffer component = [])
       (mGenericTextureConnectedComponents c')
  /\ mGenericTextureMaxVertexBufferSize c' = 0
  /\ drawsFrom mGenericTextureRenderPolygonVertexVBO (issued RenderEnd c') = []
  /\ filter isBufferDataCall (issued RenderEnd c') = []
  /\ mGenericTextureAllocatedVertexBufferSize (RenderEnd c')
     = mGenericTextureAllocatedVertexBufferSize c.
Proof.
  cbv zeta.
  pose proof (components_RenderStart c) as Hcomponents.
  assert (Hnone : existsb hasVertices
                    (mGenericTextureConnectedComponents (RenderStart c)) = false)
    by (rewrite Hcomponents; apply existsb_hasVertices_repeat_empty).
  split; [| split; [| split; [| split; [| split]]]].
  - rewrite Hcomponents. unfold size. rewrite repeat_length.
    unfold Int.uint32_t, Int.wrap.
    pose proof (Z.mod_pos_bound (mMaxMaxPlaneId c + 1000) (2 ^ 32) ltac:(lia)).
    lia.
  - rewrite Hcomponents. apply Forall_forall. intros component Hin.
    apply repeat_spec in Hin. now subst.
  - reflexivity.
  - rewrite issued_RenderEnd. unfold renderEndCalls.
    rewrite genericTextureCalls_no_vertices by exact Hnone.
    cbn [app]. rewrite drawsFrom_app, drawsFrom_vectorsCalls by reflexivity.
    rewrite app_nil_r.
    unfold drawsFrom, beforeGenericTexturesCalls.
    repeat match goal with
           | |- context [if ?b then _ else _] => destruct b
           end; reflexivity.
  - rewrite issued_RenderEnd. unfold renderEndCalls.
    rewrite genericTextureCalls_no_vertices by exact Hnone.
    rewrite !filter_app, filter_isBufferDataCall_beforeGenericTexturesCalls,
      filter_isBufferDataCall_vectorsCalls.
    reflexivity.
  - rewrite RenderEnd_allocated, Hnone. reflexivity.
Qed.

(** *** The constructor and the uploads *)

(** X19. A newly constructed context is ready for its points: when the byte
    size of the colour buffer is one OpenGL accepts, the colour and plane-id
    buffers hold [pointCount] slots, every colour upload of a range within
    the points returns, in a debug and in a release build, and so does every
    plane-id upload. *)
Theorem new_context_accepts_uploads
    (shipId shipCount pointCount : Z) (shipRenderMode : ShipRenderMode.t)
    (debugShipRenderMode : DebugShipRenderMode.t)
    (vectorFieldRenderMode : VectorFieldRenderMode.t)
    (showStressedSprings : bool) (color0 : vec4f) :
  0 <= pointCount ->
  pointCount * sizeof_vec4f <= Int.PTRDIFF_MAX ->
  let c :=
    newShipRenderContext shipId shipCount pointCount shipRenderMode
      debugShipRenderMode vectorFieldRenderMode showStressedSprings color0 in
  size (mPointColorVBO c) = pointCount
  /\ size (mPointPlaneIdVBO c) = pointCount
  /\ (forall NDEBUG color startIndex count,
        0 <= startIndex -> 0 <= count -> startIndex + count <= pointCount ->
        exists c', UploadShipPointColorRange NDEBUG color startIndex count c = Ok c')
  /\ (forall planeId maxMaxPlaneId,
        exists c', UploadPointPlaneIds planeId maxMaxPlaneId c = Ok c').
Proof.
  intros Hpc Hbytes c.
  destruct (newShipRenderContext_spec shipId shipCount pointCount shipRenderMode
              debugShipRenderMode vectorFieldRenderMode showStressedSprings
              color0 Hpc Hbytes) as (Hwf & _).
  fold c in Hwf.
  assert (Hcount : mPointCount c = pointCount) by reflexivity.
  pose proof Hwf as (Hcolor & Hplane & _).
  rewrite Hcount in Hcolor, Hplane.
  split; [exact Hcolor |]. split; [exact Hplane |]. split.
  - intros NDEBUG color startIndex count Hs Hn Hfit.
    eexists. apply UploadShipPointColorRange_in_range; assumption.
  - intros planeId maxMaxPlaneId.
    eexists. now apply UploadPointPlaneIds_ok.
Qed.

Lemma new_context_accepts_uploads_witness :
  size
    (mPointColorVBO
       (newShipRenderContext 0 1 4 ShipRenderMode.Texture
          DebugShipRenderMode.None VectorFieldRenderMode.None false opaqueBlack))
  = 4
  /\ size
       (mPointPlaneIdVBO
          (newShipRenderContext 0 1 4 ShipRenderMode.Texture
             DebugShipRenderMode.None VectorFieldRenderMode.None false
             opaqueBlack))
     = 4
  /\ (forall NDEBUG color startIndex count,
        0 <= startIndex -> 0 <= count -> startIndex + count <= 4 ->
        exists c',
          UploadShipPointColorRange NDEBUG color startIndex count
            (newShipRenderContext 0 1 4 ShipRenderMode.Texture
               DebugShipRenderMode.None VectorFieldRenderMode.None false
               opaqueBlack)
          = Ok c')
  /\ (forall planeId maxMaxPlaneId,
        exists c',
          UploadPointPlaneIds planeId maxMaxPlaneId
            (newShipRenderContext 0 1 4 ShipRenderMode.Texture
               DebugShipRenderMode.None VectorFieldRenderMode.None false
               opaqueBlack)
          = Ok c').
Proof.
  apply (new_context_accepts_uploads 0 1 4 ShipRenderMode.Texture
           DebugShipRenderMode.None VectorFieldRenderMode.None false opaqueBlack).
  - discriminate.
  - discriminate.
Defined.

(** *** The other point buffers *)

Lemma glBufferSubData_whole {A : Type} elemSize (store data : list A) n :
  0 < elemSize -> 0 <= n -> n * elemSize <= Int.PTRDIFF_MAX ->
  glBufferSubData elemSize store 0
    (Int.GLsizeiptr (Int.size_t (n * elemSize))) data
  = if n <=? size store then Some (wholeUpload n data store) else None.
Proof.
  intros He Hn Hbytes.
  rewrite byte_count_small by nia.
  unfold glBufferSubData, wholeUpload.
  replace (0 <? 0) with false by reflexivity.
  destruct (Z.ltb_spec (n * elemSize) 0) as [L | _]; [nia |].
  cbn [orb].
  destruct (Z.ltb_spec (elemSize * size store) (0 + n * elemSize)) as [L | L];
    destruct (Z.leb_spec n (size store)) as [L' | L']; try nia; [reflexivity |].
  rewrite Z.div_0_l, Z.div_mul by lia. reflexivity.
Qed.

Lemma wholeUpload_allocated {A : Type} n (data store : list A) :
  size store = n -> wholeUpload n data store = firstn (Z.to_nat n) data.
Proof.
  intro H. unfold wholeUpload.
  now rewrite (skipn_size_nil _ _ H), app_nil_r.
Qed.

(** X20. [UploadPoints] returns exactly when each of the position, light
    and water buffer objects holds at least [mPointCount] slots, and fails
    on the OpenGL error otherwise; when it returns, the first [mPointCount]
    slots of the three buffers hold the first [mPointCount] entries of the
    arrays supplied, and the texture coordinates are untouched. *)
Theorem UploadPoints_returns_iff_allocated
    (position : list vec2f) (light water : list R)
    (c : ShipRenderContext) (b : PointAttributeBuffers) :
  0 <= mPointCount c ->
  mPointCount c * sizeof_vec2f <= Int.PTRDIFF_MAX ->
  UploadPoints position light water c b
  = if (mPointCount c <=? size (mPointPositionVBO b))
       && (mPointCount c <=? size (mPointLightVBO b))
       && (mPointCount c <=? size (mPointWaterVBO b))
    then Ok (mkPointAttributeBuffers
               (wholeUpload (mPointCount c) position (mPointPositionVBO b))
               (wholeUpload (mPointCount c) light (mPointLightVBO b))
               (wholeUpload (mPointCount c) water (mPointWaterVBO b))
               (mPointElementTextureCoordinatesVBO b))
    else Fail OpenGLError.
Proof.
  intros Hpc Hbytes. unfold sizeof_vec2f in Hbytes.
  unfold UploadPoints.
  rewrite !glBufferSubData_whole by (unfold sizeof_vec2f, sizeof_float; lia).
  destruct (mPointCount c <=? size (mPointPositionVBO b)); [| reflexivity].
  destruct (mPointCount c <=? size (mPointLightVBO b)); [| reflexivity].
  destruct (mPointCount c <=? size (mPointWaterVBO b)); reflexivity.
Qed.

Lemma UploadPoints_returns_iff_allocated_witness :
  UploadPoints [mkvec2f 1 2; mkvec2f 3 4; mkvec2f 5 6; mkvec2f 7 8]
    [1; 1; 1; 1]%R [0; 0; 0; 0]%R scenarioShip
    (mkPointAttributeBuffers (repeat vec2.zero 4) (repeat 0%R 4) (repeat 0%R 3) [])
  = if (mPointCount scenarioShip <=? size (repeat vec2.zero 4))
       && (mPointCount scenarioShip <=? size (repeat 0%R 4))
       && (mPointCount scenarioShip <=? size (repeat 0%R 3))
    then Ok (mkPointAttributeBuffers
               (wholeUpload (mPointCount scenarioShip)
                  [mkvec2f 1 2; mkvec2f 3 4; mkvec2f 5 6; mkvec2f 7 8]
                  (repeat vec2.zero 4))
               (wholeUpload (mPointCount scenarioShip) [1; 1; 1; 1]%R
                  (repeat 0%R 4))
               (wholeUpload (mPointCount scenarioShip) [0; 0; 0; 0]%R
                  (repeat 0%R 3))
               [])
    else Fail OpenGLError.
Proof.
  apply (UploadPoints_returns_iff_allocated
           [mkvec2f 1 2; mkvec2f 3 4; mkvec2f 5 6; mkvec2f 7 8]
           [1; 1; 1; 1]%R [0; 0; 0; 0]%R scenarioShip
           (mkPointAttributeBuffers (repeat vec2.zero 4) (repeat 0%R 4)
              (repeat 0%R 3) [])).
  - discriminate.
  - discriminate.
Defined.

(** X21. [UploadPointImmutableGraphicalAttributes] replaces every colour
    and every texture coordinate: on allocated buffers it returns, the
    colour buffer then holds the first [mPointCount] colours supplied, as
    after [UploadShipPointColorRange] over the whole range, the texture
    coordinates hold the first [mPointCount] supplied, and positions, light
    and water are untouched. *)
Theorem UploadPointImmutableGraphicalAttributes_replaces_all
    (NDEBUG : bool) (color : list vec4f) (textureCoordinates : list vec2f)
    (c : ShipRenderContext) (b : PointAttributeBuffers) :
  pointBuffersAllocated c ->
  size (mPointElementTextureCoordinatesVBO b) = mPointCount c ->
  UploadPointImmutableGraphicalAttributes color textureCoordinates c b
  = Ok (set_mPointColorVBO (firstn (Z.to_nat (mPointCount c)) color) c,
        mkPointAttributeBuffers (mPointPositionVBO b) (mPointLightVBO b)
          (mPointWaterVBO b)
          (firstn (Z.to_nat (mPointCount c)) textureCoordinates))
  /\ UploadShipPointColorRange NDEBUG color 0 (mPointCount c) c
     = Ok (set_mPointColorVBO (firstn (Z.to_nat (mPointCount c)) color) c).
Proof.
  intros Hwf Htex. pose proof Hwf as (Hcolor & _ & Hbytes).
  assert (Hpc : 0 <= mPointCount c) by (rewrite <- Hcolor; apply size_nonneg).
  unfold sizeof_vec4f in Hbytes.
  split.
  - unfold UploadPointImmutableGraphicalAttributes.
    rewrite !glBufferSubData_whole by (unfold sizeof_vec4f, sizeof_vec2f; lia).
    rewrite Hcolor, Htex, Z.leb_refl. cbn [CheckOpenGLError bind].
    now rewrite !wholeUpload_allocated by assumption.
  - rewrite UploadShipPointColorRange_in_range by (try assumption; lia).
    do 2 f_equal. unfold colorRangeReplaced.
    cbn [Z.to_nat firstn app Nat.add].
    now rewrite (skipn_size_nil _ _ Hcolor), app_nil_r.
Qed.

Lemma UploadPointImmutableGraphicalAttributes_replaces_all_witness :
  UploadPointImmutableGraphicalAttributes
    [opaqueBlack; opaqueBlack; opaqueBlack; opaqueBlack; opaqueBlack]
    [mkvec2f 0 0; mkvec2f 0 1; mkvec2f 1 0; mkvec2f 1 1] scenarioShip
    (mkPointAttributeBuffers [] [] [] (repeat vec2.zero 4))
  = Ok (set_mPointColorVBO
          (firstn (Z.to_nat (mPointCount scenarioShip))
             [opaqueBlack; opaqueBlack; opaqueBlack; opaqueBlack; opaqueBlack])
          scenarioShip,
        mkPointAttributeBuffers [] [] []
          (firstn (Z.to_nat (mPointCount scenarioShip))
             [mkvec2f 0 0; mkvec2f 0 1; mkvec2f 1 0; mkvec2f 1 1]))
  /\ UploadShipPointColorRange false
       [opaqueBlack; opaqueBlack; opaqueBlack; opaqueBlack; opaqueBlack]
       0 (mPointCount scenarioShip) scenarioShip
     = Ok (set_mPointColorVBO
             (firstn (Z.to_nat (mPointCount scenarioShip))
                [opaqueBlack; opaqueBlack; opaqueBlack; opaqueBlack; opaqueBlack])
             scenarioShip).
Proof.
  apply (UploadPointImmutableGraphicalAttributes_replaces_all false
           [opaqueBlack; opaqueBlack; opaqueBlack; opaqueBlack; opaqueBlack]
           [mkvec2f 0 0; mkvec2f 0 1; mkvec2f 1 0; mkvec2f 1 1] scenarioShip
           (mkPointAttributeBuffers [] [] [] (repeat vec2.zero 4))).
  - exact scenarioShip_pointBuffersAllocated.
  - reflexivity.
Defined.

(** *** Shader parameters *)

(** X22. The water level of detail is handed to the shaders transformed,
    in single precision: [OnWaterLevelOfDetailUpdated] sets one and the same
    threshold in the four programs ropes, triangles (colour and texture)
    and points, whatever the level.  The threshold is exactly 2 at level 0,
    and at level 1 it is [10737408 * 2^-30] (0.00999999046...), which is
    below the single-precision 0.01: the end value of the transform, as the
    comment in the source gives it, is not reached.  Nor is the transform
    strictly decreasing: level [2^-30] gives 2 again. *)
Theorem OnWaterLevelOfDetailUpdated_threshold (mWaterLevelOfDetail : Float32.t) :
  (exists threshold,
     OnWaterLevelOfDetailUpdated mWaterLevelOfDetail
     = map (fun program =>
              mkSetProgramParameter program
                ProgramParameterType.WaterLevelThreshold threshold)
         [ProgramType.ShipRopes; ProgramType.ShipTrianglesColor;
          ProgramType.ShipTrianglesTexture; ProgramType.ShipPointsColor])
  /\ map parameterValue (OnWaterLevelOfDetailUpdated Float32.zero)
     = repeat Float32.two 4
  /\ map parameterValue (OnWaterLevelOfDetailUpdated Float32.one)
     = repeat (Float32.finite 10737408 (-30)) 4
  /\ Float32.ltb (Float32.finite 10737408 (-30)) Float32.hundredth = true
  /\ map parameterValue
       (OnWaterLevelOfDetailUpdated (Float32.finite 8388608 (-53)))
     = repeat Float32.two 4.
Proof.
  split.
  - eexists. unfold OnWaterLevelOfDetailUpdated. cbv zeta. cbn [map].
    reflexivity.
  - repeat split; vm_compute; reflexivity.
Qed.

(** X23. Which program is given which parameter by the three updates the
    constructor runs: every program but the stressed-spring one holds the
    ambient light intensity; the water contrast and the water level
    threshold are held by ropes, triangles and points only, not by generic
    textures, vectors or stressed springs. *)
Theorem parameter_updates_by_program
    (mAmbientLightIntensity mWaterContrast mWaterLevelOfDetail : Float32.t)
    (program : ProgramType.t) :
  let calls :=
    OnAmbientLightIntensityUpdated mAmbientLightIntensity
    ++ OnWaterContrastUpdated mWaterContrast
    ++ OnWaterLevelOfDetailUpdated mWaterLevelOfDetail in
  programParameter program ProgramParameterType.AmbientLightIntensity calls
  = (if ProgramType.eqb program ProgramType.ShipStressedSprings then None
     else Some mAmbientLightIntensity)
  /\ programParameter program ProgramParameterType.WaterContrast calls
     = (if hasWaterParameters program then Some mWaterContrast else None)
  /\ programParameter program ProgramParameterType.WaterLevelThreshold calls
     = (if hasWaterParameters program
        then Some
               (Float32.add Float32.two
                  (Float32.mul mWaterLevelOfDetail
                     (Float32.add (Float32.opp Float32.two) Float32.hundredth)))
        else None).
Proof.
  destruct program; repeat split; reflexivity.
Qed.

(** *** How many indices each stream draws *)

Lemma index_count_small k n :
  0 <= k * n < 2 ^ 31 -> Int.GLsizei (Int.size_t (k * n)) = k * n.
Proof.
  intro H. rewrite size_t_small.
  - now apply GLsizei_small.
  - change (2 ^ 31) with 2147483648 in H.
    change (2 ^ 64) with 18446744073709551616. lia.
Qed.

(** X24. What [RenderEnd] draws from each element stream, when the index
    counts are representable: ropes always, with two indices per rope, even
    when there is none; springs with two indices each, triangles with three
    and points with one, if the modes draw them at all; stressed springs
    with two indices each, and only when there is one, the toggle is on and
    no debug mode is; ephemeral points only when there is one. *)
Theorem RenderEnd_index_counts (c : ShipRenderContext) :
  indexCountsFit c ->
  drawsFrom mRopeElementVBO (issued RenderEnd c)
  = [2 * size (mRopeElementBuffer c)]
  /\ Forall (eq (2 * size (mSpringElementBuffer c)))
       (drawsFrom mSpringElementVBO (issued RenderEnd c))
  /\ Forall (eq (3 * size (mTriangleElementBuffer c)))
       (drawsFrom mTriangleElementVBO (issued RenderEnd c))
  /\ Forall (eq (size (mPointElementBuffer c)))
       (drawsFrom mPointElementVBO (issued RenderEnd c))
  /\ drawsFrom mStressedSpringElementVBO (issued RenderEnd c)
     = (if debugIs DebugShipRenderMode.None c && mShowStressedSprings c
           && negb (empty (mStressedSpringElementBuffer c))
        then [2 * size (mStressedSpringElementBuffer c)] else [])
  /\ drawsFrom mEphemeralPointVBO (issued RenderEnd c)
     = (if empty (mEphemeralPoints c) then []
        else [size (mEphemeralPoints c)]).
Proof.
  intros (Hpoints & Hsprings & Hropes & Htriangles & Hstressed & Hephemeral).
  pose proof (size_nonneg (mPointElementBuffer c)).
  pose proof (size_nonneg (mSpringElementBuffer c)).
  pose proof (size_nonneg (mRopeElementBuffer c)).
  pose proof (size_nonneg (mTriangleElementBuffer c)).
  pose proof (size_nonneg (mStressedSpringElementBuffer c)).
  pose proof (size_nonneg (mEphemeralPoints c)).
  rewrite issued_RenderEnd.
  rewrite !drawsFrom_renderEndCalls by reflexivity.
  unfold beforeGenericTexturesCalls, ropesCall.
  rewrite !index_count_small by lia.
  rewrite (GLsizei_small (size (mEphemeralPoints c))) by lia.
  rewrite Z.mul_1_l.
  unfold drawsTriangles, drawsSprings.
  destruct (debugIs DebugShipRenderMode.Points c),
    (debugIs DebugShipRenderMode.Wireframe c),
    (debugIs DebugShipRenderMode.Springs c),
    (debugIs DebugShipRenderMode.EdgeSprings c),
    (debugIs DebugShipRenderMode.None c), (isStructure c), (isTexture c),
    (mShowStressedSprings c), (empty (mStressedSpringElementBuffer c)),
    (empty (mEphemeralPoints c));
    cbn [andb orb negb app drawsFrom filter readsFrom VBO_eqb map drawCount];
    repeat split; repeat constructor.
Qed.

Lemma RenderEnd_index_counts_witness :
  drawsFrom mRopeElementVBO (issued RenderEnd scenarioShip)
  = [2 * size (mRopeElementBuffer scenarioShip)]
  /\ Forall (eq (2 * size (mSpringElementBuffer scenarioShip)))
       (drawsFrom mSpringElementVBO (issued RenderEnd scenarioShip))
  /\ Forall (eq (3 * size (mTriangleElementBuffer scenarioShip)))
       (drawsFrom mTriangleElementVBO (issued RenderEnd scenarioShip))
  /\ Forall (eq (size (mPointElementBuffer scenarioShip)))
       (drawsFrom mPointElementVBO (issued RenderEnd scenarioShip))
  /\ drawsFrom mStressedSpringElementVBO (issued RenderEnd scenarioShip)
     = (if debugIs DebugShipRenderMode.None scenarioShip
           && mShowStressedSprings scenarioShip
           && negb (empty (mStressedSpringElementBuffer scenarioShip))
        then [2 * size (mStressedSpringElementBuffer scenarioShip)] else [])
  /\ drawsFrom mEphemeralPointVBO (issued RenderEnd scenarioShip)
     = (if empty (mEphemeralPoints scenarioShip) then []
        else [size (mEphemeralPoints scenarioShip)]).
Proof.
  apply (RenderEnd_index_counts scenarioShip).
  repeat split.
Defined.

Lemma beforeGenericTexturesCalls_stressed_springs_start c :
  beforeGenericTexturesCalls (UploadElementStressedSpringsStart c)
  = (if debugIs DebugShipRenderMode.Points c
     then [glDrawElements ProgramType.ShipPointsColor GL_POINTS mPointElementVBO
             (Int.GLsizei (Int.size_t (1 * size (mPointElementBuffer c))))]
     else [])
    ++ (if drawsTriangles c
        then [glDrawElements (trianglesProgram (isTexture c)) GL_TRIANGLES
                mTriangleElementVBO
                (Int.GLsizei (Int.size_t (3 * size (mTriangleElementBuffer c))))]
        else [])
    ++ (if negb (debugIs DebugShipRenderMode.None c) || negb (isStructure c)
        then [ropesCall c] else [])
    ++ (if drawsSprings c
        then [glDrawElements
                (trianglesProgram (debugIs DebugShipRenderMode.None c && isTexture c))
                GL_LINES mSpringElementVBO
                (Int.GLsizei (Int.size_t (2 * size (mSpringElementBuffer c))))]
        else [])
    ++ (if debugIs DebugShipRenderMode.None c && isStructure c
        then [ropesCall c] else [])
    ++ []
    ++ (if empty (mEphemeralPoints c) then []
        else [glDrawElements ProgramType.ShipPointsColor GL_POINTS mEphemeralPointVBO
                (Int.GLsizei (size (mEphemeralPoints c)))]).
Proof.
  unfold beforeGenericTexturesCalls.
  replace (debugIs DebugShipRenderMode.None (UploadElementStressedSpringsStart c)
           && mShowStressedSprings (UploadElementStressedSpringsStart c)
           && negb (empty (mStressedSpringElementBuffer
                             (UploadElementStressedSpringsStart c))))
    with false
    by (cbn [UploadElementStressedSpringsStart mStressedSpringElementBuffer
             set_mStressedSpringElementBuffer empty negb];
        now rewrite andb_false_r).
  reflexivity.
Qed.

Lemma beforeGenericTexturesCalls_ephemeral_points_start c :
  beforeGenericTexturesCalls (UploadEphemeralPointsStart c)
  = (if debugIs DebugShipRenderMode.Points c
     then [glDrawElements ProgramType.ShipPointsColor GL_POINTS mPointElementVBO
             (Int.GLsizei (Int.size_t (1 * size (mPointElementBuffer c))))]
     else [])
    ++ (if drawsTriangles c
        then [glDrawElements (trianglesProgram (isTexture c)) GL_TRIANGLES
                mTriangleElementVBO
                (Int.GLsizei (Int.size_t (3 * size (mTriangleElementBuffer c))))]
        else [])
    ++ (if negb (debugIs DebugShipRenderMode.None c) || negb (isStructure c)
        then [ropesCall c] else [])
    ++ (if drawsSprings c
        then [glDrawElements
                (trianglesProgram (debugIs DebugShipRenderMode.None c && isTexture c))
                GL_LINES mSpringElementVBO
                (Int.GLsizei (Int.size_t (2 * size (mSpringElementBuffer c))))]
        else [])
    ++ (if debugIs DebugShipRenderMode.None c && isStructure c
        then [ropesCall c] else [])
    ++ (if debugIs DebugShipRenderMode.None c && mShowStressedSprings c
           && negb (empty (mStressedSpringElementBuffer c))
        then [glDrawElements ProgramType.ShipStressedSprings GL_LINES
                mStressedSpringElementVBO
                (Int.GLsizei (Int.size_t (2 * size (mStressedSpringElementBuffer c))))]
        else [])
    ++ [].
Proof.
  reflexivity.
Qed.

(** X25. Starting an upload of stressed springs, or of ephemeral points,
    clears that stream and no other: a [RenderEnd] straight after draws
    nothing from the cleared stream, and from every other buffer what it
    would have drawn without the start. *)
Theorem RenderEnd_after_stream_start (c : ShipRenderContext) (buffer : VBO) :
  drawsFrom buffer (issued RenderEnd (UploadElementStressedSpringsStart c))
  = (if VBO_eqb buffer mStressedSpringElementVBO then []
     else drawsFrom buffer (issued RenderEnd c))
  /\ drawsFrom buffer (issued RenderEnd (UploadEphemeralPointsStart c))
     = (if VBO_eqb buffer mEphemeralPointVBO then []
        else drawsFrom buffer (issued RenderEnd c)).
Proof.
  rewrite !issued_RenderEnd.
  split.
  - destruct (VBO_eqb buffer mStressedSpringElementVBO) eqn:Hbuffer.
    + destruct buffer; try discriminate.
      rewrite drawsFrom_renderEndCalls by reflexivity.
      rewrite beforeGenericTexturesCalls_stressed_springs_start.
      unfold ropesCall.
      repeat match goal with
             | |- context [if ?b then _ else _] => destruct b
             end; reflexivity.
    + unfold renderEndCalls.
      rewrite beforeGenericTexturesCalls_stressed_springs_start.
      change (vectorsCalls (UploadElementStressedSpringsStart c))
        with (vectorsCalls c).
      change (mGenericTextureConnectedComponents
                (UploadElementStressedSpringsStart c))
        with (mGenericTextureConnectedComponents c).
      change (mGenericTextureAllocatedVertexBufferSize
                (UploadElementStressedSpringsStart c))
        with (mGenericTextureAllocatedVertexBufferSize c).
      change (mGenericTextureMaxVertexBufferSize
                (UploadElementStressedSpringsStart c))
        with (mGenericTextureMaxVertexBufferSize c).
      unfold beforeGenericTexturesCalls.
      rewrite !drawsFrom_app.
      destruct (debugIs DebugShipRenderMode.None c && mShowStressedSprings c
                && negb (empty (mStressedSpringElementBuffer c)));
        [| reflexivity].
      destruct buffer; try reflexivity. discriminate.
  - destruct (VBO_eqb buffer mEphemeralPointVBO) eqn:Hbuffer.
    + destruct buffer; try discriminate.
      rewrite drawsFrom_renderEndCalls by reflexivity.
      rewrite beforeGenericTexturesCalls_ephemeral_points_start.
      unfold ropesCall.
      repeat match goal with
             | |- context [if ?b then _ else _] => destruct b
             end; reflexivity.
    + unfold renderEndCalls.
      rewrite beforeGenericTexturesCalls_ephemeral_points_start.
      change (vectorsCalls (UploadEphemeralPointsStart c)) with (vectorsCalls c).
      change (mGenericTextureConnectedComponents (UploadEphemeralPointsStart c))
        with (mGenericTextureConnectedComponents c).
      change (mGenericTextureAllocatedVertexBufferSize
                (UploadEphemeralPointsStart c))
        with (mGenericTextureAllocatedVertexBufferSize c).
      change (mGenericTextureMaxVertexBufferSize (UploadEphemeralPointsStart c))
        with (mGenericTextureMaxVertexBufferSize c).
      unfold beforeGenericTexturesCalls.
      rewrite !drawsFrom_app.
      destruct (empty (mEphemeralPoints c)); [reflexivity |].
      destruct buffer; try reflexivity. discriminate.
Qed.
